(** * Transaction plans of the vibekit web client and its agents

    A shallow embedding of
    - [clients/web/lib/counterUtils.ts] and [clients/web/lib/multisigUtils.ts]
      (turning an agent response into a preview and a transaction plan),
    - [examples/counter-agent-no-wallet/src/agent.ts] (the counter agent),
    - the chat widget and the [MultisigTrade] card (which controls they render),
    - the transaction-plan executor behind [useTransactionExecutor].

    JavaScript values are embedded as follows: an optional field or a
    nullable value is an [option]; a string is a [string]; an array is a
    [list]; a thrown exception is the [Throw] branch of [Result]. *)

From Stdlib Require Import ZArith NArith String Ascii List Bool Lia.
From stdpp Require Import base list strings pretty.
Import ListNotations.

Local Open Scope Z_scope.

(** ** [lib/transactionUtils]: the plan type

    Only the type is imported by the files modelled here.  A step carries
    its [value] as the string the agent sent. *)
Module TransactionUtils.

Record TxStep := mkTxStep {
  to : string;
  data : string;
  value : string;
  chainId : Z
}.

Definition TxPlan := list TxStep.

(** Arbitrum Sepolia, the chain id written into every extracted step. *)
Definition ARBITRUM_SEPOLIA : Z := 421614.

End TransactionUtils.

(** The [txData] object of an agent response ([{ to, data, value }]). *)
Record TxData := mkTxData {
  td_to : string;
  td_data : string;
  td_value : string
}.

Inductive TaskState := completed | failed.

(** ** [lib/counterUtils.ts] *)
Module CounterUtils.
Import TransactionUtils.

Record Metadata := mkMetadata {
  operation : string;
  contractAddress : string;
  currentValue : string;
  expectedNewValue : option string;
  newValue : option string;
  userAddress : string;
  txData : option TxData
}.

(** [status.message.parts] is kept as the list of its texts. *)
Record CounterAgentResponse := mkResponse {
  id : string;
  state : TaskState;
  parts : list string;
  metadata : option Metadata
}.

Record TxPreview := mkPreview {
  p_operation : string;
  p_contractAddress : string;
  p_currentValue : string;
  p_expectedNewValue : option string;
  p_newValue : option string;
  p_userAddress : string
}.

Record Extracted := mkExtracted {
  txPreview : option TxPreview;
  txPlan : option TxPlan
}.

(** [metadata.operation === 'increment' || metadata.operation === 'set'] *)
Definition isWriteOperation (op : string) : bool :=
  String.eqb op "increment" || String.eqb op "set".

Definition extractCounterTransactionData (response : CounterAgentResponse)
  : Extracted :=
  match metadata response with
  | None => {| txPreview := None; txPlan := None |}
  | Some metadata =>
      let txPreview :=
        {| p_operation := operation metadata;
           p_contractAddress := contractAddress metadata;
           p_currentValue := currentValue metadata;
           p_expectedNewValue := expectedNewValue metadata;
           p_newValue := newValue metadata;
           p_userAddress := userAddress metadata |} in
      let txPlan :=
        match txData metadata with
        | Some txData =>
            if isWriteOperation (operation metadata)
            then Some [ {| to := td_to txData;
                           data := td_data txData;
                           value := td_value txData;
                           chainId := ARBITRUM_SEPOLIA |} ]
            else None
        | None => None
        end in
      {| txPreview := Some txPreview; txPlan := txPlan |}
  end.

End CounterUtils.

(** ** [lib/multisigUtils.ts]

    The file holds two revisions of the same module.  They differ in the
    operations they know; both are modelled, the first as [MultisigUtils]
    and the one with [deposit] and [revokeConfirmation] as
    [MultisigUtilsDeposit]. *)
Record SwapDetails := mkSwapDetails {
  fromToken : string;
  toToken : string;
  amount : string;
  fromChain : option string;
  toChain : option string
}.

Record TransactionDetails := mkTransactionDetails {
  tx_to : string;
  tx_value : string;
  tx_data : string;
  executed : bool;
  numConfirmations : string
}.

Module MultisigUtils.
Import TransactionUtils.

Record Metadata := mkMetadata {
  operation : string;
  multisigContractAddress : string;
  userAddress : string;
  swapDetails : option SwapDetails;
  originalSwapTx : option TxData;
  owners : option (list string);
  numConfirmationsRequired : option Z;
  txIndex : option Z;
  isOwner : option bool;
  checkAddress : option string;
  txData : option TxData
}.

Record MultisigTradeAgentResponse := mkResponse {
  id : string;
  state : TaskState;
  parts : list string;
  metadata : option Metadata
}.

Record TxPreview := mkPreview {
  p_operation : string;
  p_multisigContractAddress : string;
  p_userAddress : string;
  p_swapDetails : option SwapDetails;
  p_originalSwapTx : option TxData;
  p_owners : option (list string);
  p_numConfirmationsRequired : option Z;
  p_txIndex : option Z;
  p_isOwner : option bool;
  p_checkAddress : option string
}.

Record Extracted := mkExtracted {
  txPreview : option TxPreview;
  txPlan : option TxPlan
}.

Definition isWriteOperation (op : string) : bool :=
  String.eqb op "swap" || String.eqb op "initialize"
  || String.eqb op "submitTransaction" || String.eqb op "confirmTransaction"
  || String.eqb op "executeTransaction".

Definition extractMultisigTransactionData
  (response : MultisigTradeAgentResponse) : Extracted :=
  match metadata response with
  | None => {| txPreview := None; txPlan := None |}
  | Some metadata =>
      let txPreview :=
        {| p_operation := operation metadata;
           p_multisigContractAddress := multisigContractAddress metadata;
           p_userAddress := userAddress metadata;
           p_swapDetails := swapDetails metadata;
           p_originalSwapTx := originalSwapTx metadata;
           p_owners := owners metadata;
           p_numConfirmationsRequired := numConfirmationsRequired metadata;
           p_txIndex := txIndex metadata;
           p_isOwner := isOwner metadata;
           p_checkAddress := checkAddress metadata |} in
      let txPlan :=
        match txData metadata with
        | Some txData =>
            if isWriteOperation (operation metadata)
            then Some [ {| to := td_to txData;
                           data := td_data txData;
                           value := td_value txData;
                           chainId := ARBITRUM_SEPOLIA |} ]
            else None
        | None => None
        end in
      {| txPreview := Some txPreview; txPlan := txPlan |}
  end.

End MultisigUtils.

Module MultisigUtilsDeposit.
Import TransactionUtils.

Record Metadata := mkMetadata {
  operation : string;
  multisigContractAddress : string;
  userAddress : string;
  swapDetails : option SwapDetails;
  originalSwapTx : option TxData;
  owners : option (list string);
  numConfirmationsRequired : option Z;
  ethAmount : option string;
  ethValueInWei : option string;
  txIndex : option Z;
  transactionDetails : option TransactionDetails;
  transactionCount : option string;
  isOwner : option bool;
  checkAddress : option string;
  txData : option TxData
}.

Record MultisigTradeAgentResponse := mkResponse {
  id : string;
  state : TaskState;
  parts : list string;
  metadata : option Metadata
}.

Record TxPreview := mkPreview {
  p_operation : string;
  p_multisigContractAddress : string;
  p_userAddress : string;
  p_swapDetails : option SwapDetails;
  p_originalSwapTx : option TxData;
  p_owners : option (list string);
  p_numConfirmationsRequired : option Z;
  p_ethAmount : option string;
  p_ethValueInWei : option string;
  p_txIndex : option Z;
  p_transactionDetails : option TransactionDetails;
  p_transactionCount : option string;
  p_isOwner : option bool;
  p_checkAddress : option string
}.

Record Extracted := mkExtracted {
  txPreview : option TxPreview;
  txPlan : option TxPlan
}.

Definition isWriteOperation (op : string) : bool :=
  String.eqb op "swap" || String.eqb op "initialize"
  || String.eqb op "deposit" || String.eqb op "confirmTransaction"
  || String.eqb op "executeTransaction" || String.eqb op "revokeConfirmation".

Definition extractMultisigTransactionData
  (response : MultisigTradeAgentResponse) : Extracted :=
  match metadata response with
  | None => {| txPreview := None; txPlan := None |}
  | Some metadata =>
      let txPreview :=
        {| p_operation := operation metadata;
           p_multisigContractAddress := multisigContractAddress metadata;
           p_userAddress := userAddress metadata;
           p_swapDetails := swapDetails metadata;
           p_originalSwapTx := originalSwapTx metadata;
           p_owners := owners metadata;
           p_numConfirmationsRequired := numConfirmationsRequired metadata;
           p_ethAmount := ethAmount metadata;
           p_ethValueInWei := ethValueInWei metadata;
           p_txIndex := txIndex metadata;
           p_transactionDetails := transactionDetails metadata;
           p_transactionCount := transactionCount metadata;
           p_isOwner := isOwner metadata;
           p_checkAddress := checkAddress metadata |} in
      let txPlan :=
        match txData metadata with
        | Some txData =>
            if isWriteOperation (operation metadata)
            then Some [ {| to := td_to txData;
                           data := td_data txData;
                           value := td_value txData;
                           chainId := ARBITRUM_SEPOLIA |} ]
            else None
        | None => None
        end in
      {| txPreview := Some txPreview; txPlan := txPlan |}
  end.

End MultisigUtilsDeposit.

(** ** [examples/counter-agent-no-wallet/src/agent.ts] *)

(** A JavaScript computation that may throw.  [Throw] carries what the
    [catch] clauses of the agent read from the exception:
    [error instanceof Error ? error.message : String(error)]. *)
Inductive Result (A : Type) :=
| Ok (a : A)
| Throw (message : string).
Arguments Ok {A} a.
Arguments Throw {A} message.

(** String primitives of the JavaScript runtime used by the agent.  Strings
    are sequences of 8-bit characters; case folding and character classes
    are the ASCII ones. *)
Module JsString.

Definition isDigit (c : ascii) : bool :=
  (48 <=? nat_of_ascii c)%nat && (nat_of_ascii c <=? 57)%nat.

(** Characters that [.] does not match in a regular expression. *)
Definition isLineTerminator (c : ascii) : bool :=
  (nat_of_ascii c =? 10)%nat || (nat_of_ascii c =? 13)%nat.

Definition lowerChar (c : ascii) : ascii :=
  if (65 <=? nat_of_ascii c)%nat && (nat_of_ascii c <=? 90)%nat
  then ascii_of_nat (nat_of_ascii c + 32)
  else c.

Fixpoint toLowerCase (s : string) : string :=
  match s with
  | EmptyString => EmptyString
  | String c r => String (lowerChar c) (toLowerCase r)
  end.

(** [s.includes(sub)] *)
Fixpoint includes (s sub : string) : bool :=
  String.prefix sub s
  || match s with
     | EmptyString => false
     | String _ r => includes r sub
     end.

(** [s.startsWith(p)] returning the rest of [s]. *)
Fixpoint stripPrefix (p s : string) : option string :=
  match p, s with
  | EmptyString, _ => Some s
  | String a p', String b s' =>
      if Ascii.eqb a b then stripPrefix p' s' else None
  | String _ _, EmptyString => None
  end.

(** The longest run of digits at the head of [s]: a greedy [\d+]. *)
Fixpoint takeDigits (s : string) : string :=
  match s with
  | EmptyString => EmptyString
  | String c r => if isDigit c then String c (takeDigits r) else EmptyString
  end.

(** [.*?(\d+)] anchored at the head of [s]: the lazy [.*?] stops at the
    first digit and cannot cross a line terminator. *)
Fixpoint lazyThenDigits (s : string) : option string :=
  match s with
  | EmptyString => None
  | String c r =>
      if isDigit c then Some (takeDigits s)
      else if isLineTerminator c then None
      else lazyThenDigits r
  end.

(** [s.match(/set.*?(\d+)/)]: capture group 1 of the leftmost match. *)
Fixpoint matchSetDigits (s : string) : option string :=
  match s with
  | EmptyString => None
  | String _ r =>
      match
        match stripPrefix "set" s with
        | Some rest => lazyThenDigits rest
        | None => None
        end
      with
      | Some digits => Some digits
      | None => matchSetDigits r
      end
  end.

(** [s.match(/(\d+)/)]: capture group 1 of the leftmost match. *)
Fixpoint matchDigits (s : string) : option string :=
  match s with
  | EmptyString => None
  | String c r => if isDigit c then Some (takeDigits s) else matchDigits r
  end.

Fixpoint parseDigits (acc : N) (s : string) : N :=
  match s with
  | EmptyString => acc
  | String c r => parseDigits (acc * 10 + (N_of_ascii c - 48))%N r
  end.

(** [parseInt] on a run of decimal digits (the only argument it gets).
    The result is kept exact; JavaScript rounds it to a double above
    2^53. *)
Definition parseInt (digits : string) : N := parseDigits 0%N digits.

(** A string is truthy unless empty. *)
Definition truthy (s : string) : bool := negb (String.eqb s EmptyString).

(** [n.toString()] for a non-negative integer. *)
Definition toString (n : N) : string := pretty n.

Definition doubleQuote : string := String "034"%char EmptyString.

End JsString.

Module CounterAgent.
Import JsString CounterUtils.

Inductive OperationType := read | increment | set.

Record CounterOperation := mkOperation {
  type : OperationType;
  op_value : option N
}.

(** The task type of a2a-samples-js restricted to the fields the agent
    fills; it is the web client's [CounterAgentResponse]. *)
Definition Task := CounterAgentResponse.

(** What the agent reads from outside itself. *)
Record World := mkWorld {
  agentContract : string;              (* this.contractAddress *)
  readNumber : Result N;               (* publicClient.readContract, 'number' *)
  encodeIncrement : Result string;     (* encodeFunctionData, 'increment' *)
  encodeSetNumber : N -> Result string;(* encodeFunctionData, 'setNumber', [BigInt(newValue)] *)
  nowAtStart : string;                 (* Date.now() in the try block *)
  randomSuffix : string;               (* Math.random().toString(36).substring(7) *)
  nowAtCatch : string                  (* Date.now() in the catch block *)
}.

(** The value of [setMatch]: a match array (its group 1), [null], or the
    boolean left by [match(/(\d+)/) && includes('set')]. *)
Inductive SetMatch :=
| MatchArray (group1 : string)
| MatchNull
| MatchBool (b : bool).

Definition setMatchOf (lowerInstruction : string) : SetMatch :=
  match matchSetDigits lowerInstruction with
  | Some g => MatchArray g
  | None =>
      match matchDigits lowerInstruction with
      | Some _ => MatchBool (includes lowerInstruction "set")
      | None => MatchNull
      end
  end.

Definition setMatchTruthy (m : SetMatch) : bool :=
  match m with
  | MatchArray _ => true
  | MatchNull => false
  | MatchBool b => b
  end.

Definition parseInstruction (instruction : string) : Result CounterOperation :=
  let lowerInstruction := toLowerCase instruction in
  let setMatch := setMatchOf lowerInstruction in
  if setMatchTruthy setMatch || includes lowerInstruction "set" then
    let value :=
      match setMatch with
      | MatchArray g => if truthy g then Some (parseInt g) else None
      | _ => None
      end in
    match value with
    | Some v => Ok {| type := set; op_value := Some v |}
    | None =>
        Throw ("Please specify a number to set the counter to, e.g., "
               +:+ doubleQuote +:+ "Set counter to 42" +:+ doubleQuote)
    end
  else if includes lowerInstruction "increment"
          || includes lowerInstruction "increase"
          || includes lowerInstruction "add"
          || includes lowerInstruction "bump" then
    Ok {| type := increment; op_value := None |}
  else if includes lowerInstruction "get"
          || includes lowerInstruction "current"
          || includes lowerInstruction "value"
          || includes lowerInstruction "read"
          || includes lowerInstruction "what"
          || includes lowerInstruction "show" then
    Ok {| type := read; op_value := None |}
  else
    Ok {| type := read; op_value := None |}.

(** The [txData] both write handlers attach: no ETH is sent. *)
Definition zeroValue : string := "0x0".

Definition handleRead (w : World) (taskId userAddress : string) : Result Task :=
  match readNumber w with
  | Ok currentValue =>
      Ok {| id := taskId;
            state := completed;
            parts := [ "The current counter value is: " +:+ toString currentValue ];
            metadata := Some
              {| operation := "read";
                 contractAddress := agentContract w;
                 currentValue := toString currentValue;
                 expectedNewValue := None;
                 newValue := None;
                 userAddress := userAddress;
                 txData := None |} |}
  | Throw message => Throw ("Failed to read counter value: " +:+ message)
  end.

Definition handleIncrement (w : World) (taskId userAddress : string)
  : Result Task :=
  match
    match readNumber w with
    | Ok currentValue =>
        match encodeIncrement w with
        | Ok txData => Ok (currentValue, txData)
        | Throw message => Throw message
        end
    | Throw message => Throw message
    end
  with
  | Ok (currentValue, txData) =>
      Ok {| id := taskId;
            state := completed;
            parts := [ "Ready to increment counter from " +:+ toString currentValue
                       +:+ " to " +:+ toString (currentValue + 1)%N
                       +:+ ". Please confirm the transaction in MetaMask." ];
            metadata := Some
              {| operation := "increment";
                 contractAddress := agentContract w;
                 currentValue := toString currentValue;
                 expectedNewValue := Some (toString (currentValue + 1)%N);
                 newValue := None;
                 userAddress := userAddress;
                 txData := Some {| td_to := agentContract w;
                                   td_data := txData;
                                   td_value := zeroValue |} |} |}
  | Throw message =>
      Throw ("Failed to prepare increment transaction: " +:+ message)
  end.

Definition handleSet (w : World) (taskId userAddress : string) (newValue : N)
  : Result Task :=
  match
    match readNumber w with
    | Ok currentValue =>
        match encodeSetNumber w newValue with
        | Ok txData => Ok (currentValue, txData)
        | Throw message => Throw message
        end
    | Throw message => Throw message
    end
  with
  | Ok (currentValue, txData) =>
      Ok {| id := taskId;
            state := completed;
            parts := [ "Ready to set counter from " +:+ toString currentValue
                       +:+ " to " +:+ toString newValue
                       +:+ ". Please confirm the transaction in MetaMask." ];
            metadata := Some
              {| operation := "set";
                 contractAddress := agentContract w;
                 currentValue := toString currentValue;
                 expectedNewValue := None;
                 newValue := Some (toString newValue);
                 userAddress := userAddress;
                 txData := Some {| td_to := agentContract w;
                                   td_data := txData;
                                   td_value := zeroValue |} |} |}
  | Throw message => Throw ("Failed to prepare set transaction: " +:+ message)
  end.

Definition createErrorTask (taskId errorMessage : string) : Task :=
  {| id := taskId;
     state := failed;
     parts := [ "Error: " +:+ errorMessage ];
     metadata := None |}.

(** The body of the [try] block of [processUserInput].  The [default]
    arm of its [switch] has no counterpart: [OperationType] has the three
    cases only. *)
Definition tryProcess (w : World) (instruction userAddress : string)
  : Result Task :=
  match parseInstruction instruction with
  | Throw message => Throw message
  | Ok operation =>
      let taskId := "counter-" +:+ nowAtStart w +:+ "-" +:+ randomSuffix w in
      match type operation with
      | read => handleRead w taskId userAddress
      | increment => handleIncrement w taskId userAddress
      | set =>
          match op_value operation with
          | None => Throw "Value is required for set operation"
          | Some v => handleSet w taskId userAddress v
          end
      end
  end.

(** The promise [processUserInput] returns: [Ok] when it fulfils, [Throw]
    when it rejects. *)
Definition processUserInput (w : World) (instruction userAddress : string)
  : Result Task :=
  match tryProcess w instruction userAddress with
  | Ok task => Ok task
  | Throw message =>
      Ok (createErrorTask ("counter-error-" +:+ nowAtCatch w) message)
  end.

(** The first text part of a task's message. *)
Definition messageText (t : Task) : string :=
  match parts t with
  | text :: _ => text
  | [] => EmptyString
  end.

End CounterAgent.

(** ** The transaction-plan executor ([hooks/useTransactionExecutor])

    [MultisigTrade.tsx] imports the hook from [../hooks/useTransactionExecutor];
    the hook's own file is not among the sources.  Everything in this module
    follows the specification's description of the executor (data model,
    derived read state, the two commands and the wallet gateway). *)
Module Executor.
Import TransactionUtils.

(** Modelled from the spec: the error taxonomy of the executor, whose
    source file is missing ([chain-switch-failed], [wallet-rejected],
    [transaction-reverted], [unknown]). *)
Inductive ErrorReason :=
| chain_switch_failed
| wallet_rejected
| transaction_reverted
| unknown.

(** Modelled from the spec: the status of one step of the missing
    executor, one of idle, pending, success, error(reason). *)
Inductive Status :=
| idle
| pending
| success
| error (reason : ErrorReason).

Definition isPending (st : Status) : bool :=
  match st with pending => true | _ => false end.

Definition isSuccess (st : Status) : bool :=
  match st with success => true | _ => false end.

(** Modelled from the spec: the ExecutionState the missing executor owns.
    [stepStatus] holds one status per approval step; the main step's
    status is [mainStatus].  [totalApprovals] is derived from the plan. *)
Record ExecutionState := mkState {
  approvalIndex : nat;
  stepStatus : list Status;
  mainStatus : Status
}.

(** Modelled from the spec: the connection snapshot the missing executor
    is given ([isConnected], [address], [currentChainId]). *)
Record Connection := mkConnection {
  isConnected : bool;
  address : option string;
  currentChainId : option Z
}.

(** Modelled from the spec: [totalApprovals = max(0, plan.length - 1)] of
    the missing executor; a null plan has no step. *)
Definition totalApprovals (txPlan : option TxPlan) : nat :=
  match txPlan with
  | Some plan => Z.to_nat (Z.max 0 (Z.of_nat (length plan) - 1))
  | None => 0%nat
  end.

(** Modelled from the spec: the steps before the last are the approval
    steps of the missing executor. *)
Definition approvalSteps (txPlan : option TxPlan) : list TxStep :=
  match txPlan with
  | Some plan => take (totalApprovals txPlan) plan
  | None => []
  end.

(** Modelled from the spec: the last step is the main step of the missing
    executor. *)
Definition mainStep (txPlan : option TxPlan) : option TxStep :=
  match txPlan with
  | Some plan => last plan
  | None => None
  end.

(** Modelled from the spec: the ExecutionState the missing executor
    creates when a plan is attached: cursor 0, every status idle. *)
Definition attach (txPlan : option TxPlan) : ExecutionState :=
  {| approvalIndex := 0;
     stepStatus := replicate (totalApprovals txPlan) idle;
     mainStatus := idle |}.

(** Modelled from the spec: "plan present" in the gates of the missing
    executor.  A plan with zero steps means nothing to execute and must
    never be submitted (scenario A: [canExecute] is false for []), so
    only a plan with a step counts as present. *)
Definition planPresent (txPlan : option TxPlan) : bool :=
  match txPlan with
  | Some (_ :: _) => true
  | _ => false
  end.

(** Modelled from the spec: the status of the step at [approvalIndex], from
    which the missing executor derives its approval read state. *)
Definition currentStatus (s : ExecutionState) : option Status :=
  stepStatus s !! approvalIndex s.

(** Modelled from the spec: [isApprovalPending] of the missing executor,
    true iff the step at [approvalIndex] has status pending. *)
Definition isApprovalPending (s : ExecutionState) : bool :=
  match currentStatus s with Some pending => true | _ => false end.

(** Modelled from the spec: [approvalError] of the missing executor, the
    error reason of the step at [approvalIndex] if its status is error. *)
Definition approvalError (s : ExecutionState) : option ErrorReason :=
  match currentStatus s with Some (error reason) => Some reason | _ => None end.

(** Modelled from the spec: [isApprovalPhaseComplete] of the missing
    executor, true iff [approvalIndex == totalApprovals]. *)
Definition isApprovalPhaseComplete (txPlan : option TxPlan)
  (s : ExecutionState) : bool :=
  (approvalIndex s =? totalApprovals txPlan)%nat.

(** Modelled from the spec: [isTxPending], [isTxSuccess] and [txError] of
    the missing executor mirror [mainStatus]. *)
Definition isTxPending (s : ExecutionState) : bool := isPending (mainStatus s).

Definition isTxSuccess (s : ExecutionState) : bool := isSuccess (mainStatus s).

Definition txError (s : ExecutionState) : option ErrorReason :=
  match mainStatus s with error reason => Some reason | _ => None end.

(** Every status of the plan: the approval steps, then the main step. *)
Definition allStatuses (s : ExecutionState) : list Status :=
  stepStatus s ++ [mainStatus s].

Definition anyStepPending (s : ExecutionState) : bool :=
  existsb isPending (allStatuses s).

(** Modelled from the spec: [canApprove] of the missing executor, true
    iff connected, plan present, approval phase not complete, and no
    step currently pending. *)
Definition canApprove (txPlan : option TxPlan) (conn : Connection)
  (s : ExecutionState) : bool :=
  isConnected conn && planPresent txPlan
  && negb (isApprovalPhaseComplete txPlan s)
  && negb (anyStepPending s).

(** Modelled from the spec: [canExecute] of the missing executor, true
    iff connected, plan present, approval phase complete, and the main
    status neither pending nor success. *)
Definition canExecute (txPlan : option TxPlan) (conn : Connection)
  (s : ExecutionState) : bool :=
  isConnected conn && planPresent txPlan
  && isApprovalPhaseComplete txPlan s
  && negb (isPending (mainStatus s))
  && negb (isSuccess (mainStatus s)).

(** Modelled from the spec: the read state the missing hook exposes to
    the UI. *)
Record HookState := mkHookState {
  h_approvalIndex : nat;
  h_totalApprovals : nat;
  h_isApprovalPending : bool;
  h_approvalError : option ErrorReason;
  h_isTxPending : bool;
  h_isTxSuccess : bool;
  h_txError : option ErrorReason;
  h_canApprove : bool;
  h_canExecute : bool;
  h_isApprovalPhaseComplete : bool
}.

(** Modelled from the spec: what the missing hook returns for a plan, a
    connection snapshot and the state it holds. *)
Definition useTransactionExecutor (txPlan : option TxPlan)
  (conn : Connection) (s : ExecutionState) : HookState :=
  {| h_approvalIndex := approvalIndex s;
     h_totalApprovals := totalApprovals txPlan;
     h_isApprovalPending := isApprovalPending s;
     h_approvalError := approvalError s;
     h_isTxPending := isTxPending s;
     h_isTxSuccess := isTxSuccess s;
     h_txError := txError s;
     h_canApprove := canApprove txPlan conn s;
     h_canExecute := canExecute txPlan conn s;
     h_isApprovalPhaseComplete := isApprovalPhaseComplete txPlan s |}.

(** *** The wallet gateway *)

(** Modelled from the spec: the two operations the missing executor
    invokes on the wallet gateway. *)
Inductive WalletCall :=
| switchChain (chain : Z)
| sendTransaction (step : TxStep).

(** Modelled from the spec: the result of [sendTransaction],
    [{ success: true } | { success: false, reason }]. *)
Inductive SendResult :=
| confirmed
| rejected (reason : ErrorReason).

(** Modelled from the spec: how the wallet gateway of the missing executor
    answers during one invocation of a command: whether
    the chain switch resolves, and what the submission returns.  Each
    answer is read only if the command makes the call. *)
Record WalletOutcome := mkOutcome {
  switchResolves : bool;
  sendResult : SendResult
}.

(** *** Commands

    A command threads the ExecutionState, logs its wallet calls in order
    and records the state after each mutation (the instants at which the
    UI can observe it).  [result = None] marks an early return. *)
Record Run (A : Type) := mkRun {
  result : option A;
  final : ExecutionState;
  calls : list WalletCall;
  observed : list ExecutionState
}.
Arguments mkRun {A} _ _ _ _.
Arguments result {A} _.
Arguments final {A} _.
Arguments calls {A} _.
Arguments observed {A} _.

Definition Cmd (A : Type) : Type := ExecutionState -> Run A.

Definition ret {A} (a : A) : Cmd A :=
  fun s => mkRun (Some a) s [] [].

Definition bind {A B} (m : Cmd A) (k : A -> Cmd B) : Cmd B :=
  fun s =>
    let r := m s in
    match result r with
    | None => mkRun None (final r) (calls r) (observed r)
    | Some a =>
        let r' := k a (final r) in
        mkRun (result r') (final r')
              (calls r ++ calls r') (observed r ++ observed r')
    end.

(** Return from the command at once. *)
Definition exit {A} : Cmd A :=
  fun s => mkRun None s [] [].

(** Invoke a wallet operation and wait for it. *)
Definition call (c : WalletCall) : Cmd unit :=
  fun s => mkRun (Some tt) s [c] [].

(** Apply one state mutation; the new state becomes observable. *)
Definition mutate (f : ExecutionState -> ExecutionState) : Cmd unit :=
  fun s => mkRun (Some tt) (f s) [] [f s].

Declare Scope cmd_scope.
Delimit Scope cmd_scope with cmd.
Notation "m1 >> m2" := (bind m1 (fun _ => m2))
  (at level 60, right associativity) : cmd_scope.

(** Modelled from the spec: the step a command of the missing executor
    works on. *)
Inductive Target :=
| approval (index : nat)
| main.

(** Modelled from the spec: the missing executor sets the status of the
    step it works on; a status outside the list is not created. *)
Definition setStatus (t : Target) (st : Status) (s : ExecutionState)
  : ExecutionState :=
  match t with
  | approval i =>
      {| approvalIndex := approvalIndex s;
         stepStatus := <[i := st]> (stepStatus s);
         mainStatus := mainStatus s |}
  | main =>
      {| approvalIndex := approvalIndex s;
         stepStatus := stepStatus s;
         mainStatus := st |}
  end.

Definition statusOf (t : Target) (s : ExecutionState) : option Status :=
  match t with
  | approval i => stepStatus s !! i
  | main => Some (mainStatus s)
  end.

(** Modelled from the spec: on confirmation the missing executor sets the
    status to success and, for an approval, increments [approvalIndex]. *)
Definition markSuccess (t : Target) (s : ExecutionState) : ExecutionState :=
  match t with
  | approval i =>
      {| approvalIndex := S (approvalIndex s);
         stepStatus := <[i := success]> (stepStatus s);
         mainStatus := mainStatus s |}
  | main => setStatus main success s
  end.

(** Modelled from the spec: the test [currentChainId != step.chainId] of
    the missing executor; an unknown (null) current chain differs. *)
Definition needsSwitch (conn : Connection) (step : TxStep) : bool :=
  match currentChainId conn with
  | Some c => negb (c =? chainId step)
  | None => true
  end.

(** Modelled from the spec: the chain-switch-then-submit sequence both
    commands of the missing executor follow: (a) if the current chain
    differs, invoke chain-switch and wait; on rejection set the status to
    error(chain-switch-failed) and return without sending; (b) set the
    status to pending; (c) submit through the wallet gateway; (d) on
    confirmation mark success, on failure set error(reason). *)
Definition submit (conn : Connection) (o : WalletOutcome) (t : Target)
  (step : TxStep) : Cmd unit :=
  ((if needsSwitch conn step then
      call (switchChain (chainId step)) >>
      if switchResolves o then ret tt
      else mutate (setStatus t (error chain_switch_failed)) >> exit
    else ret tt) >>
   mutate (setStatus t pending) >>
   call (sendTransaction step) >>
   match sendResult o with
   | confirmed => mutate (markSuccess t)
   | rejected reason => mutate (setStatus t (error reason))
   end)%cmd.

(** Modelled from the spec: [approveNext()] of the missing executor, a
    no-op unless [canApprove]; otherwise the sequence above on the
    approval step at [approvalIndex]. *)
Definition approveNext (txPlan : option TxPlan) (conn : Connection)
  (o : WalletOutcome) : Cmd unit :=
  fun s =>
    if canApprove txPlan conn s then
      match approvalSteps txPlan !! approvalIndex s with
      | Some step => submit conn o (approval (approvalIndex s)) step s
      | None => ret tt s
      end
    else ret tt s.

(** Modelled from the spec: [executeMain()] of the missing executor, a
    no-op unless [canExecute]; otherwise the same sequence on the main
    step. *)
Definition executeMain (txPlan : option TxPlan) (conn : Connection)
  (o : WalletOutcome) : Cmd unit :=
  fun s =>
    if canExecute txPlan conn s then
      match mainStep txPlan with
      | Some step => submit conn o main step s
      | None => ret tt s
      end
    else ret tt s.

(** The two commands the UI can issue. *)
Inductive Command := cmdApproveNext | cmdExecuteMain.

Definition runCommand (c : Command) (txPlan : option TxPlan)
  (conn : Connection) (o : WalletOutcome) : Cmd unit :=
  match c with
  | cmdApproveNext => approveNext txPlan conn o
  | cmdExecuteMain => executeMain txPlan conn o
  end.

Definition targetOf (c : Command) (s : ExecutionState) : Target :=
  match c with
  | cmdApproveNext => approval (approvalIndex s)
  | cmdExecuteMain => main
  end.

Definition stepOf (c : Command) (txPlan : option TxPlan)
  (s : ExecutionState) : option TxStep :=
  match c with
  | cmdApproveNext => approvalSteps txPlan !! approvalIndex s
  | cmdExecuteMain => mainStep txPlan
  end.

(** The guard of each command. *)
Definition enabled (c : Command) (txPlan : option TxPlan) (conn : Connection)
  (s : ExecutionState) : bool :=
  match c with
  | cmdApproveNext => canApprove txPlan conn s
  | cmdExecuteMain => canExecute txPlan conn s
  end.

(** *** One instance over time

    A command is not one step of the instance: it suspends while the
    chain switch is outstanding and again while the wallet signs and the
    transaction confirms, and in between the instance goes on reacting to
    the user and to other promises. *)

(** Modelled from the spec: an invocation of a command of the missing
    executor that is suspended, with the step it took when it passed its
    guard: waiting for the chain switch (before the status is set to
    pending), or for the submission (after). *)
Inductive Flight :=
| awaitingSwitch (t : Target) (step : TxStep)
| awaitingSend (t : Target) (step : TxStep).

Definition isSwitching (f : Flight) : bool :=
  match f with awaitingSwitch _ _ => true | awaitingSend _ _ => false end.

(** Modelled from the spec: one instance of the missing executor between
    two events: the ExecutionState it shows, and its suspended
    invocations, oldest first. *)
Record Instance := mkInstance {
  current : ExecutionState;
  flights : list Flight
}.

(** Modelled from the spec: what the missing executor reacts to, one at a
    time: a command of the user, under the connection snapshot of that
    moment, or a promise of its [k]-th suspended invocation resolving
    (the chain switch granted or rejected, the submission confirmed or
    failed). *)
Inductive Event :=
| invoked (c : Command) (conn : Connection)
| switchSettled (k : nat) (granted : bool)
| sendSettled (k : nat) (r : SendResult).

(** Modelled from the spec: the instance the missing executor creates
    when a plan is attached. *)
Definition start (txPlan : option TxPlan) : Instance :=
  {| current := attach txPlan; flights := [] |}.

(** Modelled from the spec: the reaction of the missing executor to one
    event, the sequence (a)-(d) of its commands cut at its suspension
    points.  A command that passes its guard takes the step at the cursor
    (or the main step) and either waits for the chain switch or sets the
    status to pending and submits; a granted switch sets the status to
    pending and submits, a rejected one sets error(chain-switch-failed);
    a settled submission marks success (an approval increments
    [approvalIndex]) or sets error(reason).  An event that does not apply
    (a command whose guard fails, a promise that is not outstanding)
    changes nothing. *)
Definition react (txPlan : option TxPlan) (e : Event) (i : Instance)
  : Instance :=
  let s := current i in
  match e with
  | invoked c conn =>
      if enabled c txPlan conn s then
        match stepOf c txPlan s with
        | Some step =>
            let t := targetOf c s in
            if needsSwitch conn step then
              {| current := s;
                 flights := flights i ++ [awaitingSwitch t step] |}
            else
              {| current := setStatus t pending s;
                 flights := flights i ++ [awaitingSend t step] |}
        | None => i
        end
      else i
  | switchSettled k granted =>
      match flights i !! k with
      | Some (awaitingSwitch t step) =>
          if granted then
            {| current := setStatus t pending s;
               flights := <[k := awaitingSend t step]> (flights i) |}
          else
            {| current := setStatus t (error chain_switch_failed) s;
               flights := delete k (flights i) |}
      | _ => i
      end
  | sendSettled k r =>
      match flights i !! k with
      | Some (awaitingSend t step) =>
          {| current := match r with
                        | confirmed => markSuccess t s
                        | rejected reason => setStatus t (error reason) s
                        end;
             flights := delete k (flights i) |}
      | _ => i
      end
  end.

Fixpoint play (txPlan : option TxPlan) (events : list Event) (i : Instance)
  : Instance :=
  match events with
  | [] => i
  | e :: rest => play txPlan rest (react txPlan e i)
  end.

(** Modelled from the spec: the states one instance of the missing
    executor can show: those it passes through from [attach] under any
    sequence of events. *)
Definition occurs (txPlan : option TxPlan) (i : Instance) : Prop :=
  exists events, play txPlan events (start txPlan) = i.

Definition reachable (txPlan : option TxPlan) (s : ExecutionState) : Prop :=
  exists i, occurs txPlan i /\ current i = s.

(** An event is quiet when it is not a command invoked while an earlier
    invocation is still waiting for its chain switch. *)
Definition quietAt (e : Event) (i : Instance) : bool :=
  match e with
  | invoked _ _ => negb (existsb isSwitching (flights i))
  | _ => true
  end.

Fixpoint quiet (txPlan : option TxPlan) (events : list Event) (i : Instance)
  : bool :=
  match events with
  | [] => true
  | e :: rest => quietAt e i && quiet txPlan rest (react txPlan e i)
  end.

(** The instances, and the states, of the runs in which no command is
    invoked during a chain-switch wait. *)
Definition occursQuietly (txPlan : option TxPlan) (i : Instance) : Prop :=
  exists events,
    quiet txPlan events (start txPlan) = true
    /\ play txPlan events (start txPlan) = i.

Definition reachableQuietly (txPlan : option TxPlan) (s : ExecutionState)
  : Prop :=
  exists i, occursQuietly txPlan i /\ current i = s.

(** The events of one command running alone from start to end, with the
    wallet answering as [o] says. *)
Definition eventsOf (c : Command) (txPlan : option TxPlan) (conn : Connection)
  (o : WalletOutcome) (s : ExecutionState) : list Event :=
  invoked c conn
  :: if enabled c txPlan conn s then
       match stepOf c txPlan s with
       | Some step =>
           if needsSwitch conn step then
             switchSettled 0 (switchResolves o)
             :: (if switchResolves o then [sendSettled 0 (sendResult o)] else [])
           else [sendSettled 0 (sendResult o)]
       | None => []
       end
     else [].


End Executor.

(** ** The rendered transaction surfaces

    What [components/MultisigTrade.tsx] and the tool-result branch of the
    chat widget put on screen, reduced to the notices and controls they
    render.  A JavaScript value used as a condition is truthy when it is an
    object or an array (also the empty array) and falsy when it is null. *)
Module Web.
Import TransactionUtils Executor.

Inductive Action :=
| onApproveNext      (* onClick={approveNext} *)
| onExecuteMain      (* onClick={executeMain} *)
| onSignAlert.       (* the chat widget's handler: logs the plan, shows an alert *)

Inductive Notice :=
| transactionSuccessful
| executingTransaction
| executionError (reason : ErrorReason)
| processingApproval (current total : nat)
| approvalErrorNotice (reason : ErrorReason)
| allApprovalsSent.

Inductive Label :=
| approvingLabel (current total : nat)
| allApprovedLabel
| approveLabel (current total : nat)
| executingLabel
| executeTransactionLabel
| signTransactionLabel.

Inductive Element :=
| previewSection
| notice (n : Notice)
| button (onClick : Action) (label : Label) (disabled : bool)
| connectWallet.

Inductive View :=
| nothing
| readOnlyCard
| transactionCard (body : list Element).

Definition truthy {A} (v : option A) : bool :=
  match v with Some _ => true | None => false end.

(** [cond && <element/>] *)
Definition when (cond : bool) (e : Element) : list Element :=
  if cond then [e] else [].

Definition whenSome {A} (v : option A) (e : A -> Element) : list Element :=
  match v with Some a => [e a] | None => [] end.

(** [MultisigTrade({ txPreview, txPlan })]; [conn] is what [useAccount]
    returns and [s] the executor's state behind the hook. *)
Definition MultisigTrade {P : Type} (txPreview : option P)
  (txPlan : option TxPlan) (conn : Connection) (s : ExecutionState) : View :=
  let h := useTransactionExecutor txPlan conn s in
  let needsApproval := (0 <? h_totalApprovals h)%nat in
  if truthy txPreview && negb (truthy txPlan) then readOnlyCard
  else if truthy txPlan && truthy txPreview then
    transactionCard
      (previewSection ::
       if isConnected conn then
         when (h_isTxSuccess h) (notice transactionSuccessful)
         ++ when (h_isTxPending h) (notice executingTransaction)
         ++ whenSome (h_txError h) (fun r => notice (executionError r))
         ++ when (needsApproval && h_isApprovalPending h)
              (notice (processingApproval (h_approvalIndex h + 1)
                                          (h_totalApprovals h)))
         ++ (if needsApproval
             then whenSome (h_approvalError h)
                    (fun r => notice (approvalErrorNotice r))
             else [])
         ++ when (needsApproval && h_isApprovalPhaseComplete h
                  && negb (h_isTxPending h) && negb (h_isTxSuccess h)
                  && negb (truthy (h_txError h)))
              (notice allApprovalsSent)
         ++ when needsApproval
              (button onApproveNext
                 (if h_isApprovalPending h
                  then approvingLabel (h_approvalIndex h + 1) (h_totalApprovals h)
                  else if h_isApprovalPhaseComplete h then allApprovedLabel
                  else approveLabel (h_approvalIndex h + 1) (h_totalApprovals h))
                 (negb (h_canApprove h)))
         ++ [ button onExecuteMain
                (if h_isTxPending h then executingLabel
                 else if needsApproval then executeTransactionLabel
                 else signTransactionLabel)
                (negb (h_canExecute h)) ]
       else [ connectWallet ])
  else nothing.

(** The tool-result branch of [ChatbotWidget]: the card rendered for the
    [txPreview] and [txPlan] of a parsed tool response, or [None] when the
    part falls through to plain text. *)
Definition ChatbotWidget_transactionCard {P : Type} (txPreview : option P)
  (txPlan : option TxPlan) : option (list Element) :=
  if truthy txPreview || truthy txPlan then
    Some (when (truthy txPreview) previewSection
          ++ match txPlan with
             | Some plan =>
                 when (0 <? length plan)%nat
                   (button onSignAlert signTransactionLabel false)
             | None => []
             end)
  else None.

(** The controls of a view that can be pressed. *)
Definition isEnabledButton (e : Element) : bool :=
  match e with
  | button _ _ disabled => negb disabled
  | _ => false
  end.

Definition isButton (e : Element) : bool :=
  match e with
  | button _ _ _ => true
  | _ => false
  end.

Definition body (v : View) : list Element :=
  match v with
  | transactionCard b => b
  | _ => []
  end.

End Web.

(** ** Amounts of wei written as strings

    A step's [value] travels as a string.  It denotes a non-negative integer
    when it is a run of decimal digits or [0x] followed by hexadecimal
    digits, the two forms the agents write (['0'], ['0x0'],
    [`0x${wei.toString(16)}`]). *)
Module Wei.
Import JsString.

Definition hexDigitValue (c : ascii) : option N :=
  let n := nat_of_ascii c in
  if (48 <=? n)%nat && (n <=? 57)%nat then Some (N.of_nat (n - 48))
  else if (97 <=? n)%nat && (n <=? 102)%nat then Some (N.of_nat (n - 87))
  else if (65 <=? n)%nat && (n <=? 70)%nat then Some (N.of_nat (n - 55))
  else None.

Fixpoint parseHex (acc : N) (s : string) : option N :=
  match s with
  | EmptyString => Some acc
  | String c r =>
      match hexDigitValue c with
      | Some d => parseHex (acc * 16 + d)%N r
      | None => None
      end
  end.

Fixpoint allDigits (s : string) : bool :=
  match s with
  | EmptyString => true
  | String c r => isDigit c && allDigits r
  end.

Definition weiOfString (s : string) : option N :=
  match stripPrefix "0x" s with
  | Some hex => if truthy hex then parseHex 0%N hex else None
  | None => if truthy s && allDigits s then Some (parseInt s) else None
  end.

Definition isNonNegativeInteger (s : string) : bool :=
  match weiOfString s with Some _ => true | None => false end.

End Wei.

(** ** Vocabulary for the extractors *)
Module ExtractSpec.
Import TransactionUtils.

(** The write operations of each module, as propositions. *)
Definition counterWrite (op : string) : Prop :=
  op = "increment" \/ op = "set".

Definition multisigWrite (op : string) : Prop :=
  op = "swap" \/ op = "initialize" \/ op = "submitTransaction"
  \/ op = "confirmTransaction" \/ op = "executeTransaction".

Definition multisigDepositWrite (op : string) : Prop :=
  op = "swap" \/ op = "initialize" \/ op = "deposit"
  \/ op = "confirmTransaction" \/ op = "executeTransaction"
  \/ op = "revokeConfirmation".

(** The single step every extractor builds from a [txData]. *)
Definition stepOfTxData (td : TxData) : TxStep :=
  {| to := td_to td; data := td_data td; value := td_value td;
     chainId := 421614 |}.

End ExtractSpec.

(** ** Vocabulary for the counter agent *)
Module CounterAgentSpec.
Import CounterUtils CounterAgent.

(** What a task that a handler returns looks like: completed, and with a
    [txData] only of value ['0x0']. *)
Definition wellFormedResult (t : Task) : Prop :=
  state t = completed
  /\ forall m td, metadata t = Some m -> txData m = Some td ->
                  td_value td = zeroValue.

End CounterAgentSpec.

(** ** The executor's guards and invariant *)
Module ExecutorSpec.
Import TransactionUtils Executor.





End ExecutorSpec.

(** ** Vocabulary for the rendered surfaces *)
Module WebSpec.
Import TransactionUtils Executor Web.

(** The controls of the chat widget's card; none when no card is
    rendered. *)
Definition chatControls {P : Type} (txPreview : option P)
  (txPlan : option TxPlan) : list Element :=
  match ChatbotWidget_transactionCard txPreview txPlan with
  | Some elements => filter (fun e => isButton e = true) elements
  | None => []
  end.

End WebSpec.

(** ** Sample data *)
Module Samples.
Import TransactionUtils Executor CounterAgent.

(** Sample responses: a counter increment carrying a [txData], and a
    failed task, which has no metadata. *)
Definition incrementResponse : CounterUtils.CounterAgentResponse :=
  {| CounterUtils.id := "counter-1";
     CounterUtils.state := completed;
     CounterUtils.parts := ["Ready to increment counter from 4 to 5."];
     CounterUtils.metadata := Some
       {| CounterUtils.operation := "increment";
          CounterUtils.contractAddress := "0xC0";
          CounterUtils.currentValue := "4";
          CounterUtils.expectedNewValue := Some "5";
          CounterUtils.newValue := None;
          CounterUtils.userAddress := "0xA1";
          CounterUtils.txData := Some
            {| td_to := "0xC0"; td_data := "0xd09de08a"; td_value := "0x0" |} |} |}.

Definition failedResponse : CounterUtils.CounterAgentResponse :=
  {| CounterUtils.id := "counter-error-1";
     CounterUtils.state := failed;
     CounterUtils.parts := ["Error: boom"];
     CounterUtils.metadata := None |}.

(** A well-typed response whose [txData.value] is the string ["-1"]. *)
Definition negativeValueResponse : CounterUtils.CounterAgentResponse :=
  {| CounterUtils.id := "counter-2";
     CounterUtils.state := completed;
     CounterUtils.parts := ["Ready to set counter from 4 to 7."];
     CounterUtils.metadata := Some
       {| CounterUtils.operation := "set";
          CounterUtils.contractAddress := "0xC0";
          CounterUtils.currentValue := "4";
          CounterUtils.expectedNewValue := None;
          CounterUtils.newValue := Some "7";
          CounterUtils.userAddress := "0xA1";
          CounterUtils.txData := Some
            {| td_to := "0xC0"; td_data := "0x3fb5c1cb"; td_value := "-1" |} |} |}.

(** A world in which the chain answers: the counter holds 4. *)
Definition calmWorld : World :=
  {| agentContract := "0xC0";
     readNumber := Ok 4%N;
     encodeIncrement := Ok "0xd09de08a";
     encodeSetNumber := fun _ => Ok "0x3fb5c1cb";
     nowAtStart := "1700000000000";
     randomSuffix := "k3x9a";
     nowAtCatch := "1700000000001" |}.

(** Sample data: two approvals on chain 1, then the main step on chain
    42161; a wallet on chain 1; a wallet that grants everything and one
    that refuses the chain switch. *)
Definition sampleStep (n : string) (c : Z) : TxStep :=
  {| to := "0x7a"; data := n; value := "0x0"; chainId := c |}.

Definition samplePlan : option TxPlan :=
  Some [sampleStep "approve-0" 1; sampleStep "approve-1" 1;
        sampleStep "swap" 42161].

Definition onChain1 : Connection :=
  {| isConnected := true; address := Some "0xA1"; currentChainId := Some 1 |}.

Definition granting : WalletOutcome :=
  {| switchResolves := true; sendResult := confirmed |}.

Definition refusingSwitch : WalletOutcome :=
  {| switchResolves := false; sendResult := confirmed |}.

Definition rejectingSend : WalletOutcome :=
  {| switchResolves := true; sendResult := rejected wallet_rejected |}.

Definition onChain5 : Connection :=
  {| isConnected := true; address := Some "0xA1"; currentChainId := Some 5 |}.

Definition afterTwoApprovals : ExecutionState :=
  {| approvalIndex := 2; stepStatus := [success; success]; mainStatus := idle |}.

Definition firstApprovalPending : ExecutionState :=
  {| approvalIndex := 0; stepStatus := [pending; idle]; mainStatus := idle |}.

Definition samplePreview : option string := Some "preview".







(** Two approvals, one command at a time. *)
Definition orderlyRun : list Event :=
  [ invoked cmdApproveNext onChain5;
    switchSettled 0 true;
    sendSettled 0 confirmed;
    invoked cmdApproveNext onChain1;
    sendSettled 0 confirmed ].

End Samples.

(** ** Vocabulary for the counter agent's parser and failures *)
Module CounterParserSpec.
Import JsString CounterUtils CounterAgent.

(** The keywords that make an instruction an increment. *)
Definition mentionsIncrement (lowerInstruction : string) : bool :=
  includes lowerInstruction "increment"
  || includes lowerInstruction "increase"
  || includes lowerInstruction "add"
  || includes lowerInstruction "bump".

(** The message of the parser's only error. *)
Definition pleaseSpecifyNumber : string :=
  "Please specify a number to set the counter to, e.g., "
  +:+ doubleQuote +:+ "Set counter to 42" +:+ doubleQuote.

(** The texts a failed task of the counter agent can carry, given what
    the chain client threw. *)
Inductive FailureText (w : World) : string -> Prop :=
| failure_parse :
    FailureText w ("Error: " +:+ pleaseSpecifyNumber)
| failure_read m :
    readNumber w = Throw m ->
    FailureText w ("Error: Failed to read counter value: " +:+ m)
| failure_increment m :
    readNumber w = Throw m
    \/ (exists n, readNumber w = Ok n) /\ encodeIncrement w = Throw m ->
    FailureText w ("Error: Failed to prepare increment transaction: " +:+ m)
| failure_set m :
    readNumber w = Throw m
    \/ (exists n, readNumber w = Ok n) /\ (exists v, encodeSetNumber w v = Throw m) ->
    FailureText w ("Error: Failed to prepare set transaction: " +:+ m).

(** A world whose chain client is down. *)
Definition brokenWorld : World :=
  {| agentContract := "0xC0";
     readNumber := Throw "HTTP request failed";
     encodeIncrement := Ok "0xd09de08a";
     encodeSetNumber := fun _ => Ok "0x3fb5c1cb";
     nowAtStart := "1700000000000";
     randomSuffix := "k3x9a";
     nowAtCatch := "1700000000001" |}.


End CounterParserSpec.

(** ** [MultisigTrade] over any hook result

    The same component as [Web.MultisigTrade], with what
    [useTransactionExecutor] and [useAccount] return taken as arguments, so
    that what it renders can be stated for every value the hook may
    return. *)
Module WebView.
Import TransactionUtils Executor Web.

Definition MultisigTradeWith {P : Type} (txPreview : option P)
  (txPlan : option TxPlan) (isConnected : bool) (h : HookState) : View :=
  let needsApproval := (0 <? h_totalApprovals h)%nat in
  if truthy txPreview && negb (truthy txPlan) then readOnlyCard
  else if truthy txPlan && truthy txPreview then
    transactionCard
      (previewSection ::
       if isConnected then
         when (h_isTxSuccess h) (notice transactionSuccessful)
         ++ when (h_isTxPending h) (notice executingTransaction)
         ++ whenSome (h_txError h) (fun r => notice (executionError r))
         ++ when (needsApproval && h_isApprovalPending h)
              (notice (processingApproval (h_approvalIndex h + 1)
                                          (h_totalApprovals h)))
         ++ (if needsApproval
             then whenSome (h_approvalError h)
                    (fun r => notice (approvalErrorNotice r))
             else [])
         ++ when (needsApproval && h_isApprovalPhaseComplete h
                  && negb (h_isTxPending h) && negb (h_isTxSuccess h)
                  && negb (truthy (h_txError h)))
              (notice allApprovalsSent)
         ++ when needsApproval
              (button onApproveNext
                 (if h_isApprovalPending h
                  then approvingLabel (h_approvalIndex h + 1) (h_totalApprovals h)
                  else if h_isApprovalPhaseComplete h then allApprovedLabel
                  else approveLabel (h_approvalIndex h + 1) (h_totalApprovals h))
                 (negb (h_canApprove h)))
         ++ [ button onExecuteMain
                (if h_isTxPending h then executingLabel
                 else if needsApproval then executeTransactionLabel
                 else signTransactionLabel)
                (negb (h_canExecute h)) ]
       else [ connectWallet ])
  else nothing.

(** The action and the [disabled] flag of each button of a view, in the
    order rendered. *)
Definition buttonsOf (v : View) : list (Action * bool) :=
  flat_map (fun e => match e with
                     | button a _ d => [(a, d)]
                     | _ => []
                     end) (body v).

Definition noticesOf (v : View) : list Notice :=
  flat_map (fun e => match e with
                     | notice n => [n]
                     | _ => []
                     end) (body v).

(** A hook result with two approvals, the second one in flight. *)
Definition approvingHook : HookState :=
  {| h_approvalIndex := 1; h_totalApprovals := 2;
     h_isApprovalPending := true; h_approvalError := None;
     h_isTxPending := false; h_isTxSuccess := false; h_txError := None;
     h_canApprove := false; h_canExecute := false;
     h_isApprovalPhaseComplete := false |}.

(** A hook result with both approvals done and the main step not yet
    sent. *)
Definition readyHook : HookState :=
  {| h_approvalIndex := 2; h_totalApprovals := 2;
     h_isApprovalPending := false; h_approvalError := None;
     h_isTxPending := false; h_isTxSuccess := false; h_txError := None;
     h_canApprove := false; h_canExecute := true;
     h_isApprovalPhaseComplete := true |}.

End WebView.

(** ** The chat widget's message editing

    [handleEditMessage], [handleSaveEdit] and [handleCancelEdit] of
    [ChatbotWidget] (src/unnamed/part_004), over the pieces of React state
    they read and write. *)
Module ChatEdit.

(** A JavaScript string as the widget holds it: its UTF-16 code units. *)
Definition Text := list N.

(** The text of an ASCII literal. *)
Fixpoint text (s : string) : Text :=
  match s with
  | EmptyString => []
  | String c r => N_of_ascii c :: text r
  end.

Inductive Part :=
| textPart (content : Text)
| otherPart (type : string).

(** A [UIMessage]: the fields the widget touches, and [m_rest] for all the
    others, which the spread [...msg] carries over. *)
Record UIMessage := mkMessage {
  m_id : string;
  m_role : string;
  m_content : Text;
  m_parts : list Part;
  m_rest : list (string * string)
}.

Record EditState := mkEditState {
  messages : list UIMessage;
  editingMessageId : option string;
  editingText : Text;
  reloadsScheduled : nat          (* setTimeout(() => reload(), 100) *)
}.

(** The code units [String.prototype.trim] strips, the WhiteSpace and
    LineTerminator of ECMAScript: U+0009 to U+000D, U+0020, U+00A0,
    U+1680, U+2000 to U+200A, U+2028, U+2029, U+202F, U+205F, U+3000 and
    U+FEFF.  All of them lie in the basic plane, so one code unit
    decides. *)
Definition isWhitespace (c : N) : bool :=
  ((9 <=? c) && (c <=? 13) || (c =? 32) || (c =? 160) || (c =? 5760)
   || (8192 <=? c) && (c <=? 8202) || (c =? 8232) || (c =? 8233)
   || (c =? 8239) || (c =? 8287) || (c =? 12288) || (c =? 65279))%N.

Fixpoint trimStart (s : Text) : Text :=
  match s with
  | [] => []
  | c :: r => if isWhitespace c then trimStart r else s
  end.

(** [trimEnd]: a code unit stays when something other than whitespace
    follows or it is not whitespace itself. *)
Fixpoint trimEnd (s : Text) : Text :=
  match s with
  | [] => []
  | c :: r =>
      match trimEnd r with
      | [] => if isWhitespace c then [] else [c]
      | kept => c :: kept
      end
  end.

Definition trim (s : Text) : Text := trimEnd (trimStart s).

(** A string is truthy unless empty. *)
Definition truthy (s : Text) : bool :=
  match s with [] => false | _ => true end.

(** Whether a text is made of whitespace alone. *)
Definition allWhitespace (s : Text) : bool := forallb isWhitespace s.

Definition handleEditMessage (messageId : string) (currentText : Text)
  (st : EditState) : EditState :=
  {| messages := messages st;
     editingMessageId := Some messageId;
     editingText := currentText;
     reloadsScheduled := reloadsScheduled st |}.

Definition handleSaveEdit (messageId : string) (st : EditState) : EditState :=
  if negb (truthy (trim (editingText st))) then st
  else
    let updatedMessages :=
      map (fun msg =>
             if String.eqb (m_id msg) messageId then
               {| m_id := m_id msg;
                  m_role := m_role msg;
                  m_content := editingText st;
                  m_parts := [textPart (editingText st)];
                  m_rest := m_rest msg |}
             else msg)
          (messages st) in
    {| messages := updatedMessages;
       editingMessageId := None;
       editingText := [];
       reloadsScheduled := S (reloadsScheduled st) |}.

Definition handleCancelEdit (st : EditState) : EditState :=
  {| messages := messages st;
     editingMessageId := None;
     editingText := [];
     reloadsScheduled := reloadsScheduled st |}.

(** A conversation being edited. *)
Definition sampleChat : EditState :=
  {| messages :=
       [ {| m_id := "m1"; m_role := "user"; m_content := text "swap 1 eth";
            m_parts := [textPart (text "swap 1 eth")]; m_rest := [] |};
         {| m_id := "m2"; m_role := "assistant"; m_content := text "Done";
            m_parts := [textPart (text "Done"); otherPart "tool-invocation"];
            m_rest := [("createdAt", "1700000000000")] |} ];
     editingMessageId := Some "m1";
     editingText := text "  swap 2 eth ";
     reloadsScheduled := 0 |}.

(** An edit text of a space, a no-break space (U+00A0) and a line
    separator (U+2028). *)
Definition blankText : Text := [32; 160; 8232]%N.

End ChatEdit.

(** ** [LocationVerifier] (the component at the end of
    clients/web/lib/multisigUtils.ts)

    [verifyLocation] over the answers of what it calls: the two file
    fetches, proof generation (with its retry on absolute URLs), the
    calldata export, and the verifier contract.  The coordinates it scales
    only feed proof generation, whose answer is taken as given. *)
Module LocationVerifier.
Import JsString.

(** What [await fetch(url)] gives: a response, or a rejection, which
    [fetch] makes with a TypeError or a DOMException, both carrying a
    message. *)
Inductive FetchOutcome :=
| fetchRejects (message : string)
| fetchResponds (ok : bool) (status statusText : string).

(** A value a service throws or rejects with, as the outer [catch] reads
    it through [err.message.includes(...)]: an Error, or any value whose
    [message] is a string; or any other value (a bare string, a number,
    null), on which that expression itself throws a TypeError. *)
Inductive Thrown :=
| withMessage (message : string)
| withoutMessage.

Inductive Attempt (A : Type) :=
| returns (a : A)
| throws (e : Thrown).
Arguments returns {A} _.
Arguments throws {A} _.

Record Services := mkServices {
  wasmFetch : FetchOutcome;            (* fetch('/LocationVerifier.wasm') *)
  zkeyFetch : FetchOutcome;            (* fetch('/LocationVerifier_final.zkey') *)
  fullProve : Attempt string;          (* groth16.fullProve, relative paths *)
  fullProveAbsolute : Attempt string;  (* groth16.fullProve, absolute URLs *)
  exportCallData : Attempt unit;       (* exportSolidityCallData and JSON.parse *)
  verifyProof : Attempt bool;          (* contract.verifyProof *)
  notifySuccess : Attempt unit         (* the onVerificationSuccess() prop *)
}.

Record State := mkState {
  location : string;
  stateLocation : string;
  minLat : string;
  maxLat : string;
  minLon : string;
  maxLon : string;
  verificationResult : option bool;
  proof : option string;
  contractLoaded : bool;               (* contract and signer are both set *)
  loading : bool;
  error : option string;
  isLocationDisabled : bool;
  areBoundingBoxInputsDisabled : bool
}.

Inductive Effect :=
| toastSuccess (text : string)
| toastError (text : string)
| onVerificationSuccess.

Definition filesHint : string :=
  ". Make sure LocationVerifier.wasm and LocationVerifier_final.zkey are in the public folder and accessible.".

(** The inner [try] around the two fetches, with its [catch] that rewraps
    any failure. *)
Definition checkFiles (sv : Services) : Result unit :=
  match
    match wasmFetch sv with
    | fetchRejects message => Throw message
    | fetchResponds wasmOk wasmStatus wasmStatusText =>
        match zkeyFetch sv with
        | fetchRejects message => Throw message
        | fetchResponds zkeyOk zkeyStatus zkeyStatusText =>
            if negb wasmOk then
              Throw ("WASM file not found: " +:+ wasmStatus +:+ " "
                     +:+ wasmStatusText)
            else if negb zkeyOk then
              Throw ("zkey file not found: " +:+ zkeyStatus +:+ " "
                     +:+ zkeyStatusText)
            else Ok tt
        end
    end
  with
  | Ok tt => Ok tt
  | Throw message =>
      Throw ("Failed to load verification files: " +:+ message +:+ filesHint)
  end.

(** Proof generation: the relative paths first, the absolute URLs when
    that throws, whatever it throws. *)
Definition generateProof (sv : Services) : Attempt string :=
  match fullProve sv with
  | returns p => returns p
  | throws _ => fullProveAbsolute sv
  end.

(** The body of the outer [try], up to the contract's answer. *)
Definition tryVerify (st : State) (sv : Services) : Attempt (bool * string) :=
  if negb (contractLoaded st)
  then throws (withMessage "Contract or signer not initialized")
  else
    match checkFiles sv with
    | Throw message => throws (withMessage message)
    | Ok _ =>
        match generateProof sv with
        | throws e => throws e
        | returns p =>
            match exportCallData sv with
            | throws e => throws e
            | returns _ =>
                match verifyProof sv with
                | throws e => throws e
                | returns result => returns (result, p)
                end
            end
        end
    end.

(** The [catch] clause: the text shown for a thrown message. *)
Definition errorText (message : string) : string :=
  if includes message "Assert Failed" then
    "Your current location is not within the selected state's boundaries."
  else if includes message "Failed to load verification files" then
    message
  else if includes message "WebAssembly" then
    "WebAssembly compilation failed. Please refresh the page and try again."
  else if includes message "NetworkError" || includes message "fetch" then
    "Network error while loading verification files. Please check your connection and try again."
  else if includes message "magic word" || includes message "expected" then
    "Invalid WebAssembly file format. The verification files may be corrupted."
  else if includes message "404" || includes message "Not Found" then
    "Verification files not found. Please ensure LocationVerifier.wasm and LocationVerifier_final.zkey are in the public folder."
  else "Verification failed: " +:+ message.

Definition withOutcome (st : State) (result : option bool) (p : option string)
  (err : option string) : State :=
  {| location := location st;
     stateLocation := stateLocation st;
     minLat := minLat st; maxLat := maxLat st;
     minLon := minLon st; maxLon := maxLon st;
     verificationResult := result;
     proof := p;
     contractLoaded := contractLoaded st;
     loading := false;
     error := err;
     isLocationDisabled := isLocationDisabled st;
     areBoundingBoxInputsDisabled := areBoundingBoxInputsDisabled st |}.

(** The outer [catch] and [finally] for a value thrown after the state
    became [settled] and the effects [shown] were fired.  For a value with
    a message the error text is set and the toast shown.  On any other
    value [err.message.includes] throws inside the clause: nothing is set,
    nothing is shown, and the promise of [verifyLocation] rejects;
    [finally] still clears [loading]. *)
Definition caught (settled : State) (shown : list Effect) (e : Thrown)
  : State * list Effect :=
  match e with
  | withMessage message =>
      (withOutcome settled (verificationResult settled) (proof settled)
         (Some (errorText message)),
       shown ++ [ toastError "Verification failed" ])
  | withoutMessage => (settled, shown)
  end.

(** [verifyLocation]: the state once the promise settles, and the toasts
    and callback it fired.  [setError(null)] comes first, so the error is
    null unless the [catch] clause sets it. *)
Definition verifyLocation (st : State) (sv : Services) : State * list Effect :=
  match tryVerify st sv with
  | returns (result, p) =>
      let verified := withOutcome st (Some result) (Some p) None in
      if result then
        let shown := [ toastSuccess "Location verified successfully!";
                       onVerificationSuccess ] in
        match notifySuccess sv with
        | returns _ => (verified, shown)
        | throws e => caught verified shown e
        end
      else (verified, [ toastError "Location verification failed!" ])
  | throws e =>
      caught (withOutcome st (verificationResult st) (proof st) None) [] e
  end.





(** Sample data: a filled form, all services fine; and a server that
    answers 404 for the WASM file. *)
Definition filledForm : State :=
  {| location := "Latitude: 19.07, Longitude: 72.87";
     stateLocation := "Maharashtra";
     minLat := "15.6"; maxLat := "22.0"; minLon := "72.6"; maxLon := "80.9";
     verificationResult := None; proof := None;
     contractLoaded := true; loading := false; error := None;
     isLocationDisabled := true; areBoundingBoxInputsDisabled := true |}.

Definition allFine : Services :=
  {| wasmFetch := fetchResponds true "200" "OK";
     zkeyFetch := fetchResponds true "200" "OK";
     fullProve := returns "proof";
     fullProveAbsolute := returns "proof";
     exportCallData := returns tt;
     verifyProof := returns true;
     notifySuccess := returns tt |}.

Definition wasmMissing : Services :=
  {| wasmFetch := fetchResponds false "404" "Not Found";
     zkeyFetch := fetchResponds true "200" "OK";
     fullProve := returns "proof";
     fullProveAbsolute := returns "proof";
     exportCallData := returns tt;
     verifyProof := returns true;
     notifySuccess := returns tt |}.

(** A prover that rejects with a bare string, twice. *)
Definition proverThrowsText : Services :=
  {| wasmFetch := fetchResponds true "200" "OK";
     zkeyFetch := fetchResponds true "200" "OK";
     fullProve := throws withoutMessage;
     fullProveAbsolute := throws withoutMessage;
     exportCallData := returns tt;
     verifyProof := returns true;
     notifySuccess := returns tt |}.

End LocationVerifier.

(** ** Regular expressions of the multisig agent

    The agent's patterns are built from literals, the classes [\s], [\d]
    and [\w] under [+], and one lazy [.*?].  In each pattern a [+] run is
    followed by something its class excludes, so the run the engine
    settles on is the longest one; the matchers below take it directly. *)
Module JsRegex.
Import JsString.

(** [\s], on 7-bit characters. *)
Definition isSpace (c : ascii) : bool :=
  let n := nat_of_ascii c in
  ((9 <=? n)%nat && (n <=? 13)%nat) || (n =? 32)%nat.

(** [\w]: letters, digits and the underscore. *)
Definition isWord (c : ascii) : bool :=
  let n := nat_of_ascii c in
  isDigit c
  || ((97 <=? n)%nat && (n <=? 122)%nat)
  || ((65 <=? n)%nat && (n <=? 90)%nat)
  || (n =? 95)%nat.

(** The longest run of characters of a class at the head of [s], and the
    rest. *)
Fixpoint takeRun (class : ascii -> bool) (s : string) : string * string :=
  match s with
  | EmptyString => (EmptyString, EmptyString)
  | String c r =>
      if class c then
        let (run, rest) := takeRun class r in (String c run, rest)
      else (EmptyString, s)
  end.

(** [class+] at the head of [s]. *)
Definition plus (class : ascii -> bool) (s : string) : option (string * string) :=
  let (run, rest) := takeRun class s in
  if truthy run then Some (run, rest) else None.

(** [.*?] followed by [next]: try [next] here, else step over one
    character that is not a line terminator. *)
Fixpoint lazyThen {A : Type} (next : string -> option A) (s : string)
  : option A :=
  match next s with
  | Some a => Some a
  | None =>
      match s with
      | EmptyString => None
      | String c r => if isLineTerminator c then None else lazyThen next r
      end
  end.

(** The leftmost position of [s] at which [pattern] matches. *)
Fixpoint search {A : Type} (pattern : string -> option A) (s : string)
  : option A :=
  match pattern s with
  | Some a => Some a
  | None =>
      match s with
      | EmptyString => None
      | String _ r => search pattern r
      end
  end.

(** A literal, then the rest of the pattern. *)
Definition lit {A : Type} (text : string) (next : string -> option A)
  (s : string) : option A :=
  match stripPrefix text s with
  | Some rest => next rest
  | None => None
  end.

(** [(?:a|b)] followed by [next]: [a] first, [b] if that way fails. *)
Definition alt {A : Type} (a b : string) (next : string -> option A)
  (s : string) : option A :=
  match lit a next s with
  | Some x => Some x
  | None => lit b next s
  end.

End JsRegex.

(** ** [examples/multisig-trade-agent/src/agent.ts], second revision

    The revision of [MultisigTradeAgent] whose operations are swap,
    initialize, submitTransaction, confirmTransaction, executeTransaction
    and isOwner. *)
Module MultisigTradeAgent.
Import TransactionUtils JsString JsRegex.

Inductive OperationType :=
| swap
| initialize
| submitTransaction
| confirmTransaction
| executeTransaction
| isOwner.

Record MultisigData := mkMultisigData {
  owners : option (list string);
  numConfirmationsRequired : option N;
  txIndex : option N;
  md_to : option string;
  md_value : option string;
  md_data : option string;
  checkAddress : option string
}.

Definition noMultisigData : MultisigData :=
  {| owners := None; numConfirmationsRequired := None; txIndex := None;
     md_to := None; md_value := None; md_data := None; checkAddress := None |}.

Record MultisigOperation := mkOperation {
  type : OperationType;
  swapData : option SwapDetails;
  multisigData : option MultisigData
}.

(** [/swap\s+(\d+(?:\.\d+)?)\s+(\w+)\s+(?:for|to)\s+(\w+)/]: groups 1, 2
    and 3. *)
Definition swapPattern (s : string) : option (string * string * string) :=
  lit "swap" (fun s =>
    '(_, s) ← plus isSpace s;
    '(whole, s) ← plus isDigit s;
    let '(amount, s) :=
      match lit "." (plus isDigit) s with
      | Some (fraction, s') => (whole +:+ "." +:+ fraction, s')
      | None => (whole, s)
      end in
    '(_, s) ← plus isSpace s;
    '(fromToken, s) ← plus isWord s;
    '(_, s) ← plus isSpace s;
    alt "for" "to" (fun s =>
      '(_, s) ← plus isSpace s;
      '(toToken, _) ← plus isWord s;
      Some (amount, fromToken, toToken)) s) s.

(** [/initialize.*?(\d+)\s+confirmation/]: group 1. *)
Definition initPattern (s : string) : option string :=
  lit "initialize" (lazyThen (fun s =>
    '(digits, s) ← plus isDigit s;
    '(_, s) ← plus isSpace s;
    lit "confirmation" (fun _ => Some digits) s)) s.

(** [/submit.*?transaction/] *)
Definition submitPattern (s : string) : option unit :=
  lit "submit" (lazyThen (lit "transaction" (fun _ => Some tt))) s.

(** [/confirm.*?(?:transaction|tx)\s+(\d+)/] and the same with
    [execute]: group 1. *)
Definition indexPattern (verb : string) (s : string) : option string :=
  lit verb (lazyThen (alt "transaction" "tx" (fun s =>
    '(_, s) ← plus isSpace s;
    '(digits, _) ← plus isDigit s;
    Some digits))) s.

(** [/is\s+owner|check\s+owner/] *)
Definition ownerPattern (s : string) : option unit :=
  match lit "is" (fun s => '(_, s) ← plus isSpace s;
                           lit "owner" (fun _ => Some tt) s) s with
  | Some x => Some x
  | None => lit "check" (fun s => '(_, s) ← plus isSpace s;
                                  lit "owner" (fun _ => Some tt) s) s
  end.

Definition isSome {A : Type} (o : option A) : bool :=
  match o with Some _ => true | None => false end.

(** [group || fallback] for a capture group that may be missing. *)
Definition orDefault (group : option string) (fallback : string) : string :=
  match group with
  | Some g => if truthy g then g else fallback
  | None => fallback
  end.

Definition defaultSwap : SwapDetails :=
  {| fromToken := "USDC"; toToken := "ETH"; amount := "100";
     fromChain := Some "arbitrum"; toChain := Some "arbitrum" |}.

Definition parseInstruction (instruction userAddress : string)
  : MultisigOperation :=
  let lowerInstruction := toLowerCase instruction in
  let swapMatch := search swapPattern lowerInstruction in
  if isSome swapMatch || includes lowerInstruction "swap" then
    {| type := swap;
       swapData := Some
         {| fromToken := orDefault (option_map (fun g => snd (fst g)) swapMatch) "USDC";
            toToken := orDefault (option_map snd swapMatch) "ETH";
            amount := orDefault (option_map (fun g => fst (fst g)) swapMatch) "100";
            fromChain := Some "arbitrum";
            toChain := Some "arbitrum" |};
       multisigData := None |}
  else
  let initMatch := search initPattern lowerInstruction in
  if isSome initMatch || includes lowerInstruction "initialize" then
    {| type := initialize;
       swapData := None;
       multisigData := Some
         {| owners := Some [userAddress];
            numConfirmationsRequired := Some
              match initMatch with
              | Some g => if truthy g then parseInt g else 2%N
              | None => 2%N
              end;
            txIndex := None; md_to := None; md_value := None;
            md_data := None; checkAddress := None |} |}
  else
  if isSome (search submitPattern lowerInstruction)
     || includes lowerInstruction "submit" then
    {| type := submitTransaction;
       swapData := None;
       multisigData := Some
         {| owners := None; numConfirmationsRequired := None; txIndex := None;
            md_to := Some userAddress; md_value := Some "0";
            md_data := Some "0x"; checkAddress := None |} |}
  else
  let confirmMatch := search (indexPattern "confirm") lowerInstruction in
  if isSome confirmMatch || includes lowerInstruction "confirm" then
    {| type := confirmTransaction;
       swapData := None;
       multisigData := Some
         {| owners := None; numConfirmationsRequired := None;
            txIndex := Some
              match confirmMatch with
              | Some g => if truthy g then parseInt g else 0%N
              | None => 0%N
              end;
            md_to := None; md_value := None; md_data := None;
            checkAddress := None |} |}
  else
  let executeMatch := search (indexPattern "execute") lowerInstruction in
  if isSome executeMatch || includes lowerInstruction "execute" then
    {| type := executeTransaction;
       swapData := None;
       multisigData := Some
         {| owners := None; numConfirmationsRequired := None;
            txIndex := Some
              match executeMatch with
              | Some g => if truthy g then parseInt g else 0%N
              | None => 0%N
              end;
            md_to := None; md_value := None; md_data := None;
            checkAddress := None |} |}
  else
  if isSome (search ownerPattern lowerInstruction)
     || includes lowerInstruction "owner" then
    {| type := isOwner;
       swapData := None;
       multisigData := Some
         {| owners := None; numConfirmationsRequired := None; txIndex := None;
            md_to := None; md_value := None; md_data := None;
            checkAddress := Some userAddress |} |}
  else
    {| type := swap; swapData := Some defaultSwap; multisigData := None |}.

(** *** Tasks *)

Record OperationMetadata := mkOperationMetadata {
  om_operation : string;
  om_multisigContractAddress : string;
  om_userAddress : string;
  om_swapDetails : option SwapDetails;
  om_originalSwapTx : option TxData;
  om_owners : option (list string);
  om_numConfirmationsRequired : option N;
  om_txIndex : option N;
  om_checkAddress : option string;
  om_isOwner : option bool;
  om_txData : option TxData
}.

(** The metadata of a task: [{ error }] on an error task, the operation's
    record otherwise. *)
Inductive TaskMetadata :=
| errorMetadata (error : string)
| operationMetadata (m : OperationMetadata).

Record Task := mkTask {
  t_id : string;
  t_type : string;
  t_title : string;
  t_description : string;
  t_transactions : list TxStep;
  t_status : string;
  t_metadata : TaskMetadata
}.

(** What the agent reads from outside itself.  [askSwapAgent] is the
    whole inner [try] of [handleSwapTransaction]: the MCP call and the
    parsing of its answer, giving [metadata.txData] when there is one. *)
Record World := mkWorld {
  multisigContractAddress : string;
  mcpConnected : bool;                                   (* this.mcpClient is set *)
  askSwapAgent : string -> Result (option TxData);
  encodeSubmit : string -> string -> string -> Result string;
    (* encodeFunctionData, 'submit_transaction', [to, BigInt(value), data] *)
  encodeInitialize : list string -> N -> Result string;
  encodeConfirm : N -> Result string;
  encodeExecute : N -> Result string;
  readIsOwner : string -> Result bool;                   (* readContract, 'is_owner' *)
  nowAtStart : string;
  randomSuffix : string;
  nowAtCatch : string
}.

(** [arbitrumSepolia.id] of viem/chains. *)
Definition arbitrumSepoliaId : Z := 421614.

Definition placeholderSwapTx : TxData :=
  {| td_to := "0x1111000000000000000000000000000000001111";
     td_data := "0x";
     td_value := "0" |}.

(** The one transaction of a task: a call of the multisig contract that
    sends no ETH. *)
Definition contractCall (w : World) (data : string) : TxStep :=
  {| to := multisigContractAddress w; data := data; value := "0";
     chainId := arbitrumSepoliaId |}.

Definition contractTxData (w : World) (data : string) : TxData :=
  {| td_to := multisigContractAddress w; td_data := data; td_value := "0" |}.

Definition handleSwapTransaction (w : World) (taskId userAddress : string)
  (swapData : SwapDetails) : Result Task :=
  let fromMcp :=
    if mcpConnected w then
      match askSwapAgent w ("Swap " +:+ amount swapData +:+ " "
                            +:+ fromToken swapData +:+ " for "
                            +:+ toToken swapData +:+ " on Arbitrum") with
      | Ok found => found
      | Throw _ => None
      end
    else None in
  let swapTx :=
    match fromMcp with
    | Some tx => tx
    | None => placeholderSwapTx
    end in
  match encodeSubmit w (td_to swapTx) (td_value swapTx) (td_data swapTx) with
  | Throw message => Throw message
  | Ok submitTxData =>
      Ok {| t_id := taskId;
            t_type := "multisig-trade";
            t_title := "Submit Swap Transaction to Multisig";
            t_description :=
              "Submit a swap transaction for " +:+ amount swapData +:+ " "
              +:+ fromToken swapData +:+ " → " +:+ toToken swapData
              +:+ " to the multisig wallet for approval";
            t_transactions := [ contractCall w submitTxData ];
            t_status := "pending";
            t_metadata := operationMetadata
              {| om_operation := "swap";
                 om_multisigContractAddress := multisigContractAddress w;
                 om_userAddress := userAddress;
                 om_swapDetails := Some swapData;
                 om_originalSwapTx := Some swapTx;
                 om_owners := None; om_numConfirmationsRequired := None;
                 om_txIndex := None; om_checkAddress := None;
                 om_isOwner := None;
                 om_txData := Some (contractTxData w submitTxData) |} |}
  end.

Definition handleInitialize (w : World) (taskId userAddress : string)
  (owners : list string) (numConfirmationsRequired : N) : Result Task :=
  match encodeInitialize w owners numConfirmationsRequired with
  | Throw message => Throw message
  | Ok initializeData =>
      Ok {| t_id := taskId;
            t_type := "multisig-trade";
            t_title := "Initialize Multisig Wallet";
            t_description :=
              "Initialize multisig wallet with "
              +:+ toString (N.of_nat (length owners))
              +:+ " owner(s) requiring " +:+ toString numConfirmationsRequired
              +:+ " confirmation(s)";
            t_transactions := [ contractCall w initializeData ];
            t_status := "pending";
            t_metadata := operationMetadata
              {| om_operation := "initialize";
                 om_multisigContractAddress := multisigContractAddress w;
                 om_userAddress := userAddress;
                 om_swapDetails := None; om_originalSwapTx := None;
                 om_owners := Some owners;
                 om_numConfirmationsRequired := Some numConfirmationsRequired;
                 om_txIndex := None; om_checkAddress := None;
                 om_isOwner := None;
                 om_txData := Some (contractTxData w initializeData) |} |}
  end.

Definition handleSubmitTransaction (w : World) (taskId userAddress : string)
  (to value data : string) : Result Task :=
  match encodeSubmit w to value data with
  | Throw message => Throw message
  | Ok submitTxData =>
      Ok {| t_id := taskId;
            t_type := "multisig-trade";
            t_title := "Submit Transaction to Multisig";
            t_description :=
              "Submit a transaction to " +:+ to +:+ " with value " +:+ value
              +:+ " wei to the multisig wallet";
            t_transactions := [ contractCall w submitTxData ];
            t_status := "pending";
            t_metadata := operationMetadata
              {| om_operation := "submitTransaction";
                 om_multisigContractAddress := multisigContractAddress w;
                 om_userAddress := userAddress;
                 om_swapDetails := None; om_originalSwapTx := None;
                 om_owners := None; om_numConfirmationsRequired := None;
                 om_txIndex := None; om_checkAddress := None;
                 om_isOwner := None;
                 om_txData := Some (contractTxData w submitTxData) |} |}
  end.

Definition handleConfirmTransaction (w : World) (taskId userAddress : string)
  (txIndex : N) : Result Task :=
  match encodeConfirm w txIndex with
  | Throw message => Throw message
  | Ok confirmTxData =>
      Ok {| t_id := taskId;
            t_type := "multisig-trade";
            t_title := "Confirm Transaction #" +:+ toString txIndex;
            t_description :=
              "Confirm transaction #" +:+ toString txIndex
              +:+ " in the multisig wallet";
            t_transactions := [ contractCall w confirmTxData ];
            t_status := "pending";
            t_metadata := operationMetadata
              {| om_operation := "confirmTransaction";
                 om_multisigContractAddress := multisigContractAddress w;
                 om_userAddress := userAddress;
                 om_swapDetails := None; om_originalSwapTx := None;
                 om_owners := None; om_numConfirmationsRequired := None;
                 om_txIndex := Some txIndex; om_checkAddress := None;
                 om_isOwner := None;
                 om_txData := Some (contractTxData w confirmTxData) |} |}
  end.

Definition handleExecuteTransaction (w : World) (taskId userAddress : string)
  (txIndex : N) : Result Task :=
  match encodeExecute w txIndex with
  | Throw message => Throw message
  | Ok executeTxData =>
      Ok {| t_id := taskId;
            t_type := "multisig-trade";
            t_title := "Execute Transaction #" +:+ toString txIndex;
            t_description :=
              "Execute transaction #" +:+ toString txIndex
              +:+ " in the multisig wallet";
            t_transactions := [ contractCall w executeTxData ];
            t_status := "pending";
            t_metadata := operationMetadata
              {| om_operation := "executeTransaction";
                 om_multisigContractAddress := multisigContractAddress w;
                 om_userAddress := userAddress;
                 om_swapDetails := None; om_originalSwapTx := None;
                 om_owners := None; om_numConfirmationsRequired := None;
                 om_txIndex := Some txIndex; om_checkAddress := None;
                 om_isOwner := None;
                 om_txData := Some (contractTxData w executeTxData) |} |}
  end.

(** [handleIsOwner] catches a failing read itself and returns a failed
    task. *)
Definition handleIsOwner (w : World) (taskId userAddress checkAddress : string)
  : Result Task :=
  match readIsOwner w checkAddress with
  | Ok answer =>
      Ok {| t_id := taskId;
            t_type := "multisig-trade";
            t_title := "Owner Status Check";
            t_description :=
              "Check if " +:+ checkAddress
              +:+ " is an owner of the multisig wallet";
            t_transactions := [];
            t_status := "completed";
            t_metadata := operationMetadata
              {| om_operation := "isOwner";
                 om_multisigContractAddress := multisigContractAddress w;
                 om_userAddress := userAddress;
                 om_swapDetails := None; om_originalSwapTx := None;
                 om_owners := None; om_numConfirmationsRequired := None;
                 om_txIndex := None; om_checkAddress := Some checkAddress;
                 om_isOwner := Some answer;
                 om_txData := None |} |}
  | Throw message =>
      Ok {| t_id := taskId;
            t_type := "multisig-trade";
            t_title := "Owner Status Check Failed";
            t_description :=
              "Failed to check if " +:+ checkAddress +:+ " is an owner: "
              +:+ message;
            t_transactions := [];
            t_status := "failed";
            t_metadata := operationMetadata
              {| om_operation := "isOwner";
                 om_multisigContractAddress := multisigContractAddress w;
                 om_userAddress := userAddress;
                 om_swapDetails := None; om_originalSwapTx := None;
                 om_owners := None; om_numConfirmationsRequired := None;
                 om_txIndex := None; om_checkAddress := Some checkAddress;
                 om_isOwner := Some false;
                 om_txData := None |} |}
  end.

Definition createErrorTask (taskId errorMessage : string) : Task :=
  {| t_id := taskId;
     t_type := "multisig-trade";
     t_title := "Error";
     t_description := "MultisigTradeAgent error: " +:+ errorMessage;
     t_transactions := [];
     t_status := "failed";
     t_metadata := errorMetadata errorMessage |}.

(** [!value] for an optional string: missing or empty. *)
Definition missing (v : option string) : bool :=
  match v with
  | Some s => negb (truthy s)
  | None => true
  end.

(** The [switch] of [processUserInput] with its checks. *)
Definition dispatch (w : World) (taskId userAddress : string)
  (operation : MultisigOperation) : Result Task :=
  let data := match multisigData operation with
              | Some d => d
              | None => noMultisigData
              end in
  match type operation with
  | swap =>
      match swapData operation with
      | None => Throw "Swap data is required for swap operation"
      | Some swapData => handleSwapTransaction w taskId userAddress swapData
      end
  | initialize =>
      match owners data, numConfirmationsRequired data with
      | Some owners, Some n =>
          if (n =? 0)%N then
            Throw "Owners and confirmation requirements are required for initialization"
          else handleInitialize w taskId userAddress owners n
      | _, _ =>
          Throw "Owners and confirmation requirements are required for initialization"
      end
  | submitTransaction =>
      if missing (md_to data) || missing (md_value data) || missing (md_data data)
      then Throw "Transaction details (to, value, data) are required for submission"
      else
        match md_to data, md_value data, md_data data with
        | Some to, Some value, Some data =>
            handleSubmitTransaction w taskId userAddress to value data
        | _, _, _ =>
            Throw "Transaction details (to, value, data) are required for submission"
        end
  | confirmTransaction =>
      match txIndex data with
      | None => Throw "Transaction index is required for confirmation"
      | Some i => handleConfirmTransaction w taskId userAddress i
      end
  | executeTransaction =>
      match txIndex data with
      | None => Throw "Transaction index is required for execution"
      | Some i => handleExecuteTransaction w taskId userAddress i
      end
  | isOwner =>
      match checkAddress data with
      | Some a =>
          if truthy a then handleIsOwner w taskId userAddress a
          else Throw "Address is required to check ownership"
      | None => Throw "Address is required to check ownership"
      end
  end.

Definition tryProcess (w : World) (instruction userAddress : string)
  : Result Task :=
  dispatch w ("multisig-trade-" +:+ nowAtStart w +:+ "-" +:+ randomSuffix w)
    userAddress (parseInstruction instruction userAddress).

Definition processUserInput (w : World) (instruction userAddress : string)
  : Result Task :=
  match tryProcess w instruction userAddress with
  | Ok task => Ok task
  | Throw message =>
      Ok (createErrorTask ("multisig-trade-error-" +:+ nowAtCatch w) message)
  end.

(** The operation an instruction selects, keyword by keyword in the
    parser's order; "swap" is also the default. *)
Definition operationFor (lowerInstruction : string) : OperationType :=
  if includes lowerInstruction "swap" then swap
  else if includes lowerInstruction "initialize" then initialize
  else if includes lowerInstruction "submit" then submitTransaction
  else if includes lowerInstruction "confirm" then confirmTransaction
  else if includes lowerInstruction "execute" then executeTransaction
  else if includes lowerInstruction "owner" then isOwner
  else swap.

(** The encoder answers every call. *)
Definition encoderWorks (w : World) : Prop :=
  (forall to value data, exists x, encodeSubmit w to value data = Ok x)
  /\ (forall owners n, exists x, encodeInitialize w owners n = Ok x)
  /\ (forall i, exists x, encodeConfirm w i = Ok x)
  /\ (forall i, exists x, encodeExecute w i = Ok x).

(** Some call of the encoder threw [message]. *)
Definition encoderThrew (w : World) (message : string) : Prop :=
  (exists to value data, encodeSubmit w to value data = Throw message)
  \/ (exists owners n, encodeInitialize w owners n = Throw message)
  \/ (exists i, encodeConfirm w i = Throw message)
  \/ (exists i, encodeExecute w i = Throw message).

(** The three checks of [processUserInput] that an instruction can fail,
    each with its message. *)
Inductive ValidationFailure (operation : MultisigOperation)
  (userAddress : string) : string -> Prop :=
| zero_confirmations data owners :
    type operation = initialize ->
    multisigData operation = Some data ->
    MultisigTradeAgent.owners data = Some owners ->
    numConfirmationsRequired data = Some 0%N ->
    ValidationFailure operation userAddress
      "Owners and confirmation requirements are required for initialization"
| submit_without_address :
    type operation = submitTransaction ->
    userAddress = EmptyString ->
    ValidationFailure operation userAddress
      "Transaction details (to, value, data) are required for submission"
| owner_without_address :
    type operation = isOwner ->
    userAddress = EmptyString ->
    ValidationFailure operation userAddress
      "Address is required to check ownership".

(** A task's metadata as the web client's extractor reads it
    ([lib/multisigUtils.ts]): the same fields under the same names. *)
Definition clientMetadata (m : OperationMetadata) : MultisigUtils.Metadata :=
  {| MultisigUtils.operation := om_operation m;
     MultisigUtils.multisigContractAddress := om_multisigContractAddress m;
     MultisigUtils.userAddress := om_userAddress m;
     MultisigUtils.swapDetails := om_swapDetails m;
     MultisigUtils.originalSwapTx := om_originalSwapTx m;
     MultisigUtils.owners := om_owners m;
     MultisigUtils.numConfirmationsRequired :=
       option_map Z.of_N (om_numConfirmationsRequired m);
     MultisigUtils.txIndex := option_map Z.of_N (om_txIndex m);
     MultisigUtils.isOwner := om_isOwner m;
     MultisigUtils.checkAddress := om_checkAddress m;
     MultisigUtils.txData := om_txData m |}.

(** A task that asks for one signature: one call of the contract, status
    pending, and the same call under [metadata.txData]. *)
Definition signingTask (w : World) (task : Task) : Prop :=
  exists data m,
    t_transactions task = [ contractCall w data ]
    /\ t_status task = "pending"
    /\ t_metadata task = operationMetadata m
    /\ om_txData m = Some (contractTxData w data)
    /\ In (om_operation m)
         ["swap"; "initialize"; "submitTransaction"; "confirmTransaction";
          "executeTransaction"].

(** A task that asks for nothing: no transaction and no [txData]. *)
Definition plainTask (task : Task) : Prop :=
  t_transactions task = []
  /\ (t_status task = "completed" \/ t_status task = "failed")
  /\ match t_metadata task with
     | errorMetadata _ => t_status task = "failed"
     | operationMetadata m => om_txData m = None /\ om_operation m = "isOwner"
     end.

(** The swap agent gives no transaction: it is not connected, or its
    answer fails or carries no [txData]. *)
Definition swapAgentSilent (w : World) : Prop :=
  mcpConnected w = false
  \/ forall question tx, askSwapAgent w question <> Ok (Some tx).

(** [txPlan] as the client's extractor leaves it for a list of
    transactions: [null] for none. *)
Definition planOf (transactions : list TxStep) : option TxPlan :=
  match transactions with
  | [] => None
  | _ => Some transactions
  end.

(** A world whose encoder works and whose swap agent is not connected. *)
Definition offlineWorld : World :=
  {| multisigContractAddress := "0x5afe";
     mcpConnected := false;
     askSwapAgent := fun _ => Throw "not connected";
     encodeSubmit := fun to value data => Ok ("0xsubmit:" +:+ to);
     encodeInitialize := fun _ _ => Ok "0xinit";
     encodeConfirm := fun i => Ok ("0xconfirm:" +:+ toString i);
     encodeExecute := fun i => Ok ("0xexecute:" +:+ toString i);
     readIsOwner := fun _ => Ok true;
     nowAtStart := "1700000000000";
     randomSuffix := "k3x9a";
     nowAtCatch := "1700000000001" |}.

(** The task [offlineWorld] answers "confirm tx 3" with, and the
    response the client sees for it. *)
Definition confirmMetadata : OperationMetadata :=
  {| om_operation := "confirmTransaction";
     om_multisigContractAddress := "0x5afe";
     om_userAddress := "0xabc";
     om_swapDetails := None; om_originalSwapTx := None;
     om_owners := None; om_numConfirmationsRequired := None;
     om_txIndex := Some 3%N; om_checkAddress := None;
     om_isOwner := None;
     om_txData := Some {| td_to := "0x5afe"; td_data := "0xconfirm:3";
                          td_value := "0" |} |}.

Definition confirmTask : Task :=
  {| t_id := "multisig-trade-1700000000000-k3x9a";
     t_type := "multisig-trade";
     t_title := "Confirm Transaction #3";
     t_description := "Confirm transaction #3 in the multisig wallet";
     t_transactions :=
       [ {| to := "0x5afe"; data := "0xconfirm:3"; value := "0";
            chainId := 421614 |} ];
     t_status := "pending";
     t_metadata := operationMetadata confirmMetadata |}.

Definition confirmResponse : MultisigUtils.MultisigTradeAgentResponse :=
  {| MultisigUtils.id := t_id confirmTask;
     MultisigUtils.state := completed;
     MultisigUtils.parts := [];
     MultisigUtils.metadata := Some (clientMetadata confirmMetadata) |}.

End MultisigTradeAgent.

(** * Properties *)

(** ** Extraction of the preview and the plan from an agent response *)
Module ExtractFacts.
Import TransactionUtils ExtractSpec.

Ltac split_orb :=
  repeat match goal with
    | H : (_ || _)%bool = true |- _ => apply orb_true_iff in H; destruct H as [H | H]
    | H : String.eqb _ _ = true |- _ => apply String.eqb_eq in H
    end.

Lemma counter_isWriteOperation_spec op :
  CounterUtils.isWriteOperation op = true <-> counterWrite op.
Proof.
  unfold CounterUtils.isWriteOperation, counterWrite. split.
  - intros H. split_orb; auto.
  - intros [-> | ->]; reflexivity.
Qed.

Lemma multisig_isWriteOperation_spec op :
  MultisigUtils.isWriteOperation op = true <-> multisigWrite op.
Proof.
  unfold MultisigUtils.isWriteOperation, multisigWrite. split.
  - intros H. split_orb; auto 6.
  - intros H. repeat destruct H as [-> | H]; try subst op; reflexivity.
Qed.

Lemma multisigDeposit_isWriteOperation_spec op :
  MultisigUtilsDeposit.isWriteOperation op = true <-> multisigDepositWrite op.
Proof.
  unfold MultisigUtilsDeposit.isWriteOperation, multisigDepositWrite. split.
  - intros H. split_orb; auto 7.
  - intros H. repeat destruct H as [-> | H]; try subst op; reflexivity.
Qed.

(** The plan each extractor returns, case by case. *)
Lemma counter_txPlan_cases r :
  (exists m td, CounterUtils.metadata r = Some m
                /\ CounterUtils.txData m = Some td
                /\ counterWrite (CounterUtils.operation m)
                /\ CounterUtils.txPlan (CounterUtils.extractCounterTransactionData r)
                   = Some [stepOfTxData td])
  \/ (~ (exists m td, CounterUtils.metadata r = Some m
                      /\ CounterUtils.txData m = Some td
                      /\ counterWrite (CounterUtils.operation m))
      /\ CounterUtils.txPlan (CounterUtils.extractCounterTransactionData r) = None).
Proof.
  unfold CounterUtils.extractCounterTransactionData.
  destruct (CounterUtils.metadata r) as [m |] eqn:Hm; cbn.
  - destruct (CounterUtils.txData m) as [td |] eqn:Htd.
    + destruct (CounterUtils.isWriteOperation (CounterUtils.operation m)) eqn:Hw.
      * left. exists m, td. apply counter_isWriteOperation_spec in Hw. auto.
      * right. split; [| reflexivity].
        intros (m' & td' & [= <-] & _ & Hop).
        apply counter_isWriteOperation_spec in Hop. congruence.
    + right. split; [| reflexivity].
      intros (m' & td' & [= <-] & Htd' & _). congruence.
  - right. split; [| reflexivity]. intros (m' & td' & [=] & _).
Qed.

Lemma multisig_txPlan_cases r :
  (exists m td, MultisigUtils.metadata r = Some m
                /\ MultisigUtils.txData m = Some td
                /\ multisigWrite (MultisigUtils.operation m)
                /\ MultisigUtils.txPlan (MultisigUtils.extractMultisigTransactionData r)
                   = Some [stepOfTxData td])
  \/ (~ (exists m td, MultisigUtils.metadata r = Some m
                      /\ MultisigUtils.txData m = Some td
                      /\ multisigWrite (MultisigUtils.operation m))
      /\ MultisigUtils.txPlan (MultisigUtils.extractMultisigTransactionData r) = None).
Proof.
  unfold MultisigUtils.extractMultisigTransactionData.
  destruct (MultisigUtils.metadata r) as [m |] eqn:Hm; cbn.
  - destruct (MultisigUtils.txData m) as [td |] eqn:Htd.
    + destruct (MultisigUtils.isWriteOperation (MultisigUtils.operation m)) eqn:Hw.
      * left. exists m, td. apply multisig_isWriteOperation_spec in Hw. auto.
      * right. split; [| reflexivity].
        intros (m' & td' & [= <-] & _ & Hop).
        apply multisig_isWriteOperation_spec in Hop. congruence.
    + right. split; [| reflexivity].
      intros (m' & td' & [= <-] & Htd' & _). congruence.
  - right. split; [| reflexivity]. intros (m' & td' & [=] & _).
Qed.

Lemma multisigDeposit_txPlan_cases r :
  (exists m td, MultisigUtilsDeposit.metadata r = Some m
                /\ MultisigUtilsDeposit.txData m = Some td
                /\ multisigDepositWrite (MultisigUtilsDeposit.operation m)
                /\ MultisigUtilsDeposit.txPlan
                     (MultisigUtilsDeposit.extractMultisigTransactionData r)
                   = Some [stepOfTxData td])
  \/ (~ (exists m td, MultisigUtilsDeposit.metadata r = Some m
                      /\ MultisigUtilsDeposit.txData m = Some td
                      /\ multisigDepositWrite (MultisigUtilsDeposit.operation m))
      /\ MultisigUtilsDeposit.txPlan
           (MultisigUtilsDeposit.extractMultisigTransactionData r) = None).
Proof.
  unfold MultisigUtilsDeposit.extractMultisigTransactionData.
  destruct (MultisigUtilsDeposit.metadata r) as [m |] eqn:Hm; cbn.
  - destruct (MultisigUtilsDeposit.txData m) as [td |] eqn:Htd.
    + destruct (MultisigUtilsDeposit.isWriteOperation
                  (MultisigUtilsDeposit.operation m)) eqn:Hw.
      * left. exists m, td. apply multisigDeposit_isWriteOperation_spec in Hw. auto.
      * right. split; [| reflexivity].
        intros (m' & td' & [= <-] & _ & Hop).
        apply multisigDeposit_isWriteOperation_spec in Hop. congruence.
    + right. split; [| reflexivity].
      intros (m' & td' & [= <-] & Htd' & _). congruence.
  - right. split; [| reflexivity]. intros (m' & td' & [=] & _).
Qed.

(** A plan of one step has no approval step. *)
Lemma totalApprovals_singleton step :
  Executor.totalApprovals (Some [step]) = 0%nat.
Proof. reflexivity. Qed.

End ExtractFacts.

Module ExtractTheorems.
Import TransactionUtils ExtractSpec ExtractFacts Samples.

(** C5.  The counter extractor returns a non-null plan exactly when the
    response has metadata with a [txData] and its operation is
    [increment] or [set]; each multisig extractor does so exactly when
    there is a [txData] and the operation is one of its write operations.
    A non-null plan is the array holding the step
    [{ to, data, value, chainId }] built from that [txData]; in every
    other case (read-only operations among them) the plan is null. *)
Theorem txPlan_non_null_iff_write_with_txData :
  (forall r,
      let e := CounterUtils.extractCounterTransactionData r in
      (CounterUtils.txPlan e <> None <->
       exists m td, CounterUtils.metadata r = Some m
                    /\ CounterUtils.txData m = Some td
                    /\ counterWrite (CounterUtils.operation m))
      /\ (forall plan, CounterUtils.txPlan e = Some plan ->
          exists m td, CounterUtils.metadata r = Some m
                       /\ CounterUtils.txData m = Some td
                       /\ plan = [stepOfTxData td]))
  /\ (forall r,
      let e := MultisigUtils.extractMultisigTransactionData r in
      (MultisigUtils.txPlan e <> None <->
       exists m td, MultisigUtils.metadata r = Some m
                    /\ MultisigUtils.txData m = Some td
                    /\ multisigWrite (MultisigUtils.operation m))
      /\ (forall plan, MultisigUtils.txPlan e = Some plan ->
          exists m td, MultisigUtils.metadata r = Some m
                       /\ MultisigUtils.txData m = Some td
                       /\ plan = [stepOfTxData td]))
  /\ (forall r,
      let e := MultisigUtilsDeposit.extractMultisigTransactionData r in
      (MultisigUtilsDeposit.txPlan e <> None <->
       exists m td, MultisigUtilsDeposit.metadata r = Some m
                    /\ MultisigUtilsDeposit.txData m = Some td
                    /\ multisigDepositWrite (MultisigUtilsDeposit.operation m))
      /\ (forall plan, MultisigUtilsDeposit.txPlan e = Some plan ->
          exists m td, MultisigUtilsDeposit.metadata r = Some m
                       /\ MultisigUtilsDeposit.txData m = Some td
                       /\ plan = [stepOfTxData td])).
Proof.
  split; [| split]; intros r e; subst e.
  - destruct (counter_txPlan_cases r)
      as [(m & td & Hm & Htd & Hop & Hp) | [Hno Hp]]; rewrite Hp.
    + split; [split; [eauto | discriminate] |].
      intros plan [= <-]. eauto.
    + split; [split; [congruence | intros H; exfalso; exact (Hno H)] |].
      intros plan [=].
  - destruct (multisig_txPlan_cases r)
      as [(m & td & Hm & Htd & Hop & Hp) | [Hno Hp]]; rewrite Hp.
    + split; [split; [eauto | discriminate] |].
      intros plan [= <-]. eauto.
    + split; [split; [congruence | intros H; exfalso; exact (Hno H)] |].
      intros plan [=].
  - destruct (multisigDeposit_txPlan_cases r)
      as [(m & td & Hm & Htd & Hop & Hp) | [Hno Hp]]; rewrite Hp.
    + split; [split; [eauto | discriminate] |].
      intros plan [= <-]. eauto.
    + split; [split; [congruence | intros H; exfalso; exact (Hno H)] |].
      intros plan [=].
Qed.

(** C8.  A non-null plan from any of the extractors has exactly one step,
    that step is on chain 421614, and the plan therefore has no approval
    step: [totalApprovals = max(0, 1 - 1) = 0]. *)
Theorem extracted_plan_is_one_step_on_arbitrum_sepolia :
  (forall r plan,
      CounterUtils.txPlan (CounterUtils.extractCounterTransactionData r) = Some plan ->
      length plan = 1%nat
      /\ Forall (fun step => chainId step = 421614) plan
      /\ Executor.totalApprovals (Some plan) = 0%nat)
  /\ (forall r plan,
      MultisigUtils.txPlan (MultisigUtils.extractMultisigTransactionData r) = Some plan ->
      length plan = 1%nat
      /\ Forall (fun step => chainId step = 421614) plan
      /\ Executor.totalApprovals (Some plan) = 0%nat)
  /\ (forall r plan,
      MultisigUtilsDeposit.txPlan
        (MultisigUtilsDeposit.extractMultisigTransactionData r) = Some plan ->
      length plan = 1%nat
      /\ Forall (fun step => chainId step = 421614) plan
      /\ Executor.totalApprovals (Some plan) = 0%nat).
Proof.
  split; [| split]; intros r plan Hplan.
  - destruct (counter_txPlan_cases r)
      as [(m & td & _ & _ & _ & Hp) | [_ Hp]];
      rewrite Hp in Hplan; [| discriminate].
    injection Hplan as <-.
    split; [reflexivity | split; [repeat constructor | apply totalApprovals_singleton]].
  - destruct (multisig_txPlan_cases r)
      as [(m & td & _ & _ & _ & Hp) | [_ Hp]];
      rewrite Hp in Hplan; [| discriminate].
    injection Hplan as <-.
    split; [reflexivity | split; [repeat constructor | apply totalApprovals_singleton]].
  - destruct (multisigDeposit_txPlan_cases r)
      as [(m & td & _ & _ & _ & Hp) | [_ Hp]];
      rewrite Hp in Hplan; [| discriminate].
    injection Hplan as <-.
    split; [reflexivity | split; [repeat constructor | apply totalApprovals_singleton]].
Qed.

Lemma extracted_plan_is_one_step_witness :
  length [stepOfTxData {| td_to := "0xC0"; td_data := "0xd09de08a";
                          td_value := "0x0" |}] = 1%nat
  /\ Forall (fun step => chainId step = 421614)
       [stepOfTxData {| td_to := "0xC0"; td_data := "0xd09de08a";
                        td_value := "0x0" |}]
  /\ Executor.totalApprovals
       (Some [stepOfTxData {| td_to := "0xC0"; td_data := "0xd09de08a";
                              td_value := "0x0" |}]) = 0%nat.
Proof.
  apply (proj1 extracted_plan_is_one_step_on_arbitrum_sepolia incrementResponse).
  reflexivity.
Defined.

(** C9.  A response without metadata yields a null preview and a null
    plan from every extractor. *)
Theorem no_metadata_gives_null_preview_and_plan :
  (forall r, CounterUtils.metadata r = None ->
             CounterUtils.extractCounterTransactionData r
             = {| CounterUtils.txPreview := None; CounterUtils.txPlan := None |})
  /\ (forall r, MultisigUtils.metadata r = None ->
                MultisigUtils.extractMultisigTransactionData r
                = {| MultisigUtils.txPreview := None; MultisigUtils.txPlan := None |})
  /\ (forall r, MultisigUtilsDeposit.metadata r = None ->
                MultisigUtilsDeposit.extractMultisigTransactionData r
                = {| MultisigUtilsDeposit.txPreview := None;
                     MultisigUtilsDeposit.txPlan := None |}).
Proof.
  split; [| split]; intros r Hnone.
  - unfold CounterUtils.extractCounterTransactionData. now rewrite Hnone.
  - unfold MultisigUtils.extractMultisigTransactionData. now rewrite Hnone.
  - unfold MultisigUtilsDeposit.extractMultisigTransactionData. now rewrite Hnone.
Qed.

Lemma no_metadata_witness :
  CounterUtils.extractCounterTransactionData failedResponse
  = {| CounterUtils.txPreview := None; CounterUtils.txPlan := None |}.
Proof.
  apply (proj1 no_metadata_gives_null_preview_and_plan failedResponse).
  reflexivity.
Defined.

End ExtractTheorems.

(** ** The counter agent *)
Module CounterAgentFacts.
Import JsString CounterUtils CounterAgent CounterAgentSpec Samples.

Lemma prefix_append (p s : string) : String.prefix p (p +:+ s) = true.
Proof.
  induction p as [| c p IH].
  - now destruct s.
  - change (String c p +:+ s) with (String c (p +:+ s)). simpl.
    destruct (ascii_dec c c) as [_ | Hne]; [exact IH | now destruct Hne].
Qed.

Lemma handleRead_result w taskId userAddress t :
  handleRead w taskId userAddress = Ok t -> wellFormedResult t.
Proof.
  unfold handleRead. destruct (readNumber w); [| discriminate].
  intros [= <-]. split; [reflexivity |]. cbn. intros m td [= <-]. discriminate.
Qed.

Lemma handleIncrement_result w taskId userAddress t :
  handleIncrement w taskId userAddress = Ok t -> wellFormedResult t.
Proof.
  unfold handleIncrement.
  destruct (readNumber w); [| discriminate].
  destruct (encodeIncrement w); [| discriminate].
  intros [= <-]. split; [reflexivity |]. cbn. now intros m td [= <-] [= <-].
Qed.

Lemma handleSet_result w taskId userAddress v t :
  handleSet w taskId userAddress v = Ok t -> wellFormedResult t.
Proof.
  unfold handleSet.
  destruct (readNumber w); [| discriminate].
  destruct (encodeSetNumber w v); [| discriminate].
  intros [= <-]. split; [reflexivity |]. cbn. now intros m td [= <-] [= <-].
Qed.

Lemma tryProcess_result w instruction userAddress t :
  tryProcess w instruction userAddress = Ok t -> wellFormedResult t.
Proof.
  unfold tryProcess.
  destruct (parseInstruction instruction) as [op | ]; [| discriminate].
  destruct (type op).
  - apply handleRead_result.
  - apply handleIncrement_result.
  - destruct (op_value op); [apply handleSet_result | discriminate].
Qed.

(** An instruction that mentions "set" but has no number after it on the
    same line is rejected by the parser. *)
Lemma parseInstruction_set_without_number instruction :
  includes (toLowerCase instruction) "set" = true ->
  matchSetDigits (toLowerCase instruction) = None ->
  exists message, parseInstruction instruction = Throw message.
Proof.
  intros Hset Hnone. unfold parseInstruction, setMatchOf.
  rewrite Hnone, Hset, orb_true_r.
  destruct (matchDigits (toLowerCase instruction)); eauto.
Qed.

Lemma processUserInput_cases w instruction userAddress :
  match tryProcess w instruction userAddress with
  | Ok t => processUserInput w instruction userAddress = Ok t
  | Throw message =>
      processUserInput w instruction userAddress
      = Ok (createErrorTask ("counter-error-" +:+ nowAtCatch w) message)
  end.
Proof.
  unfold processUserInput. now destruct (tryProcess w instruction userAddress).
Qed.

(** The parser on a few instructions. *)
Example parseInstruction_set_42 :
  parseInstruction "Set counter to 42"
  = Ok {| type := set; op_value := Some 42%N |}.
Proof. reflexivity. Qed.

Example parseInstruction_number_before_set :
  exists message, parseInstruction "42 is what I want to set" = Throw message.
Proof. eexists. reflexivity. Qed.

Example parseInstruction_bump :
  parseInstruction "Bump it" = Ok {| type := increment; op_value := None |}.
Proof. reflexivity. Qed.

Example parseInstruction_default :
  parseInstruction "hello" = Ok {| type := read; op_value := None |}.
Proof. reflexivity. Qed.

(** A whole run: an increment while the counter holds 4. *)
Example processUserInput_increment :
  option_map td_value
    match processUserInput calmWorld "please increment" "0xA1" with
    | Ok task => match metadata task with
                 | Some m => txData m
                 | None => None
                 end
    | Throw _ => None
    end
  = Some "0x0".
Proof. reflexivity. Qed.

End CounterAgentFacts.

Module CounterAgentTheorems.
Import JsString CounterUtils CounterAgent CounterAgentSpec CounterAgentFacts Samples.

(** C10.  For every instruction and user address, and whatever the chain
    client does, [processUserInput] fulfils with a task and never
    rejects.  When its [try] block throws (a parser error such as a
    "set" without a number, or a failing handler) the task is [failed]
    and its text is ["Error: "] followed by the message; when the block
    returns, that task is returned and it is [completed]. *)
Theorem processUserInput_never_throws w instruction userAddress :
  exists task,
    processUserInput w instruction userAddress = Ok task
    /\ match tryProcess w instruction userAddress with
       | Ok t => task = t /\ state task = completed
       | Throw message =>
           state task = failed
           /\ messageText task = "Error: " +:+ message
       end
    /\ (state task = completed
        \/ state task = failed
           /\ String.prefix "Error: " (messageText task) = true)
    /\ (includes (toLowerCase instruction) "set" = true ->
        matchSetDigits (toLowerCase instruction) = None ->
        state task = failed).
Proof.
  pose proof (processUserInput_cases w instruction userAddress) as Hcases.
  pose proof (tryProcess_result w instruction userAddress) as Hres.
  pose proof (parseInstruction_set_without_number instruction) as Hset.
  destruct (tryProcess w instruction userAddress) as [t | message] eqn:Htry.
  - exists t. destruct (Hres t eq_refl) as [Hdone _].
    repeat split; auto.
    intros Hs Hn. destruct (Hset Hs Hn) as [msg Hparse].
    unfold tryProcess in Htry. rewrite Hparse in Htry. discriminate.
  - eexists. split; [exact Hcases |].
    split; [split; reflexivity |].
    split; [right; split; [reflexivity | apply prefix_append] |].
    reflexivity.
Qed.

Lemma processUserInput_never_throws_witness :
  exists task,
    processUserInput calmWorld "set the counter" "0xA1" = Ok task
    /\ state task = failed.
Proof.
  destruct (processUserInput_never_throws calmWorld "set the counter" "0xA1")
    as (task & Hok & _ & _ & Hset).
  exists task. split; [exact Hok |].
  apply Hset; reflexivity.
Defined.

End CounterAgentTheorems.

(** ** The [value] of an extracted step *)
Module ValueTheorems.
Import TransactionUtils ExtractSpec ExtractFacts CounterAgentSpec CounterAgentFacts Samples.

(** C6, as stated, fails: the extractor copies [txData.value] without
    looking at it, so the step built from [negativeValueResponse] has the
    value ["-1"], which is not a non-negative integer. *)
Lemma extracted_value_need_not_be_non_negative :
  CounterUtils.txPlan
    (CounterUtils.extractCounterTransactionData negativeValueResponse)
  = Some [ {| to := "0xC0"; data := "0x3fb5c1cb"; value := "-1";
              chainId := 421614 |} ]
  /\ Wei.isNonNegativeInteger "-1" = false.
Proof. split; reflexivity. Qed.

(** C6, amended.  The [value] of every step an extractor generates is the
    string [metadata.txData.value] of the response, unchanged; and for
    every task [CounterAgent.processUserInput] returns, the extracted
    step's value is ['0x0'], which denotes 0 wei. *)
Theorem extracted_value_is_txData_value :
  (forall r plan step,
      CounterUtils.txPlan (CounterUtils.extractCounterTransactionData r) = Some plan ->
      In step plan ->
      exists m td, CounterUtils.metadata r = Some m
                   /\ CounterUtils.txData m = Some td
                   /\ value step = td_value td)
  /\ (forall r plan step,
      MultisigUtils.txPlan (MultisigUtils.extractMultisigTransactionData r) = Some plan ->
      In step plan ->
      exists m td, MultisigUtils.metadata r = Some m
                   /\ MultisigUtils.txData m = Some td
                   /\ value step = td_value td)
  /\ (forall r plan step,
      MultisigUtilsDeposit.txPlan
        (MultisigUtilsDeposit.extractMultisigTransactionData r) = Some plan ->
      In step plan ->
      exists m td, MultisigUtilsDeposit.metadata r = Some m
                   /\ MultisigUtilsDeposit.txData m = Some td
                   /\ value step = td_value td)
  /\ (forall w instruction userAddress task plan step,
      CounterAgent.processUserInput w instruction userAddress = Ok task ->
      CounterUtils.txPlan (CounterUtils.extractCounterTransactionData task) = Some plan ->
      In step plan ->
      value step = "0x0" /\ Wei.weiOfString (value step) = Some 0%N).
Proof.
  split; [| split; [| split]].
  - intros r plan step Hplan Hin.
    destruct (counter_txPlan_cases r)
      as [(m & td & Hm & Htd & _ & Hp) | [_ Hp]];
      rewrite Hp in Hplan; [| discriminate].
    injection Hplan as <-. destruct Hin as [<- | []]. eauto.
  - intros r plan step Hplan Hin.
    destruct (multisig_txPlan_cases r)
      as [(m & td & Hm & Htd & _ & Hp) | [_ Hp]];
      rewrite Hp in Hplan; [| discriminate].
    injection Hplan as <-. destruct Hin as [<- | []]. eauto.
  - intros r plan step Hplan Hin.
    destruct (multisigDeposit_txPlan_cases r)
      as [(m & td & Hm & Htd & _ & Hp) | [_ Hp]];
      rewrite Hp in Hplan; [| discriminate].
    injection Hplan as <-. destruct Hin as [<- | []]. eauto.
  - intros w instruction userAddress task plan step Hrun Hplan Hin.
    destruct (counter_txPlan_cases task)
      as [(m & td & Hm & Htd & _ & Hp) | [_ Hp]];
      rewrite Hp in Hplan; [| discriminate].
    injection Hplan as <-. destruct Hin as [<- | []].
    pose proof (processUserInput_cases w instruction userAddress) as Hcases.
    destruct (CounterAgent.tryProcess w instruction userAddress) as [t | msg] eqn:Htry.
    + rewrite Hcases in Hrun. injection Hrun as <-.
      destruct (tryProcess_result _ _ _ _ Htry) as [_ Hval].
      cbn. rewrite (Hval m td Hm Htd). split; reflexivity.
    + rewrite Hcases in Hrun. injection Hrun as <-. discriminate.
Qed.

Lemma extracted_value_witness :
  value (stepOfTxData {| td_to := "0xC0"; td_data := "0xd09de08a";
                         td_value := "0x0" |}) = "0x0"
  /\ Wei.weiOfString
       (value (stepOfTxData {| td_to := "0xC0"; td_data := "0xd09de08a";
                               td_value := "0x0" |})) = Some 0%N.
Proof.
  refine (proj2 (proj2 (proj2 extracted_value_is_txData_value))
            calmWorld "bump it" "0xA1" _ _ _
            eq_refl eq_refl (or_introl eq_refl)).
Defined.

End ValueTheorems.

(** ** The executor's state machine *)
Module ExecutorFacts.
Import TransactionUtils Executor ExecutorSpec Samples.

(** [max(0, n - 1)] is the truncated predecessor. *)
Lemma totalApprovals_Some (plan : TxPlan) :
  totalApprovals (Some plan) = (length plan - 1)%nat.
Proof. unfold totalApprovals. lia. Qed.

Lemma needsSwitch_spec conn step :
  needsSwitch conn step = true <-> currentChainId conn <> Some (chainId step).
Proof.
  unfold needsSwitch. destruct (currentChainId conn) as [c |].
  - rewrite negb_true_iff, Z.eqb_neq. split; congruence.
  - split; [discriminate | reflexivity].
Qed.

(** *** What one run of the shared sequence does *)

(** The run of [submit], by the wallet's answers. *)
Lemma submit_run conn o t step s :
  submit conn o t step s =
  if needsSwitch conn step && negb (switchResolves o) then
    mkRun None (setStatus t (error chain_switch_failed) s)
      [switchChain (chainId step)]
      [setStatus t (error chain_switch_failed) s]
  else
    let s1 := setStatus t pending s in
    let s2 := match sendResult o with
              | confirmed => markSuccess t s1
              | rejected reason => setStatus t (error reason) s1
              end in
    mkRun (Some tt) s2
      ((if needsSwitch conn step then [switchChain (chainId step)] else [])
       ++ [sendTransaction step])
      [s1; s2].
Proof.
  unfold submit, bind.
  destruct (needsSwitch conn step), (switchResolves o), (sendResult o);
    reflexivity.
Qed.

Lemma submit_observed conn o t step s s' :
  In s' (observed (submit conn o t step s)) ->
  s' = setStatus t (error chain_switch_failed) s
  \/ s' = setStatus t pending s
  \/ s' = markSuccess t (setStatus t pending s)
  \/ exists reason, s' = setStatus t (error reason) (setStatus t pending s).
Proof.
  rewrite submit_run.
  destruct (needsSwitch conn step && negb (switchResolves o)); cbn.
  - intros [<- | []]. auto.
  - destruct (sendResult o); intros [<- | [<- | []]]; eauto.
Qed.

(** *** The invariant *)







(** A command whose guard fails, or that finds no step, does nothing. *)
Lemma runCommand_cases c txPlan conn o s :
  runCommand c txPlan conn o s =
  if enabled c txPlan conn s then
    match stepOf c txPlan s with
    | Some step => submit conn o (targetOf c s) step s
    | None => ret tt s
    end
  else ret tt s.
Proof. destruct c; reflexivity. Qed.

(** *** Counting pending steps *)







Lemma disabled_is_noop c txPlan conn o s :
  enabled c txPlan conn s = false ->
  runCommand c txPlan conn o s = mkRun (Some tt) s [] [].
Proof. intros Hen. rewrite runCommand_cases, Hen. reflexivity. Qed.


(** *** Instances of quiet runs *)

















(** *** Runs in general *)

Lemma play_app txPlan events1 events2 i :
  play txPlan (events1 ++ events2) i
  = play txPlan events2 (play txPlan events1 i).
Proof.
  revert i. induction events1 as [| e rest IH]; intros i; [reflexivity |].
  cbn. apply IH.
Qed.

Lemma quiet_app txPlan events1 events2 i :
  quiet txPlan (events1 ++ events2) i
  = quiet txPlan events1 i && quiet txPlan events2 (play txPlan events1 i).
Proof.
  revert i. induction events1 as [| e rest IH]; intros i; [reflexivity |].
  cbn. now rewrite IH, andb_assoc.
Qed.

Lemma occursQuietly_play txPlan events i :
  occursQuietly txPlan i -> quiet txPlan events i = true ->
  occursQuietly txPlan (play txPlan events i).
Proof.
  intros (before & Hquiet & <-) Hmore. exists (before ++ events).
  now rewrite quiet_app, play_app, Hquiet, Hmore.
Qed.

Lemma occursQuietly_occurs txPlan i : occursQuietly txPlan i -> occurs txPlan i.
Proof. intros (events & _ & H). now exists events. Qed.

(** No event changes the number of approval statuses. *)
Lemma react_length txPlan e i :
  length (stepStatus (current (react txPlan e i)))
  = length (stepStatus (current i)).
Proof.
  assert (forall t st s, length (stepStatus (setStatus t st s))
                         = length (stepStatus s)) as Hset.
  { intros [j |] st s; cbn; [apply length_insert | reflexivity]. }
  assert (forall t s, length (stepStatus (markSuccess t s))
                      = length (stepStatus s)) as Hmark.
  { intros [j |] s; cbn; [apply length_insert | reflexivity]. }
  destruct e as [c conn | k granted | k r]; cbn.
  - destruct (enabled c txPlan conn (current i)); [| reflexivity].
    destruct (stepOf c txPlan (current i)) as [step |]; [| reflexivity].
    destruct (needsSwitch conn step); cbn; auto.
  - destruct (flights i !! k) as [[t step | t step] |]; try reflexivity.
    destruct granted; cbn; auto.
  - destruct (flights i !! k) as [[t step | t step] |]; try reflexivity.
    destruct r; cbn; auto.
Qed.

Lemma reachable_length txPlan s :
  reachable txPlan s -> length (stepStatus s) = totalApprovals txPlan.
Proof.
  intros (i & (events & <-) & <-).
  assert (forall i0, length (stepStatus (current (play txPlan events i0)))
                     = length (stepStatus (current i0))) as Hplay.
  { induction events as [| e rest IH]; intros i0; [reflexivity |].
    cbn. now rewrite IH, react_length. }
  rewrite Hplay. cbn. apply length_replicate.
Qed.

(** *** A command running alone

    The run of a command as one piece ([runCommand]) is the play of its
    events with nothing in between: the same final state, and the states
    it shows are states of a quiet run. *)
Lemma play_eventsOf c txPlan conn o s :
  play txPlan (eventsOf c txPlan conn o s) (mkInstance s [])
  = mkInstance (final (runCommand c txPlan conn o s)) [].
Proof.
  unfold eventsOf. rewrite runCommand_cases. cbn [play react current flights].
  destruct (enabled c txPlan conn s) eqn:Hen; [| reflexivity].
  destruct (stepOf c txPlan s) as [step |]; [| reflexivity].
  rewrite submit_run.
  destruct (needsSwitch conn step), (switchResolves o), (sendResult o);
    reflexivity.
Qed.

Lemma quiet_eventsOf c txPlan conn o s :
  quiet txPlan (eventsOf c txPlan conn o s) (mkInstance s []) = true.
Proof.
  unfold eventsOf. cbn [quiet quietAt flights existsb negb andb].
  cbn [react current flights].
  destruct (enabled c txPlan conn s); [| reflexivity].
  destruct (stepOf c txPlan s) as [step |]; [| reflexivity].
  destruct (needsSwitch conn step), (switchResolves o); reflexivity.
Qed.

Lemma serial_run_is_quiet txPlan c conn o s :
  occursQuietly txPlan (mkInstance s []) ->
  occursQuietly txPlan (mkInstance (final (runCommand c txPlan conn o s)) [])
  /\ forall s', In s' (observed (runCommand c txPlan conn o s)) ->
                reachableQuietly txPlan s'.
Proof.
  intros Hocc. split.
  - rewrite <- play_eventsOf.
    apply occursQuietly_play; [exact Hocc | apply quiet_eventsOf].
  - intros s'. rewrite runCommand_cases.
    destruct (enabled c txPlan conn s) eqn:Hen; [| intros []].
    destruct (stepOf c txPlan s) as [step |] eqn:Hstep; [| intros []].
    rewrite submit_run.
    assert (forall events,
               quiet txPlan events (mkInstance s []) = true ->
               reachableQuietly txPlan
                 (current (play txPlan events (mkInstance s [])))) as Hvia.
    { intros events Hq. eexists. split; [| reflexivity].
      now apply occursQuietly_play. }
    destruct (needsSwitch conn step) eqn:Hswitch.
    + destruct (switchResolves o); cbn [andb negb].
      * cbn. intros [<- | [<- | []]].
        -- specialize (Hvia [invoked c conn; switchSettled 0 true]).
           cbn in Hvia. rewrite Hen, Hstep, Hswitch in Hvia. cbn in Hvia.
           now apply Hvia.
        -- specialize (Hvia [invoked c conn; switchSettled 0 true;
                             sendSettled 0 (sendResult o)]).
           cbn in Hvia. rewrite Hen, Hstep, Hswitch in Hvia. cbn in Hvia.
           destruct (sendResult o); now apply Hvia.
      * cbn. intros [<- | []].
        specialize (Hvia [invoked c conn; switchSettled 0 false]).
        cbn in Hvia. rewrite Hen, Hstep, Hswitch in Hvia. cbn in Hvia.
        now apply Hvia.
    + cbn. intros [<- | [<- | []]].
      * specialize (Hvia [invoked c conn]).
        cbn in Hvia. rewrite Hen, Hstep, Hswitch in Hvia. cbn in Hvia.
        now apply Hvia.
      * specialize (Hvia [invoked c conn; sendSettled 0 (sendResult o)]).
        cbn in Hvia. rewrite Hen, Hstep, Hswitch in Hvia. cbn in Hvia.
        destruct (sendResult o); now apply Hvia.
Qed.

(** *** Sample runs *)

Lemma orderlyRun_quiet : quiet samplePlan orderlyRun (start samplePlan) = true.
Proof. reflexivity. Qed.

Lemma afterTwoApprovals_occurs :
  occursQuietly samplePlan (mkInstance afterTwoApprovals []).
Proof. exists orderlyRun. split; reflexivity. Qed.


End ExecutorFacts.

(** *** The specification's scenarios, run on the model *)
Module ExecutorScenarios.
Import TransactionUtils Executor ExecutorSpec Samples.

(** Scenario A: the plan [[]] has no approval step and cannot be executed. *)
Example scenario_A_empty_plan :
  totalApprovals (Some []) = 0%nat
  /\ canExecute (Some []) onChain1 (attach (Some [])) = false
  /\ calls (executeMain (Some []) onChain1 granting (attach (Some []))) = [].
Proof. repeat split. Qed.

(** Scenario B: two approvals and the main step, the wallet granting
    everything. *)
Example scenario_B_all_granted :
  let r1 := approveNext samplePlan onChain1 granting (attach samplePlan) in
  let r2 := approveNext samplePlan onChain1 granting (final r1) in
  let r3 := executeMain samplePlan onChain1 granting (final r2) in
  observed r1 = [ mkState 0 [pending; idle] idle; mkState 1 [success; idle] idle ]
  /\ observed r2 = [ mkState 1 [success; pending] idle;
                     mkState 2 [success; success] idle ]
  /\ isApprovalPhaseComplete samplePlan (final r2) = true
  /\ observed r3 = [ mkState 2 [success; success] pending;
                     mkState 2 [success; success] success ]
  /\ calls r1 ++ calls r2 ++ calls r3
     = [ sendTransaction (sampleStep "approve-0" 1);
         sendTransaction (sampleStep "approve-1" 1);
         switchChain 42161;
         sendTransaction (sampleStep "swap" 42161) ].
Proof. vm_compute. repeat split. Qed.

(** Scenario C: the wallet rejects the first approval; the cursor stays,
    the main step stays blocked, and invoking [approveNext] again retries
    the same step. *)
Example scenario_C_rejected_then_retried :
  let r1 := approveNext samplePlan onChain1 rejectingSend (attach samplePlan) in
  let r2 := approveNext samplePlan onChain1 granting (final r1) in
  final r1 = mkState 0 [error wallet_rejected; idle] idle
  /\ canExecute samplePlan onChain1 (final r1) = false
  /\ calls r2 = [ sendTransaction (sampleStep "approve-0" 1) ]
  /\ final r2 = mkState 1 [success; idle] idle.
Proof. vm_compute. repeat split. Qed.

(** Scenario D: the wallet is on another chain; the switch comes first,
    and a refused switch ends the invocation. *)
Example scenario_D_chain_switch :
  calls (approveNext samplePlan onChain5 granting (attach samplePlan))
  = [ switchChain 1; sendTransaction (sampleStep "approve-0" 1) ]
  /\ calls (approveNext samplePlan onChain5 refusingSwitch (attach samplePlan))
     = [ switchChain 1 ]
  /\ final (approveNext samplePlan onChain5 refusingSwitch (attach samplePlan))
     = mkState 0 [error chain_switch_failed; idle] idle.
Proof. vm_compute. repeat split. Qed.

End ExecutorScenarios.

Module ExecutorTheorems.
Import TransactionUtils Executor ExecutorSpec ExecutorFacts Samples.







(** C3.  Take an invocation of [approveNext] or [executeMain] whose step
    requires a chain other than the current one.  Its wallet calls are
    then: none (the command was not enabled), the chain switch alone (the
    switch was rejected), or the chain switch followed by the
    submission; so the switch always precedes the submission.  If the
    command was enabled and the switch is rejected, the step's status
    becomes error(chain-switch-failed) and no transaction is sent. *)
Theorem chain_switch_precedes_submission c txPlan conn o s step :
  stepOf c txPlan s = Some step ->
  currentChainId conn <> Some (chainId step) ->
  let r := runCommand c txPlan conn o s in
  (enabled c txPlan conn s = false /\ calls r = []
   \/ enabled c txPlan conn s = true /\ switchResolves o = false
      /\ calls r = [switchChain (chainId step)]
   \/ enabled c txPlan conn s = true /\ switchResolves o = true
      /\ calls r = [switchChain (chainId step); sendTransaction step])
  /\ (switchResolves o = false ->
      forall step', ~ In (sendTransaction step') (calls r))
  /\ (reachable txPlan s ->
      enabled c txPlan conn s = true ->
      switchResolves o = false ->
      statusOf (targetOf c s) (final r) = Some (error chain_switch_failed)).
Proof.
  intros Hstep Hchain r. subst r.
  apply needsSwitch_spec in Hchain.
  rewrite runCommand_cases, Hstep.
  destruct (enabled c txPlan conn s) eqn:Hen.
  - rewrite submit_run, Hchain.
    destruct (switchResolves o); cbn.
    + split; [auto |]. split; [discriminate |]. discriminate.
    + split; [auto |]. split.
      * intros _ step' [H | []]. discriminate.
      * intros Hreach _ _.
        destruct c; cbn; [| reflexivity].
        apply list_lookup_insert_eq.
        rewrite (reachable_length txPlan s Hreach).
        cbn in Hstep. apply lookup_lt_Some in Hstep.
        unfold approvalSteps in Hstep. destruct txPlan as [plan |].
        -- rewrite length_take in Hstep. lia.
        -- cbn in Hstep. lia.
  - cbn. split; [auto |]. split; [| discriminate].
    intros _ step' [].
Qed.

Lemma chain_switch_precedes_submission_witness :
  statusOf main
    (final (runCommand cmdExecuteMain samplePlan onChain1 refusingSwitch
              afterTwoApprovals))
  = Some (error chain_switch_failed).
Proof.
  apply (proj2 (proj2 (chain_switch_precedes_submission cmdExecuteMain samplePlan
                         onChain1 refusingSwitch afterTwoApprovals
                         (sampleStep "swap" 42161) eq_refl
                         ltac:(discriminate)))).
  - exists (mkInstance afterTwoApprovals []). split; [| reflexivity].
    exact (occursQuietly_occurs _ _ afterTwoApprovals_occurs).
  - reflexivity.
  - reflexivity.
Defined.

(** C4.  When [canApprove] is false, [approveNext] changes nothing: the
    state after the call equals the state before it (cursor, every step
    status and the main status), no intermediate state is shown, and no
    wallet operation (chain switch or submission) is invoked. *)
Theorem approveNext_is_noop_when_not_canApprove txPlan conn o s :
  canApprove txPlan conn s = false ->
  let r := approveNext txPlan conn o s in
  final r = s
  /\ approvalIndex (final r) = approvalIndex s
  /\ stepStatus (final r) = stepStatus s
  /\ mainStatus (final r) = mainStatus s
  /\ observed r = []
  /\ calls r = [].
Proof.
  intros Hno r. subst r. unfold approveNext. rewrite Hno. cbn.
  repeat split.
Qed.

Lemma approveNext_is_noop_witness :
  final (approveNext samplePlan onChain1 granting firstApprovalPending)
  = firstApprovalPending
  /\ calls (approveNext samplePlan onChain1 granting firstApprovalPending) = [].
Proof.
  destruct (approveNext_is_noop_when_not_canApprove samplePlan onChain1 granting
              firstApprovalPending eq_refl) as (Hfinal & _ & _ & _ & _ & Hcalls).
  split; [exact Hfinal | exact Hcalls].
Defined.

End ExecutorTheorems.

(** ** Rendered surfaces and the empty plan *)
Module WebFacts.
Import TransactionUtils Executor ExecutorSpec ExecutorFacts Web WebSpec.

(** An empty plan is not "present": no command is enabled on it. *)
Lemma empty_plan_disabled c conn s : enabled c (Some []) conn s = false.
Proof.
  destruct c; cbn; unfold canApprove, canExecute; cbn;
    now rewrite andb_false_r.
Qed.

Lemma chatControls_cases {P : Type} (txPreview : option P) txPlan :
  chatControls txPreview txPlan =
  match txPlan with
  | Some (_ :: _) => [button onSignAlert signTransactionLabel false]
  | _ => []
  end.
Proof.
  unfold chatControls, ChatbotWidget_transactionCard.
  destruct txPreview, txPlan as [[| x l] |]; reflexivity.
Qed.

Lemma in_when e cond x : In e (when cond x) -> cond = true /\ e = x.
Proof. destruct cond; cbn; [intros [<- | []]; auto | intros []]. Qed.

Lemma in_whenSome {A} e (v : option A) f :
  In e (whenSome v f) -> exists a, v = Some a /\ e = f a.
Proof. destruct v; cbn; [intros [<- | []]; eauto | intros []]. Qed.

(** The buttons of the [MultisigTrade] card: an Approve button, present
    only when the plan has approval steps and disabled unless
    [canApprove]; and the Execute / Sign Transaction button, disabled
    unless [canExecute]. *)
Lemma MultisigTrade_buttons {P : Type} (txPreview : option P) txPlan conn s
      a l d :
  In (button a l d) (body (MultisigTrade txPreview txPlan conn s)) ->
  (a = onApproveNext /\ (0 < totalApprovals txPlan)%nat
   /\ d = negb (canApprove txPlan conn s))
  \/ (a = onExecuteMain /\ d = negb (canExecute txPlan conn s)).
Proof.
  unfold MultisigTrade, useTransactionExecutor.
  cbn [h_approvalIndex h_totalApprovals h_isApprovalPending h_approvalError
       h_isTxPending h_isTxSuccess h_txError h_canApprove h_canExecute
       h_isApprovalPhaseComplete].
  destruct (truthy txPreview && negb (truthy txPlan)); [intros [] |].
  destruct (truthy txPlan && truthy txPreview); [| intros []].
  cbn [body]. intros [Hin | Hin]; [discriminate |].
  destruct (isConnected conn); [| destruct Hin as [Hin | []]; discriminate].
  rewrite !in_app_iff in Hin.
  destruct Hin as [Hin | [Hin | [Hin | [Hin | [Hin | [Hin | [Hin | Hin]]]]]]].
  - apply in_when in Hin as [_ [=]].
  - apply in_when in Hin as [_ [=]].
  - apply in_whenSome in Hin as (r & _ & [=]).
  - apply in_when in Hin as [_ [=]].
  - destruct (0 <? totalApprovals txPlan)%nat; [| destruct Hin].
    apply in_whenSome in Hin as (r & _ & [=]).
  - apply in_when in Hin as [_ [=]].
  - apply in_when in Hin as [Hneeds [= -> _ ->]].
    left. apply Nat.ltb_lt in Hneeds. auto.
  - destruct Hin as [[= <- _ <-] | []]. right. auto.
Qed.

End WebFacts.

Module WebTheorems.
Import TransactionUtils Executor ExecutorSpec ExecutorFacts Web WebSpec WebFacts Samples.

(** C7.  A plan with zero steps is never submitted.  In the chat widget
    the Sign Transaction control is rendered exactly when the plan is
    non-null and has at least one step, so an empty plan shows no
    control.  In [MultisigTrade] every button rendered for an empty plan
    is disabled (there is no Approve button, and the Sign Transaction
    button has [disabled = !canExecute] with [canExecute] false).  And
    either executor command on an empty plan leaves the state unchanged
    and invokes no wallet operation. *)
Theorem empty_plan_is_never_submitted :
  (forall (P : Type) (txPreview : option P) txPlan,
      (chatControls txPreview txPlan <> [] <->
       exists plan, txPlan = Some plan /\ (0 < length plan)%nat)
      /\ (txPlan = Some [] -> chatControls txPreview txPlan = []))
  /\ (forall (P : Type) (txPreview : option P) conn s e,
      In e (body (MultisigTrade txPreview (Some []) conn s)) ->
      isEnabledButton e = false)
  /\ (forall c conn o s,
      final (runCommand c (Some []) conn o s) = s
      /\ calls (runCommand c (Some []) conn o s) = []).
Proof.
  split; [| split].
  - intros P txPreview txPlan. rewrite chatControls_cases.
    split.
    + destruct txPlan as [[| x l] |]; split; try congruence.
      * intros (plan & [= <-] & Hlen). cbn in Hlen. lia.
      * intros _. exists (x :: l). split; [reflexivity | cbn; lia].
      * intros (plan & [=] & _).
    + now intros ->.
  - intros P txPreview conn s e Hin.
    destruct e as [| n | a l d |]; try reflexivity.
    pose proof (empty_plan_disabled cmdApproveNext conn s) as Hap.
    pose proof (empty_plan_disabled cmdExecuteMain conn s) as Hex.
    cbn in Hap, Hex.
    apply MultisigTrade_buttons in Hin as [(_ & _ & ->) | (_ & ->)]; cbn.
    + now rewrite Hap.
    + now rewrite Hex.
  - intros c conn o s.
    rewrite (disabled_is_noop c (Some []) conn o s (empty_plan_disabled c conn s)).
    split; reflexivity.
Qed.

Lemma empty_plan_witness :
  chatControls samplePreview (Some []) = [].
Proof.
  apply (proj2 (proj1 empty_plan_is_never_submitted string samplePreview (Some []))).
  reflexivity.
Defined.

End WebTheorems.

(** ** More on the counter agent: the parser *)
Module CounterParserFacts.
Import JsString CounterUtils CounterAgent CounterAgentSpec CounterAgentFacts
  CounterParserSpec.

Lemma lowerChar_idempotent c : lowerChar (lowerChar c) = lowerChar c.
Proof. destruct c as [[] [] [] [] [] [] [] []]; reflexivity. Qed.

Lemma toLowerCase_idempotent s : toLowerCase (toLowerCase s) = toLowerCase s.
Proof.
  induction s as [| c s IH]; [reflexivity |].
  cbn. now rewrite lowerChar_idempotent, IH.
Qed.

Lemma toLowerCase_append s t :
  toLowerCase (s +:+ t) = toLowerCase s +:+ toLowerCase t.
Proof.
  induction s as [| c s IH]; [reflexivity |].
  change (String c s +:+ t) with (String c (s +:+ t)).
  change (toLowerCase (String c (s +:+ t)))
    with (String (lowerChar c) (toLowerCase (s +:+ t))).
  now rewrite IH.
Qed.

Lemma stripPrefix_prefix p s rest :
  stripPrefix p s = Some rest -> String.prefix p s = true.
Proof.
  revert s. induction p as [| a p IH]; intros s.
  - now destruct s.
  - destruct s as [| b s]; [discriminate |]. cbn.
    destruct (Ascii.eqb_spec a b) as [-> | Hne]; [| discriminate].
    destruct (ascii_dec b b) as [_ | Hbb]; [apply IH | now destruct Hbb].
Qed.

(** The regular expression [/set.*?(\d+)/] matches only where "set"
    occurs. *)
Lemma matchSetDigits_includes s digits :
  matchSetDigits s = Some digits -> includes s "set" = true.
Proof.
  induction s as [| c s IH]; [discriminate |].
  intros Hm. cbn [matchSetDigits] in Hm.
  destruct (stripPrefix "set" (String c s)) as [rest |] eqn:Hstrip.
  - apply stripPrefix_prefix in Hstrip.
    unfold includes; fold includes. now rewrite Hstrip.
  - unfold includes; fold includes. rewrite (IH Hm). apply orb_true_r.
Qed.

Lemma takeDigits_nonempty c r :
  isDigit c = true -> truthy (takeDigits (String c r)) = true.
Proof. intros Hc. cbn. now rewrite Hc. Qed.

Lemma lazyThenDigits_truthy s digits :
  lazyThenDigits s = Some digits -> truthy digits = true.
Proof.
  induction s as [| c s IH]; [discriminate |]. cbn [lazyThenDigits].
  destruct (isDigit c) eqn:Hc.
  - intros [= <-]. now apply takeDigits_nonempty.
  - destruct (isLineTerminator c); [discriminate | exact IH].
Qed.

(** Group 1 of a match of [/set.*?(\d+)/] is never empty. *)
Lemma matchSetDigits_truthy s digits :
  matchSetDigits s = Some digits -> truthy digits = true.
Proof.
  induction s as [| c s IH]; [discriminate |]. cbn [matchSetDigits].
  destruct (stripPrefix "set" (String c s)) as [rest |]; [| exact IH].
  destruct (lazyThenDigits rest) as [d |] eqn:Hd; [| exact IH].
  intros [= <-]. exact (lazyThenDigits_truthy rest d Hd).
Qed.

Lemma parseInstruction_without_set instruction :
  includes (toLowerCase instruction) "set" = false ->
  parseInstruction instruction
  = Ok {| type := if mentionsIncrement (toLowerCase instruction)
                  then increment else read;
          op_value := None |}.
Proof.
  intros Hno. unfold parseInstruction, setMatchOf, mentionsIncrement.
  destruct (matchSetDigits (toLowerCase instruction)) as [d |] eqn:Hm.
  - apply matchSetDigits_includes in Hm. congruence.
  - rewrite Hno.
    destruct (matchDigits (toLowerCase instruction)); cbn;
      destruct (includes (toLowerCase instruction) "increment"
                || includes (toLowerCase instruction) "increase"
                || includes (toLowerCase instruction) "add"
                || includes (toLowerCase instruction) "bump");
      try reflexivity;
      now destruct (includes (toLowerCase instruction) "get"
                    || includes (toLowerCase instruction) "current"
                    || includes (toLowerCase instruction) "value"
                    || includes (toLowerCase instruction) "read"
                    || includes (toLowerCase instruction) "what"
                    || includes (toLowerCase instruction) "show").
Qed.

Lemma parseInstruction_with_set instruction :
  includes (toLowerCase instruction) "set" = true ->
  match matchSetDigits (toLowerCase instruction) with
  | Some digits =>
      parseInstruction instruction
      = Ok {| type := set; op_value := Some (parseInt digits) |}
  | None =>
      parseInstruction instruction
      = Throw ("Please specify a number to set the counter to, e.g., "
               +:+ doubleQuote +:+ "Set counter to 42" +:+ doubleQuote)
  end.
Proof.
  intros Hset. unfold parseInstruction, setMatchOf.
  destruct (matchSetDigits (toLowerCase instruction)) as [d |] eqn:Hm.
  - cbn. now rewrite (matchSetDigits_truthy _ _ Hm).
  - rewrite Hset, orb_true_r.
    now destruct (matchDigits (toLowerCase instruction)).
Qed.

Lemma parseInstruction_set_has_value instruction op :
  parseInstruction instruction = Ok op -> type op = set ->
  exists v, op_value op = Some v.
Proof.
  intros Hop Htype.
  destruct (includes (toLowerCase instruction) "set") eqn:Hset.
  - pose proof (parseInstruction_with_set instruction Hset) as Hp.
    destruct (matchSetDigits (toLowerCase instruction)); [| congruence].
    rewrite Hp in Hop. injection Hop as <-. cbn. eauto.
  - rewrite (parseInstruction_without_set instruction Hset) in Hop.
    injection Hop as <-. cbn in Htype.
    destruct (mentionsIncrement (toLowerCase instruction)); discriminate.
Qed.

End CounterParserFacts.

Module CounterParserTheorems.
Import JsString CounterUtils CounterAgent CounterAgentSpec CounterAgentFacts
  CounterParserSpec CounterParserFacts Samples.

(** X1.  The agent reads an instruction only through its lower-case form:
    two instructions that differ in letter case alone get the same answer,
    and lower-casing an instruction beforehand changes nothing. *)
Theorem processUserInput_ignores_letter_case w i1 i2 userAddress :
  toLowerCase i1 = toLowerCase i2 ->
  processUserInput w i1 userAddress = processUserInput w i2 userAddress
  /\ processUserInput w (toLowerCase i1) userAddress
     = processUserInput w i2 userAddress.
Proof.
  intros Hcase.
  assert (forall a b, toLowerCase a = toLowerCase b ->
                      parseInstruction a = parseInstruction b) as Hparse.
  { intros a b Hab. unfold parseInstruction. now rewrite Hab. }
  assert (forall a b, toLowerCase a = toLowerCase b ->
                      processUserInput w a userAddress
                      = processUserInput w b userAddress) as Hrun.
  { intros a b Hab. unfold processUserInput, tryProcess.
    now rewrite (Hparse a b Hab). }
  split; apply Hrun; [exact Hcase |].
  now rewrite toLowerCase_idempotent.
Qed.

Lemma processUserInput_ignores_letter_case_witness :
  processUserInput calmWorld "SET Counter TO 5" "0xA1"
  = processUserInput calmWorld "set counter to 5" "0xA1"
  /\ processUserInput calmWorld (toLowerCase "SET Counter TO 5") "0xA1"
     = processUserInput calmWorld "set counter to 5" "0xA1".
Proof.
  apply (processUserInput_ignores_letter_case calmWorld "SET Counter TO 5"
           "set counter to 5" "0xA1").
  reflexivity.
Defined.

(** X2.  An instruction that does not contain "set" (in any letter case) is
    never rejected by the parser: it is an increment when it mentions
    "increment", "increase", "add" or "bump", and a read otherwise, with no
    value attached.  If moreover the chain client answers, the task is
    completed. *)
Theorem instruction_without_set_is_increment_or_read w instruction userAddress :
  includes (toLowerCase instruction) "set" = false ->
  (exists op,
      parseInstruction instruction = Ok op
      /\ op_value op = None
      /\ (type op = increment <->
          mentionsIncrement (toLowerCase instruction) = true)
      /\ (type op = read <->
          mentionsIncrement (toLowerCase instruction) = false))
  /\ (forall n d, readNumber w = Ok n -> encodeIncrement w = Ok d ->
      exists task, processUserInput w instruction userAddress = Ok task
                   /\ state task = completed).
Proof.
  intros Hno. pose proof (parseInstruction_without_set instruction Hno) as Hp.
  split.
  - eexists. split; [exact Hp |]. cbn.
    destruct (mentionsIncrement (toLowerCase instruction));
      repeat split; intros; congruence.
  - intros n d Hn Hd. unfold processUserInput, tryProcess. rewrite Hp. cbn.
    destruct (mentionsIncrement (toLowerCase instruction)).
    + unfold handleIncrement. rewrite Hn, Hd. eexists. split; reflexivity.
    + unfold handleRead. rewrite Hn. eexists. split; reflexivity.
Qed.

Lemma instruction_without_set_witness :
  exists op,
    parseInstruction "Please ADD one" = Ok op
    /\ op_value op = None
    /\ (type op = increment <-> mentionsIncrement (toLowerCase "Please ADD one") = true)
    /\ (type op = read <-> mentionsIncrement (toLowerCase "Please ADD one") = false).
Proof.
  apply (instruction_without_set_is_increment_or_read calmWorld
           "Please ADD one" "0xA1").
  reflexivity.
Defined.

(** X3.  An instruction that contains "set" (also inside another word such
    as "reset") is a set operation or nothing: the parser returns a set
    carrying the number that follows, or throws its "Please specify a
    number" error; it never falls through to increment or read, whatever
    else the instruction mentions.  And whenever the parser returns a set
    operation, the operation has its value, so the "Value is required"
    check of [processUserInput] cannot fire. *)
Theorem instruction_with_set_is_set_or_error instruction :
  (includes (toLowerCase instruction) "set" = true ->
   (exists v, parseInstruction instruction
              = Ok {| type := set; op_value := Some v |})
   \/ parseInstruction instruction = Throw pleaseSpecifyNumber)
  /\ (forall op, parseInstruction instruction = Ok op ->
      (type op = set <-> exists v, op_value op = Some v)).
Proof.
  split.
  - intros Hset. pose proof (parseInstruction_with_set instruction Hset) as Hp.
    destruct (matchSetDigits (toLowerCase instruction)); eauto.
  - intros op Hop.
    destruct (includes (toLowerCase instruction) "set") eqn:Hset.
    + pose proof (parseInstruction_with_set instruction Hset) as Hp.
      destruct (matchSetDigits (toLowerCase instruction)).
      * rewrite Hp in Hop. injection Hop as <-. cbn. split; eauto.
      * congruence.
    + rewrite (parseInstruction_without_set instruction Hset) in Hop.
      injection Hop as <-. cbn.
      destruct (mentionsIncrement (toLowerCase instruction));
        (split; [discriminate | intros [v [=]]]).
Qed.

Lemma instruction_with_set_witness :
  (exists v, parseInstruction "Reset and increment"
             = Ok {| type := set; op_value := Some v |})
  \/ parseInstruction "Reset and increment" = Throw pleaseSpecifyNumber.
Proof.
  apply (proj1 (instruction_with_set_is_set_or_error "Reset and increment")).
  reflexivity.
Defined.

End CounterParserTheorems.

(** ** More on the counter agent: numbers in instructions *)
Module CounterNumberFacts.
Import JsString CounterUtils CounterAgent CounterAgentSpec CounterAgentFacts
  CounterParserSpec CounterParserFacts.

Lemma pretty_N_char_digit d :
  (d < 10)%N ->
  isDigit (pretty_N_char d) = true
  /\ (N_of_ascii (pretty_N_char d) - 48)%N = d.
Proof.
  intros Hd.
  assert (d = 0 \/ d = 1 \/ d = 2 \/ d = 3 \/ d = 4 \/ d = 5 \/ d = 6
          \/ d = 7 \/ d = 8 \/ d = 9)%N as Hcases by lia.
  repeat destruct Hcases as [-> | Hcases]; try subst d; split; reflexivity.
Qed.

Lemma pretty_N_go_allDigits x s :
  Wei.allDigits s = true -> Wei.allDigits (pretty_N_go x s) = true.
Proof.
  revert s. induction (N.lt_wf_0 x) as [x _ IH]. intros s Hs.
  destruct (N.eq_dec x 0%N) as [-> | Hx]; [now rewrite pretty_N_go_0 |].
  rewrite pretty_N_go_step by lia.
  apply IH; [apply N.div_lt; lia |].
  cbn. rewrite Hs, andb_true_r.
  apply pretty_N_char_digit, N.mod_lt. lia.
Qed.

Lemma pretty_N_go_nonempty x s :
  truthy s = true -> truthy (pretty_N_go x s) = true.
Proof.
  revert s. induction (N.lt_wf_0 x) as [x _ IH]. intros s Hs.
  destruct (N.eq_dec x 0%N) as [-> | Hx]; [now rewrite pretty_N_go_0 |].
  rewrite pretty_N_go_step by lia.
  apply IH; [apply N.div_lt; lia | reflexivity].
Qed.

Lemma parseDigits_pretty_N_go x s :
  parseDigits 0%N (pretty_N_go x s) = parseDigits x s.
Proof.
  revert s. induction (N.lt_wf_0 x) as [x _ IH]. intros s.
  destruct (N.eq_dec x 0%N) as [-> | Hx]; [now rewrite pretty_N_go_0 |].
  rewrite pretty_N_go_step by lia.
  rewrite IH by (apply N.div_lt; lia).
  cbn [parseDigits]. f_equal.
  destruct (pretty_N_char_digit (x mod 10)%N) as [_ ->]; [apply N.mod_lt; lia |].
  pose proof (N.div_mod x 10%N). lia.
Qed.

Lemma toString_allDigits n : Wei.allDigits (toString n) = true.
Proof.
  unfold toString, pretty, pretty_N. destruct (decide (n = 0%N)); [reflexivity |].
  now apply pretty_N_go_allDigits.
Qed.

Lemma toString_truthy n : truthy (toString n) = true.
Proof.
  unfold toString, pretty, pretty_N. destruct (decide (n = 0%N)); [reflexivity |].
  destruct (N.eq_dec n 0%N) as [-> | Hn]; [congruence |].
  rewrite pretty_N_go_step by lia. now apply pretty_N_go_nonempty.
Qed.

Lemma parseInt_toString n : parseInt (toString n) = n.
Proof.
  unfold toString, pretty, pretty_N, parseInt.
  destruct (decide (n = 0%N)) as [-> | Hn]; [reflexivity |].
  now rewrite parseDigits_pretty_N_go.
Qed.

Lemma takeDigits_allDigits s : Wei.allDigits s = true -> takeDigits s = s.
Proof.
  induction s as [| c s IH]; [reflexivity |]. cbn.
  intros [Hc Hs]%andb_true_iff. now rewrite Hc, IH.
Qed.

Lemma toLowerCase_allDigits s : Wei.allDigits s = true -> toLowerCase s = s.
Proof.
  induction s as [| c s IH]; [reflexivity |]. cbn.
  intros [Hc Hs]%andb_true_iff. rewrite IH by exact Hs. f_equal.
  unfold isDigit in Hc. unfold lowerChar.
  apply andb_true_iff in Hc as [H1 H2].
  apply Nat.leb_le in H1, H2.
  replace (65 <=? nat_of_ascii c)%nat with false
    by (symmetry; apply Nat.leb_gt; lia).
  reflexivity.
Qed.

Lemma lazyThenDigits_digits s :
  Wei.allDigits s = true -> truthy s = true -> lazyThenDigits s = Some s.
Proof.
  destruct s as [| c r]; [discriminate |]. intros Hall _.
  pose proof Hall as Hall'. cbn in Hall'.
  apply andb_true_iff in Hall' as [Hc _].
  cbn [lazyThenDigits]. rewrite Hc. now rewrite takeDigits_allDigits.
Qed.

Lemma matchSetDigits_set_counter_to t :
  Wei.allDigits t = true -> truthy t = true ->
  matchSetDigits ("set counter to " +:+ t) = Some t.
Proof.
  intros Hall Ht. simpl. change (EmptyString +:+ t) with t.
  now rewrite lazyThenDigits_digits.
Qed.

End CounterNumberFacts.

Module CounterNumberTheorems.
Import JsString CounterUtils CounterAgent CounterAgentSpec CounterAgentFacts
  CounterParserSpec CounterParserFacts CounterNumberFacts Samples.

(** X4.  Numbers survive the trip through text.  For every [n] in the
    safe-integer range (up to 2^53 - 1, where JavaScript numbers are
    exact), [parseInt] of the decimal text of [n] is [n]; the instruction
    the parser's own error message suggests, "Set counter to n", is parsed
    as a set operation with value [n]; and with a working chain client the
    task reports [newValue] as that same text. *)
Theorem set_counter_to_number_round_trip n :
  (n <= 9007199254740991)%N ->
  parseInt (toString n) = n
  /\ parseInstruction ("Set counter to " +:+ toString n)
     = Ok {| type := set; op_value := Some n |}
  /\ (forall w userAddress current d,
         readNumber w = Ok current -> encodeSetNumber w n = Ok d ->
         exists task m,
           processUserInput w ("Set counter to " +:+ toString n) userAddress
           = Ok task
           /\ metadata task = Some m
           /\ newValue m = Some (toString n)
           /\ txData m = Some {| td_to := agentContract w; td_data := d;
                                 td_value := "0x0" |}).
Proof.
  intros _.
  assert (parseInstruction ("Set counter to " +:+ toString n)
          = Ok {| type := set; op_value := Some n |}) as Hparse.
  { unfold parseInstruction, setMatchOf.
    rewrite toLowerCase_append, (toLowerCase_allDigits _ (toString_allDigits n)).
    change (toLowerCase "Set counter to ") with "set counter to ".
    rewrite (matchSetDigits_set_counter_to _ (toString_allDigits n)
               (toString_truthy n)).
    cbn. now rewrite toString_truthy, parseInt_toString. }
  split; [apply parseInt_toString | split; [exact Hparse |]].
  intros w userAddress current d Hread Henc.
  unfold processUserInput, tryProcess. rewrite Hparse. cbn.
  unfold handleSet. rewrite Hread, Henc.
  eexists. eexists. repeat split.
Qed.

Lemma set_counter_to_number_witness :
  parseInt (toString 42%N) = 42%N
  /\ parseInstruction ("Set counter to " +:+ toString 42%N)
     = Ok {| type := set; op_value := Some 42%N |}.
Proof.
  destruct (set_counter_to_number_round_trip 42%N ltac:(vm_compute; discriminate))
    as (Hint & Hparse & _).
  split; [exact Hint | exact Hparse].
Defined.

End CounterNumberTheorems.

(** ** From an instruction to the plan the web client extracts *)
Module CounterPipelineFacts.
Import TransactionUtils JsString CounterUtils CounterAgent CounterAgentSpec
  CounterAgentFacts CounterParserSpec CounterParserFacts.

Lemma handleRead_throws w taskId userAddress message :
  handleRead w taskId userAddress = Throw message ->
  exists m, readNumber w = Throw m
            /\ message = "Failed to read counter value: " +:+ m.
Proof.
  unfold handleRead. destruct (readNumber w) as [n | m]; [discriminate |].
  intros [= <-]. eauto.
Qed.

Lemma handleIncrement_throws w taskId userAddress message :
  handleIncrement w taskId userAddress = Throw message ->
  exists m, (readNumber w = Throw m
             \/ (exists n, readNumber w = Ok n) /\ encodeIncrement w = Throw m)
            /\ message = "Failed to prepare increment transaction: " +:+ m.
Proof.
  unfold handleIncrement. destruct (readNumber w) as [n | m].
  - destruct (encodeIncrement w) as [d | m]; [discriminate |].
    intros [= <-]. exists m. split; [right; eauto | reflexivity].
  - intros [= <-]. eauto.
Qed.

Lemma handleSet_throws w taskId userAddress v message :
  handleSet w taskId userAddress v = Throw message ->
  exists m, (readNumber w = Throw m
             \/ (exists n, readNumber w = Ok n) /\ encodeSetNumber w v = Throw m)
            /\ message = "Failed to prepare set transaction: " +:+ m.
Proof.
  unfold handleSet. destruct (readNumber w) as [n | m].
  - destruct (encodeSetNumber w v) as [d | m]; [discriminate |].
    intros [= <-]. exists m. split; [right; eauto | reflexivity].
  - intros [= <-]. eauto.
Qed.

Lemma parseInstruction_throws instruction message :
  parseInstruction instruction = Throw message -> message = pleaseSpecifyNumber.
Proof.
  intros Hthrow. unfold pleaseSpecifyNumber.
  destruct (includes (toLowerCase instruction) "set") eqn:Hset.
  - pose proof (parseInstruction_with_set instruction Hset) as Hp.
    destruct (matchSetDigits (toLowerCase instruction)); congruence.
  - rewrite (parseInstruction_without_set instruction Hset) in Hthrow.
    discriminate.
Qed.

Lemma tryProcess_throws w instruction userAddress message :
  tryProcess w instruction userAddress = Throw message ->
  FailureText w ("Error: " +:+ message).
Proof.
  unfold tryProcess.
  destruct (parseInstruction instruction) as [op | msg] eqn:Hparse.
  - destruct (type op) eqn:Htype.
    + intros (m & Hm & ->)%handleRead_throws. now apply failure_read.
    + intros (m & Hm & ->)%handleIncrement_throws. now apply failure_increment.
    + destruct (op_value op) as [v |] eqn:Hv.
      * intros (m & Hm & ->)%handleSet_throws. apply failure_set.
        destruct Hm as [Hm | [Hn Hm]]; eauto.
      * exfalso.
        destruct (parseInstruction_set_has_value instruction op Hparse Htype)
          as [v' Hv'].
        congruence.
  - intros [= <-]. rewrite (parseInstruction_throws instruction msg Hparse).
    apply failure_parse.
Qed.


End CounterPipelineFacts.

Module CounterPipelineTheorems.
Import TransactionUtils JsString CounterUtils CounterAgent CounterAgentSpec
  CounterAgentFacts CounterParserSpec CounterParserFacts CounterPipelineFacts
  Samples.



(** X6.  What a failed task says.  Whenever [processUserInput] returns a
    failed task, the task has the id [counter-error-<now>], carries no
    metadata, and its one text part is "Error: " followed by either the
    parser's "Please specify a number" message or a handler's "Failed to
    ..." message wrapping what the chain client threw.  The texts "Value
    is required for set operation" and "Unknown operation type" never
    appear. *)
Theorem counter_failed_task_texts w instruction userAddress task :
  processUserInput w instruction userAddress = Ok task ->
  state task = failed ->
  id task = "counter-error-" +:+ nowAtCatch w
  /\ metadata task = None
  /\ exists text, parts task = [text] /\ FailureText w text.
Proof.
  intros Hrun Hfailed.
  pose proof (processUserInput_cases w instruction userAddress) as Hcases.
  destruct (tryProcess w instruction userAddress) as [t | msg] eqn:Htry.
  - rewrite Hcases in Hrun. injection Hrun as <-.
    destruct (tryProcess_result _ _ _ _ Htry) as [Hdone _]. congruence.
  - rewrite Hcases in Hrun. injection Hrun as <-.
    split; [reflexivity | split; [reflexivity |]].
    eexists. split; [reflexivity |].
    exact (tryProcess_throws w instruction userAddress msg Htry).
Qed.

Lemma counter_failed_task_witness :
  id {| id := "counter-error-1700000000001"; state := failed;
        parts := [ "Error: Failed to read counter value: HTTP request failed" ];
        metadata := None |}
  = "counter-error-" +:+ nowAtCatch brokenWorld
  /\ metadata {| id := "counter-error-1700000000001"; state := failed;
        parts := [ "Error: Failed to read counter value: HTTP request failed" ];
        metadata := None |} = None
  /\ exists text,
       parts {| id := "counter-error-1700000000001"; state := failed;
        parts := [ "Error: Failed to read counter value: HTTP request failed" ];
        metadata := None |} = [text]
       /\ FailureText brokenWorld text.
Proof.
  apply (counter_failed_task_texts brokenWorld "what is the value" "0xA1");
    reflexivity.
Defined.

End CounterPipelineTheorems.

(** ** What [MultisigTrade] renders *)
Module WebViewFacts.
Import TransactionUtils Executor Web WebView.

Lemma MultisigTrade_With {P : Type} (txPreview : option P) txPlan conn s :
  MultisigTrade txPreview txPlan conn s
  = MultisigTradeWith txPreview txPlan (isConnected conn)
      (useTransactionExecutor txPlan conn s).
Proof. reflexivity. Qed.

Ltac case_hook h :=
  destruct h as [idx total apPending apError txPending txSuccess txErr
                   canAp canEx complete];
  cbn [h_approvalIndex h_totalApprovals h_isApprovalPending h_approvalError
       h_isTxPending h_isTxSuccess h_txError h_canApprove h_canExecute
       h_isApprovalPhaseComplete];
  destruct total as [| total]; destruct apPending; destruct apError;
  destruct txPending; destruct txSuccess; destruct txErr; destruct complete.

End WebViewFacts.

Module WebViewTheorems.
Import TransactionUtils Executor Web WebView WebViewFacts Samples.

(** X7.  When [MultisigTrade] shows anything.  Without a preview it
    renders nothing, even if a plan is there; with a preview and a null
    plan it renders the read-only status card; with both it renders the
    transaction card: for a disconnected wallet the preview and the
    Connect button and nothing else, whatever the executor reports; for a
    connected wallet the preview first, the Execute button last (disabled
    iff [canExecute] is false) and no Connect button.  So a command button
    is rendered exactly when there are a preview, a plan and a connected
    wallet. *)
Theorem MultisigTrade_buttons_need_preview_plan_and_wallet
  (P : Type) (txPreview : option P) txPlan isConnected h :
  (txPreview = None ->
   MultisigTradeWith txPreview txPlan isConnected h = nothing)
  /\ (txPreview <> None -> txPlan = None ->
      MultisigTradeWith txPreview txPlan isConnected h = readOnlyCard)
  /\ (txPreview <> None -> txPlan <> None -> isConnected = false ->
      MultisigTradeWith txPreview txPlan isConnected h
      = transactionCard [previewSection; connectWallet])
  /\ (txPreview <> None -> txPlan <> None -> isConnected = true ->
      exists elements label,
        MultisigTradeWith txPreview txPlan isConnected h
        = transactionCard elements
        /\ head elements = Some previewSection
        /\ last elements
           = Some (button onExecuteMain label (negb (h_canExecute h)))
        /\ ~ In connectWallet elements)
  /\ (buttonsOf (MultisigTradeWith txPreview txPlan isConnected h) <> [] <->
      txPreview <> None /\ txPlan <> None /\ isConnected = true).
Proof.
  assert (forall (preview : P) (plan : TxPlan),
             exists elements label,
               MultisigTradeWith (Some preview) (Some plan) true h
               = transactionCard elements
               /\ head elements = Some previewSection
               /\ last elements
                  = Some (button onExecuteMain label (negb (h_canExecute h)))
               /\ ~ In connectWallet elements) as Hconnected.
  { intros preview plan. unfold MultisigTradeWith.
    case_hook h; cbn;
      (eexists; eexists; split; [reflexivity |];
       split; [reflexivity |]; split; [reflexivity |];
       intros Hin; cbn in Hin;
       repeat (destruct Hin as [Hin | Hin]; [discriminate |]);
       exact Hin). }
  split; [| split; [| split; [| split]]].
  - intros ->. unfold MultisigTradeWith. destruct txPlan; reflexivity.
  - intros Hp ->. unfold MultisigTradeWith.
    destruct txPreview; [reflexivity | congruence].
  - intros Hp Hplan ->. unfold MultisigTradeWith.
    destruct txPreview, txPlan; try congruence. reflexivity.
  - intros Hp Hplan ->.
    destruct txPreview as [preview |], txPlan as [plan |]; try congruence.
    apply Hconnected.
  - split.
    + unfold MultisigTradeWith.
      destruct txPreview as [p |], txPlan as [plan |], isConnected; cbn;
        repeat split; try congruence; try discriminate.
    + intros (Hp & Hplan & ->).
      destruct txPreview as [preview |], txPlan as [plan |]; try congruence.
      destruct (Hconnected preview plan) as (elements & label & -> & _ & Hlast & _).
      unfold buttonsOf. cbn [body]. intros Hnone.
      assert (In (button onExecuteMain label (negb (h_canExecute h))) elements)
        as Hin.
      { apply list_elem_of_In. apply last_Some_elem_of. exact Hlast. }
      assert (In (onExecuteMain, negb (h_canExecute h))
                (flat_map (fun e => match e with
                                    | button a _ d => [(a, d)]
                                    | _ => []
                                    end) elements)) as Hbutton.
      { apply in_flat_map. eexists. split; [exact Hin |]. left. reflexivity. }
      rewrite Hnone in Hbutton. destruct Hbutton.
Qed.

Lemma MultisigTrade_buttons_need_witness :
  MultisigTradeWith (None : option string) samplePlan true approvingHook = nothing.
Proof.
  apply (proj1 (MultisigTrade_buttons_need_preview_plan_and_wallet
                  string None samplePlan true approvingHook)).
  reflexivity.
Defined.

(** X8.  The buttons of the transaction card of a connected wallet, for
    any hook result: an Approve button exactly when the plan has approval
    steps, followed by exactly one Execute button; the Approve button is
    disabled iff [canApprove] is false and the Execute button iff
    [canExecute] is false.  No other control invokes a command. *)
Theorem MultisigTrade_connected_buttons
  (P : Type) (preview : P) (plan : TxPlan) h :
  buttonsOf (MultisigTradeWith (Some preview) (Some plan) true h)
  = (if (0 <? h_totalApprovals h)%nat
     then [ (onApproveNext, negb (h_canApprove h)) ]
     else [])
    ++ [ (onExecuteMain, negb (h_canExecute h)) ].
Proof. case_hook h; reflexivity. Qed.

(** X9.  The notice "All Approvals Sent! Ready to execute." is shown only
    between the approval phase and the main transaction: whenever it is
    rendered, the plan has approval steps, the hook reports the approval
    phase complete, and none of the main transaction's notices (success,
    executing, execution error) is rendered with it. *)
Theorem MultisigTrade_all_approvals_sent_is_exclusive
  (P : Type) (txPreview : option P) txPlan isConnected h :
  In allApprovalsSent
     (noticesOf (MultisigTradeWith txPreview txPlan isConnected h)) ->
  (0 < h_totalApprovals h)%nat
  /\ h_isApprovalPhaseComplete h = true
  /\ ~ In transactionSuccessful
         (noticesOf (MultisigTradeWith txPreview txPlan isConnected h))
  /\ ~ In executingTransaction
         (noticesOf (MultisigTradeWith txPreview txPlan isConnected h))
  /\ forall reason,
       ~ In (executionError reason)
           (noticesOf (MultisigTradeWith txPreview txPlan isConnected h)).
Proof.
  unfold MultisigTradeWith.
  destruct txPreview as [p |], txPlan as [plan |], isConnected;
    try (cbn; intros []).
  case_hook h; cbn; intros Hin;
    repeat match type of Hin with
      | _ \/ _ => destruct Hin as [Hin | Hin]
      | False => destruct Hin
      | _ = _ => try discriminate Hin
      end;
    (split; [lia |]); (split; [reflexivity |]);
    (split; [intros H | split; [intros H | intros reason H]]);
    repeat match type of H with
      | _ \/ _ => destruct H as [H | H]
      | False => destruct H
      | _ = _ => try discriminate H
      end.
Qed.

Lemma MultisigTrade_all_approvals_sent_witness :
  (0 < h_totalApprovals readyHook)%nat
  /\ h_isApprovalPhaseComplete readyHook = true
  /\ ~ In transactionSuccessful
         (noticesOf (MultisigTradeWith samplePreview samplePlan true readyHook))
  /\ ~ In executingTransaction
         (noticesOf (MultisigTradeWith samplePreview samplePlan true readyHook))
  /\ forall reason,
       ~ In (executionError reason)
         (noticesOf (MultisigTradeWith samplePreview samplePlan true readyHook)).
Proof.
  apply (MultisigTrade_all_approvals_sent_is_exclusive string samplePreview
           samplePlan true readyHook).
  cbn. auto.
Defined.

End WebViewTheorems.

(** ** Editing a message in the chat widget *)
Module ChatEditFacts.
Import ChatEdit.

Lemma handleSaveEdit_blank messageId st :
  truthy (trim (editingText st)) = false -> handleSaveEdit messageId st = st.
Proof. intros Hblank. unfold handleSaveEdit. now rewrite Hblank. Qed.

Lemma handleSaveEdit_text messageId st :
  truthy (trim (editingText st)) = true ->
  handleSaveEdit messageId st
  = {| messages :=
         map (fun msg =>
                if String.eqb (m_id msg) messageId then
                  {| m_id := m_id msg; m_role := m_role msg;
                     m_content := editingText st;
                     m_parts := [textPart (editingText st)];
                     m_rest := m_rest msg |}
                else msg) (messages st);
       editingMessageId := None;
       editingText := [];
       reloadsScheduled := S (reloadsScheduled st) |}.
Proof. intros Htext. unfold handleSaveEdit. now rewrite Htext. Qed.

(** A text of whitespace alone trims to nothing, and only such a text
    does. *)
Lemma trimStart_empty_iff s :
  trimStart s = [] <-> allWhitespace s = true.
Proof.
  unfold allWhitespace. induction s as [| c s IH]; [easy |]. cbn.
  destruct (isWhitespace c); cbn; [exact IH | easy].
Qed.

Lemma trimEnd_empty_iff s :
  trimEnd s = [] <-> allWhitespace s = true.
Proof.
  unfold allWhitespace. induction s as [| c s IH]; [easy |]. cbn.
  destruct (trimEnd s) eqn:Hs.
  - destruct (isWhitespace c); cbn; [| easy].
    split; [intros _; now apply IH | reflexivity].
  - split; [discriminate |].
    intros [_ Hall]%andb_true_iff. apply IH in Hall. discriminate.
Qed.

Lemma trimStart_allWhitespace s :
  allWhitespace (trimStart s) = true -> allWhitespace s = true.
Proof.
  unfold allWhitespace. induction s as [| c s IH]; [easy |]. cbn.
  destruct (isWhitespace c) eqn:Hc; cbn; [exact IH |].
  now rewrite Hc.
Qed.

Lemma trim_empty_iff s :
  trim s = [] <-> allWhitespace s = true.
Proof.
  unfold trim. rewrite trimEnd_empty_iff. split.
  - apply trimStart_allWhitespace.
  - intros Hall. apply trimStart_empty_iff in Hall. now rewrite Hall.
Qed.

Lemma truthy_trim s : truthy (trim s) = negb (allWhitespace s).
Proof.
  destruct (allWhitespace s) eqn:Hall.
  - apply trim_empty_iff in Hall. now rewrite Hall.
  - destruct (trim s) eqn:Htrim; [| reflexivity].
    apply trim_empty_iff in Htrim. congruence.
Qed.

End ChatEditFacts.

Module ChatEditTheorems.
Import ChatEdit ChatEditFacts.

(** X10.  Saving an edit takes effect at most once.  An edit text that
    is empty or made of whitespace alone (in the sense of
    [String.prototype.trim], no-break spaces and line separators
    included) changes nothing at all and schedules no reload; any other
    edit text is saved: one reload is scheduled and the edit text and the
    editing id are cleared.  After any save, saving again on the state
    that save left (the component rendered anew), for the same or another
    message, changes nothing further, since the save cleared the edit
    text. *)
Theorem handleSaveEdit_applies_at_most_once id1 id2 st :
  (allWhitespace (editingText st) = true -> handleSaveEdit id1 st = st)
  /\ (allWhitespace (editingText st) = false ->
      reloadsScheduled (handleSaveEdit id1 st) = S (reloadsScheduled st)
      /\ editingText (handleSaveEdit id1 st) = []
      /\ editingMessageId (handleSaveEdit id1 st) = None)
  /\ handleSaveEdit id2 (handleSaveEdit id1 st) = handleSaveEdit id1 st.
Proof.
  split; [| split].
  - intros Hblank. apply handleSaveEdit_blank.
    now rewrite truthy_trim, Hblank.
  - intros Htext. rewrite handleSaveEdit_text by now rewrite truthy_trim, Htext.
    repeat split.
  - destruct (truthy (trim (editingText st))) eqn:Htext.
    + rewrite (handleSaveEdit_text id1 st Htext).
      now apply handleSaveEdit_blank.
    + rewrite (handleSaveEdit_blank id1 st Htext).
      now apply handleSaveEdit_blank.
Qed.

Lemma handleSaveEdit_applies_at_most_once_witness :
  handleSaveEdit "m1" (handleEditMessage "m1" blankText sampleChat)
  = handleEditMessage "m1" blankText sampleChat.
Proof.
  apply (proj1 (handleSaveEdit_applies_at_most_once "m1" "m2"
                  (handleEditMessage "m1" blankText sampleChat))).
  reflexivity.
Defined.

(** X11.  Saving an edit keeps the conversation's shape.  The messages
    keep their number, order, ids, roles and other fields; a message with
    another id is untouched; a message whose content changed now holds
    the edit text, as its content and as its single text part, and that
    text is not blank; and when the edit text is not blank, every message
    with the edited id does change to it. *)
Theorem handleSaveEdit_keeps_conversation_shape messageId st :
  map m_id (messages (handleSaveEdit messageId st)) = map m_id (messages st)
  /\ map m_role (messages (handleSaveEdit messageId st))
     = map m_role (messages st)
  /\ map m_rest (messages (handleSaveEdit messageId st))
     = map m_rest (messages st)
  /\ (forall i msg,
         messages st !! i = Some msg ->
         m_id msg <> messageId ->
         messages (handleSaveEdit messageId st) !! i = Some msg)
  /\ (forall i msg msg',
         messages st !! i = Some msg ->
         messages (handleSaveEdit messageId st) !! i = Some msg' ->
         msg' = msg
         \/ m_id msg = messageId
            /\ m_content msg' = editingText st
            /\ m_parts msg' = [textPart (editingText st)]
            /\ trim (m_content msg') <> []
            /\ allWhitespace (m_content msg') = false)
  /\ (forall i msg,
         messages st !! i = Some msg ->
         m_id msg = messageId ->
         allWhitespace (editingText st) = false ->
         messages (handleSaveEdit messageId st) !! i
         = Some {| m_id := m_id msg; m_role := m_role msg;
                   m_content := editingText st;
                   m_parts := [textPart (editingText st)];
                   m_rest := m_rest msg |}).
Proof.
  destruct (truthy (trim (editingText st))) eqn:Htext.
  - rewrite (handleSaveEdit_text messageId st Htext). cbn [messages].
    assert (allWhitespace (editingText st) = false) as Hall.
    { rewrite truthy_trim in Htext. now destruct (allWhitespace (editingText st)). }
    repeat split.
    + rewrite map_map. apply map_ext. intros msg.
      now destruct (String.eqb (m_id msg) messageId).
    + rewrite map_map. apply map_ext. intros msg.
      now destruct (String.eqb (m_id msg) messageId).
    + rewrite map_map. apply map_ext. intros msg.
      now destruct (String.eqb (m_id msg) messageId).
    + intros i msg Hi Hne. rewrite list_lookup_fmap_Some. exists msg.
      split; [| exact Hi].
      destruct (String.eqb_spec (m_id msg) messageId); [contradiction | reflexivity].
    + intros i msg msg' Hi Hi'.
      apply list_lookup_fmap_Some in Hi' as (msg0 & -> & Hi0).
      assert (msg0 = msg) as -> by congruence.
      destruct (String.eqb_spec (m_id msg) messageId) as [Heq | Hne];
        [right | left; reflexivity].
      cbn. repeat split; [exact Heq | | exact Hall].
      intros Hempty. apply (proj1 (trim_empty_iff (editingText st))) in Hempty.
      congruence.
    + intros i msg Hi Hid _. rewrite list_lookup_fmap_Some. exists msg.
      split; [| exact Hi].
      destruct (String.eqb_spec (m_id msg) messageId); [reflexivity | contradiction].
  - rewrite (handleSaveEdit_blank messageId st Htext).
    assert (allWhitespace (editingText st) = true) as Hall.
    { rewrite truthy_trim in Htext. now destruct (allWhitespace (editingText st)). }
    repeat split; auto.
    + intros i msg msg' Hi Hi'. left. congruence.
    + intros i msg _ _ Hno. congruence.
Qed.

End ChatEditTheorems.

(** ** The location check *)
Module LocationVerifierFacts.
Import JsString LocationVerifier.

Lemma includes_of_prefix s sub : String.prefix sub s = true -> includes s sub = true.
Proof.
  intros Hp. destruct s; unfold includes; fold includes; now rewrite Hp.
Qed.

(** Every failure of the file check carries the same opening words. *)
Lemma checkFiles_throws sv message :
  checkFiles sv = Throw message ->
  exists inner,
    message = "Failed to load verification files: " +:+ inner +:+ filesHint.
Proof.
  unfold checkFiles.
  destruct (wasmFetch sv) as [m | wasmOk s1 t1].
  - intros [= <-]. eauto.
  - destruct (zkeyFetch sv) as [m | zkeyOk s2 t2].
    + intros [= <-]. eauto.
    + destruct wasmOk; cbn.
      * destruct zkeyOk; cbn; [discriminate |]. intros [= <-]. eauto.
      * intros [= <-]. eauto.
Qed.

Lemma checkFiles_ok sv :
  checkFiles sv = Ok tt <->
  (exists s1 t1, wasmFetch sv = fetchResponds true s1 t1)
  /\ (exists s2 t2, zkeyFetch sv = fetchResponds true s2 t2).
Proof.
  unfold checkFiles.
  destruct (wasmFetch sv) as [m | wasmOk s1 t1].
  - split; [discriminate | intros [(? & ? & [=]) _]].
  - destruct (zkeyFetch sv) as [m | zkeyOk s2 t2].
    + split; [discriminate | intros [_ (? & ? & [=])]].
    + destruct wasmOk, zkeyOk; cbn.
      * split; [eauto 6 | reflexivity].
      * split; [discriminate | intros [_ (? & ? & [=])]].
      * split; [discriminate | intros [(? & ? & [=]) _]].
      * split; [discriminate | intros [(? & ? & [=]) _]].
Qed.

Lemma failed_to_load_includes inner :
  includes ("Failed to load verification files: " +:+ inner)
           "Failed to load verification files" = true.
Proof.
  apply includes_of_prefix.
  change ("Failed to load verification files: " +:+ inner)
    with ("Failed to load verification files" +:+ (": " +:+ inner)).
  apply CounterAgentFacts.prefix_append.
Qed.

Lemma tryVerify_ok st sv result p :
  tryVerify st sv = returns (result, p) <->
  contractLoaded st = true
  /\ checkFiles sv = Ok tt
  /\ generateProof sv = returns p
  /\ exportCallData sv = returns tt
  /\ verifyProof sv = returns result.
Proof.
  unfold tryVerify.
  destruct (contractLoaded st); cbn; [| split; [discriminate | intros [[=] _]]].
  destruct (checkFiles sv) as [[] | m];
    [| split; [discriminate | intros (_ & [=] & _)]].
  destruct (generateProof sv) as [p' | m];
    [| split; [discriminate | intros (_ & _ & [=] & _)]].
  destruct (exportCallData sv) as [[] | m];
    [| split; [discriminate | intros (_ & _ & _ & [=] & _)]].
  destruct (verifyProof sv) as [r | m];
    [| split; [discriminate | intros (_ & _ & _ & _ & [=])]].
  split.
  - intros [= -> ->]. auto.
  - intros (_ & _ & [= ->] & _ & [= ->]). reflexivity.
Qed.

Lemma generateProof_returns sv p :
  generateProof sv = returns p <->
  fullProve sv = returns p
  \/ (exists e, fullProve sv = throws e) /\ fullProveAbsolute sv = returns p.
Proof.
  unfold generateProof. destruct (fullProve sv) as [p' | e].
  - split; [auto | intros [H | [[e [=]] _]]; exact H].
  - split; [eauto | intros [[=] | [_ H]]; exact H].
Qed.


End LocationVerifierFacts.

Module LocationVerifierTheorems.
Import JsString LocationVerifier LocationVerifierFacts.

(** X12.  The success callback is the result of a complete, positive
    check.  [onVerificationSuccess] is invoked exactly when the contract
    and signer are loaded, both files were fetched with an ok response, a
    proof was generated (at the first attempt, or at the second after the
    first threw), the calldata was exported, and the verifier contract
    answered true.  Whenever it is invoked, the result is true, the state
    holds the proof that was generated, and the success toast was shown
    before it; and if the callback returns, no error is set and nothing
    else is shown. *)
Theorem onVerificationSuccess_iff_contract_accepts st sv :
  (In onVerificationSuccess (snd (verifyLocation st sv)) <->
   contractLoaded st = true
   /\ (exists s1 t1, wasmFetch sv = fetchResponds true s1 t1)
   /\ (exists s2 t2, zkeyFetch sv = fetchResponds true s2 t2)
   /\ (exists p,
          fullProve sv = returns p
          \/ (exists e, fullProve sv = throws e)
             /\ fullProveAbsolute sv = returns p)
   /\ exportCallData sv = returns tt
   /\ verifyProof sv = returns true)
  /\ (In onVerificationSuccess (snd (verifyLocation st sv)) ->
      verificationResult (fst (verifyLocation st sv)) = Some true
      /\ (exists p,
             proof (fst (verifyLocation st sv)) = Some p
             /\ generateProof sv = returns p)
      /\ (exists later,
             snd (verifyLocation st sv)
             = toastSuccess "Location verified successfully!"
               :: onVerificationSuccess :: later)
      /\ (notifySuccess sv = returns tt ->
          error (fst (verifyLocation st sv)) = None
          /\ snd (verifyLocation st sv)
             = [ toastSuccess "Location verified successfully!";
                 onVerificationSuccess ])).
Proof.
  assert (forall settled shown e,
             In onVerificationSuccess (snd (caught settled shown e)) ->
             In onVerificationSuccess shown) as Hcaught.
  { intros settled shown [m |]; cbn; [| auto].
    intros Hin. apply in_app_or in Hin as [Hin | [[=] | []]]. exact Hin. }
  unfold verifyLocation.
  destruct (tryVerify st sv) as [[result p] | e] eqn:Htry.
  - apply tryVerify_ok in Htry as (Hc & Hfiles & Hproof & Hexport & Hverify).
    apply checkFiles_ok in Hfiles as [Hw Hz].
    pose proof (proj1 (generateProof_returns sv p) Hproof) as Hgen.
    destruct result.
    + assert (In onVerificationSuccess
                (snd (match notifySuccess sv with
                      | returns _ =>
                          (withOutcome st (Some true) (Some p) None,
                           [ toastSuccess "Location verified successfully!";
                             onVerificationSuccess ])
                      | throws e =>
                          caught (withOutcome st (Some true) (Some p) None)
                            [ toastSuccess "Location verified successfully!";
                              onVerificationSuccess ] e
                      end))) as Hin.
      { destruct (notifySuccess sv) as [[] | [m |]]; cbn; auto. }
      split; [split; [intros _; repeat split; eauto | intros _; exact Hin] |].
      intros _.
      destruct (notifySuccess sv) as [[] | [m |]]; cbn;
        (split; [reflexivity |]);
        (split; [eauto |]);
        (split; [eauto |]);
        intros Hret; try discriminate; auto.
    + cbn. split.
      * split; [intros [[=] | []] |].
        intros (_ & _ & _ & _ & _ & Htrue). congruence.
      * intros [[=] | []].
  - split.
    + split.
      * intros Hin. apply Hcaught in Hin. destruct Hin.
      * intros (Hc & Hw & Hz & (p & Hgen) & Hexport & Hverify).
        assert (tryVerify st sv = returns (true, p)) as Hok.
        { apply tryVerify_ok. repeat split; auto.
          - now apply checkFiles_ok.
          - now apply generateProof_returns. }
        congruence.
    + intros Hin. apply Hcaught in Hin. destruct Hin.
Qed.

(** X13.  How a missing or unreachable file is reported.  When the
    contract is loaded and the file check fails (a fetch rejects, or a
    response is not ok, a 404 for instance), the error shown is the
    check's own message, which begins "Failed to load verification files:
    ", unless that message happens to contain "Assert Failed".  The texts
    kept for a 404 ("Verification files not found...") and for network
    errors are never shown for a failed file check, and nothing is
    verified: result, proof and callback stay untouched. *)
Theorem failed_file_check_reports_its_own_message st sv message :
  contractLoaded st = true ->
  checkFiles sv = Throw message ->
  String.prefix "Failed to load verification files: " message = true
  /\ error (fst (verifyLocation st sv))
     = Some (if includes message "Assert Failed"
             then "Your current location is not within the selected state's boundaries."
             else message)
  /\ error (fst (verifyLocation st sv))
     <> Some "Verification files not found. Please ensure LocationVerifier.wasm and LocationVerifier_final.zkey are in the public folder."
  /\ error (fst (verifyLocation st sv))
     <> Some "Network error while loading verification files. Please check your connection and try again."
  /\ verificationResult (fst (verifyLocation st sv)) = verificationResult st
  /\ proof (fst (verifyLocation st sv)) = proof st
  /\ snd (verifyLocation st sv) = [ toastError "Verification failed" ].
Proof.
  intros Hc Hfiles.
  destruct (checkFiles_throws sv message Hfiles) as [inner ->].
  assert (tryVerify st sv
          = throws (withMessage ("Failed to load verification files: "
                                 +:+ inner +:+ filesHint)))
    as Htry.
  { unfold tryVerify. now rewrite Hc, Hfiles. }
  unfold verifyLocation. rewrite Htry. cbn [fst snd error withOutcome
    verificationResult proof caught app].
  split; [apply CounterAgentFacts.prefix_append |].
  unfold errorText. rewrite failed_to_load_includes.
  destruct (includes _ "Assert Failed");
    repeat split; try discriminate.
Qed.

Lemma failed_file_check_witness :
  String.prefix "Failed to load verification files: "
    ("Failed to load verification files: WASM file not found: 404 Not Found"
     +:+ filesHint) = true
  /\ error (fst (verifyLocation filledForm wasmMissing))
     = Some ("Failed to load verification files: WASM file not found: 404 Not Found"
             +:+ filesHint).
Proof.
  destruct (failed_file_check_reports_its_own_message filledForm wasmMissing
              ("Failed to load verification files: WASM file not found: 404 Not Found"
               +:+ filesHint) eq_refl eq_refl)
    as (Hprefix & Herror & _).
  split; [exact Hprefix | exact Herror].
Defined.


End LocationVerifierTheorems.

(** ** From a multisig response to the card *)
Module MultisigCardTheorems.
Import TransactionUtils Executor Web WebView ExtractSpec ExtractFacts Samples.

(** X15.  Which card a multisig response gets, for either revision of the
    extractor and any hook result.  A response without metadata renders
    nothing.  A response with metadata but no plan (no [txData], or an
    operation that is not a write operation, such as [isOwner]) renders
    the read-only status card, which has no button.  A write operation
    with its [txData] renders the transaction card; there a disconnected
    wallet sees the Connect button only. *)
Theorem multisig_response_card :
  (forall r isConnected h,
      let e := MultisigUtils.extractMultisigTransactionData r in
      let v := MultisigTradeWith (MultisigUtils.txPreview e)
                 (MultisigUtils.txPlan e) isConnected h in
      (MultisigUtils.metadata r = None -> v = nothing)
      /\ (MultisigUtils.metadata r <> None -> MultisigUtils.txPlan e = None ->
          v = readOnlyCard /\ buttonsOf v = [])
      /\ (MultisigUtils.txPlan e <> None ->
          (exists m td, MultisigUtils.metadata r = Some m
                        /\ MultisigUtils.txData m = Some td
                        /\ multisigWrite (MultisigUtils.operation m))
          /\ (exists b, v = transactionCard b)
          /\ (isConnected = false -> buttonsOf v = [])))
  /\ (forall r isConnected h,
      let e := MultisigUtilsDeposit.extractMultisigTransactionData r in
      let v := MultisigTradeWith (MultisigUtilsDeposit.txPreview e)
                 (MultisigUtilsDeposit.txPlan e) isConnected h in
      (MultisigUtilsDeposit.metadata r = None -> v = nothing)
      /\ (MultisigUtilsDeposit.metadata r <> None ->
          MultisigUtilsDeposit.txPlan e = None ->
          v = readOnlyCard /\ buttonsOf v = [])
      /\ (MultisigUtilsDeposit.txPlan e <> None ->
          (exists m td, MultisigUtilsDeposit.metadata r = Some m
                        /\ MultisigUtilsDeposit.txData m = Some td
                        /\ multisigDepositWrite (MultisigUtilsDeposit.operation m))
          /\ (exists b, v = transactionCard b)
          /\ (isConnected = false -> buttonsOf v = []))).
Proof.
  split; intros r isConnected h e v; subst v e.
  - destruct (multisig_txPlan_cases r)
      as [(m & td & Hm & Htd & Hop & Hp) | [Hno Hp]]; rewrite Hp.
    + unfold MultisigUtils.extractMultisigTransactionData. rewrite Hm. cbn.
      split; [discriminate |]. split; [intros _ [=] |]. intros _.
      split; [eauto |]. split; [eauto |]. now intros ->.
    + split; [| split; [| congruence]].
      * intros Hnone.
        unfold MultisigUtils.extractMultisigTransactionData. now rewrite Hnone.
      * intros Hsome _.
        unfold MultisigUtils.extractMultisigTransactionData.
        destruct (MultisigUtils.metadata r); [| congruence]. split; reflexivity.
  - destruct (multisigDeposit_txPlan_cases r)
      as [(m & td & Hm & Htd & Hop & Hp) | [Hno Hp]]; rewrite Hp.
    + unfold MultisigUtilsDeposit.extractMultisigTransactionData. rewrite Hm. cbn.
      split; [discriminate |]. split; [intros _ [=] |]. intros _.
      split; [eauto |]. split; [eauto |]. now intros ->.
    + split; [| split; [| congruence]].
      * intros Hnone.
        unfold MultisigUtilsDeposit.extractMultisigTransactionData.
        now rewrite Hnone.
      * intros Hsome _.
        unfold MultisigUtilsDeposit.extractMultisigTransactionData.
        destruct (MultisigUtilsDeposit.metadata r); [| congruence].
        split; reflexivity.
Qed.

End MultisigCardTheorems.

(** ** The multisig agent (second revision): the parser *)
Module MultisigParserFacts.
Import TransactionUtils JsString JsRegex MultisigTradeAgent.

Lemma includes_cons c s sub : includes s sub = true -> includes (String c s) sub = true.
Proof.
  intros Hin. unfold includes at 1; fold includes. rewrite Hin. apply orb_true_r.
Qed.

Lemma includes_prefix s sub : String.prefix sub s = true -> includes s sub = true.
Proof.
  intros Hp. destruct s; unfold includes; fold includes; now rewrite Hp.
Qed.

Lemma stripPrefix_includes p s rest : stripPrefix p s = Some rest -> includes s p = true.
Proof.
  intros H. apply includes_prefix.
  exact (CounterParserFacts.stripPrefix_prefix p s rest H).
Qed.

(** What is left after a literal or a run is a tail of the string, so
    whatever it contains the string contains. *)
Lemma stripPrefix_tail p s rest sub :
  stripPrefix p s = Some rest -> includes rest sub = true -> includes s sub = true.
Proof.
  revert s. induction p as [| a p IH]; intros s.
  - now intros [= ->].
  - destruct s as [| b s]; [discriminate |]. cbn.
    destruct (Ascii.eqb a b); [| discriminate].
    intros Hs Hin. apply includes_cons. eauto.
Qed.

Lemma takeRun_tail class s run rest sub :
  takeRun class s = (run, rest) -> includes rest sub = true ->
  includes s sub = true.
Proof.
  revert run rest. induction s as [| c s IH]; intros run rest.
  - now intros [= <- <-].
  - cbn. destruct (class c).
    + destruct (takeRun class s) as [run' rest'] eqn:Hrun.
      intros [= <- <-] Hin. apply includes_cons. eauto.
    + now intros [= <- <-].
Qed.

Lemma plus_tail class s run rest sub :
  plus class s = Some (run, rest) -> includes rest sub = true ->
  includes s sub = true.
Proof.
  unfold plus. destruct (takeRun class s) as [run' rest'] eqn:Hrun.
  destruct (truthy run'); [| discriminate].
  intros [= <- <-]. eauto using takeRun_tail.
Qed.

(** A pattern that opens with a literal matches only where the literal
    occurs. *)
Lemma search_lit_includes {A : Type} text (next : string -> option A) s a :
  search (lit text next) s = Some a -> includes s text = true.
Proof.
  induction s as [| c s IH]; cbn [search].
  - unfold lit. destruct (stripPrefix text EmptyString) eqn:Hs; [| discriminate].
    intros _. eauto using stripPrefix_includes.
  - unfold lit at 1. destruct (stripPrefix text (String c s)) as [rest |] eqn:Hs.
    + destruct (next rest).
      * intros _. eauto using stripPrefix_includes.
      * intros H. apply includes_cons. auto.
    + intros H. apply includes_cons. auto.
Qed.

Lemma ownerPattern_includes s x : ownerPattern s = Some x -> includes s "owner" = true.
Proof.
  assert (forall verb s x,
             lit verb (fun s => '(_, s) ← plus isSpace s;
                                lit "owner" (fun _ => Some tt) s) s = Some x ->
             includes s "owner" = true) as Hbranch.
  { intros verb s0 x0. unfold lit at 1.
    destruct (stripPrefix verb s0) as [r1 |] eqn:H1; [| discriminate].
    destruct (plus isSpace r1) as [[run r2] |] eqn:H2; [| discriminate]. cbn.
    unfold lit. destruct (stripPrefix "owner" r2) as [r3 |] eqn:H3; [| discriminate].
    intros _. eapply stripPrefix_tail; [exact H1 |].
    eapply plus_tail; [exact H2 |]. eauto using stripPrefix_includes. }
  unfold ownerPattern.
  destruct (lit "is" _ s) eqn:H1; [intros _; eauto |].
  eauto.
Qed.

Lemma search_ownerPattern_includes s x :
  search ownerPattern s = Some x -> includes s "owner" = true.
Proof.
  induction s as [| c s IH]; cbn [search].
  - destruct (ownerPattern EmptyString) eqn:H; [| discriminate].
    intros _. eauto using ownerPattern_includes.
  - destruct (ownerPattern (String c s)) eqn:H.
    + intros _. eauto using ownerPattern_includes.
    + intros Hs. apply includes_cons. eauto.
Qed.

(** Each test [match || includes(keyword)] of the parser comes down to
    the keyword. *)
Lemma match_or_includes {A : Type} (m : option A) s keyword :
  (forall a, m = Some a -> includes s keyword = true) ->
  isSome m || includes s keyword = includes s keyword.
Proof.
  intros H. destruct m as [a |]; [| reflexivity].
  cbn. symmetry. eauto.
Qed.

Lemma parseInstruction_type instruction userAddress :
  type (parseInstruction instruction userAddress)
  = operationFor (toLowerCase instruction).
Proof.
  unfold parseInstruction, operationFor.
  set (l := toLowerCase instruction).
  rewrite (match_or_includes (search swapPattern l) l "swap")
    by (intros a; apply search_lit_includes).
  destruct (includes l "swap"); [reflexivity |].
  rewrite (match_or_includes (search initPattern l) l "initialize")
    by (intros a; apply search_lit_includes).
  destruct (includes l "initialize"); [reflexivity |].
  rewrite (match_or_includes (search submitPattern l) l "submit")
    by (intros a; apply search_lit_includes).
  destruct (includes l "submit"); [reflexivity |].
  rewrite (match_or_includes (search (indexPattern "confirm") l) l "confirm")
    by (intros a; apply search_lit_includes).
  destruct (includes l "confirm"); [reflexivity |].
  rewrite (match_or_includes (search (indexPattern "execute") l) l "execute")
    by (intros a; apply search_lit_includes).
  destruct (includes l "execute"); [reflexivity |].
  rewrite (match_or_includes (search ownerPattern l) l "owner")
    by (intros a; apply search_ownerPattern_includes).
  destruct (includes l "owner"); reflexivity.
Qed.

End MultisigParserFacts.

(** ** The multisig agent (second revision): tasks *)
Module MultisigTaskFacts.
Import TransactionUtils JsString JsRegex MultisigTradeAgent MultisigParserFacts.

Lemma truthy_false_iff s : truthy s = false <-> s = EmptyString.
Proof.
  unfold truthy. rewrite negb_false_iff. apply String.eqb_eq.
Qed.

(** The shape of the parsed operation, by its type. *)
Lemma parseInstruction_shape instruction userAddress :
  let op := parseInstruction instruction userAddress in
  match type op with
  | swap => (exists sd, swapData op = Some sd) /\ multisigData op = None
  | initialize =>
      swapData op = None
      /\ exists n, multisigData op = Some
           {| owners := Some [userAddress];
              numConfirmationsRequired := Some n;
              txIndex := None; md_to := None; md_value := None;
              md_data := None; checkAddress := None |}
  | submitTransaction =>
      swapData op = None
      /\ multisigData op = Some
           {| owners := None; numConfirmationsRequired := None;
              txIndex := None; md_to := Some userAddress;
              md_value := Some "0"; md_data := Some "0x";
              checkAddress := None |}
  | confirmTransaction | executeTransaction =>
      swapData op = None
      /\ exists i, multisigData op = Some
           {| owners := None; numConfirmationsRequired := None;
              txIndex := Some i; md_to := None; md_value := None;
              md_data := None; checkAddress := None |}
  | isOwner =>
      swapData op = None
      /\ multisigData op = Some
           {| owners := None; numConfirmationsRequired := None;
              txIndex := None; md_to := None; md_value := None;
              md_data := None; checkAddress := Some userAddress |}
  end.
Proof.
  unfold parseInstruction. cbv zeta.
  repeat match goal with
    | |- context [if ?c then _ else _] =>
        lazymatch c with
        | (_ || _)%bool => destruct c
        end
    end; cbn; eauto.
Qed.

Lemma handleSwapTransaction_result w taskId userAddress sd r :
  handleSwapTransaction w taskId userAddress sd = r ->
  match r with
  | Ok task => signingTask w task
  | Throw message => encoderThrew w message
  end.
Proof.
  intros <-. unfold handleSwapTransaction.
  match goal with
  | |- context [encodeSubmit w ?a ?b ?c] =>
      destruct (encodeSubmit w a b c) as [d | m] eqn:Henc
  end.
  - exists d. eexists. repeat split. cbn. auto 10.
  - left. eauto.
Qed.

Lemma dispatch_result w taskId userAddress instruction :
  match dispatch w taskId userAddress (parseInstruction instruction userAddress) with
  | Ok task =>
      (signingTask w task \/ plainTask task)
      /\ exists m, t_metadata task = operationMetadata m
  | Throw message =>
      ValidationFailure (parseInstruction instruction userAddress) userAddress message
      \/ encoderThrew w message
  end.
Proof.
  pose proof (parseInstruction_shape instruction userAddress) as Hshape.
  cbv zeta in Hshape. unfold dispatch.
  destruct (type (parseInstruction instruction userAddress)) eqn:Htype.
  - destruct Hshape as [[sd ->] _].
    pose proof (handleSwapTransaction_result w taskId userAddress sd _ eq_refl) as H.
    destruct (handleSwapTransaction w taskId userAddress sd) as [task | m]; auto.
    split; [now left |]. destruct H as (d & m & _ & _ & Hm & _). eauto.
  - destruct Hshape as [_ [n Hdata]]. rewrite Hdata. cbn.
    destruct (N.eqb_spec n 0) as [-> | Hn].
    + left. eapply zero_confirmations; eauto.
    + unfold handleInitialize.
      destruct (encodeInitialize w [userAddress] n) as [d | m] eqn:Henc.
      * split; [| cbn; eauto]. left. exists d. eexists. repeat split. cbn. auto 10.
      * right. right. left. eauto.
  - destruct Hshape as [_ Hdata]. rewrite Hdata. cbn.
    destruct (truthy userAddress) eqn:Ha; cbn.
    + unfold handleSubmitTransaction.
      destruct (encodeSubmit w userAddress "0" "0x") as [d | m] eqn:Henc.
      * split; [| cbn; eauto]. left. exists d. eexists. repeat split. cbn. auto 10.
      * right. left. eauto.
    + left. apply submit_without_address; [exact Htype |].
      now apply truthy_false_iff.
  - destruct Hshape as [_ [i Hdata]]. rewrite Hdata. cbn.
    unfold handleConfirmTransaction.
    destruct (encodeConfirm w i) as [d | m] eqn:Henc.
    + split; [| cbn; eauto]. left. exists d. eexists. repeat split. cbn. auto 10.
    + right. right. right. left. eauto.
  - destruct Hshape as [_ [i Hdata]]. rewrite Hdata. cbn.
    unfold handleExecuteTransaction.
    destruct (encodeExecute w i) as [d | m] eqn:Henc.
    + split; [| cbn; eauto]. left. exists d. eexists. repeat split. cbn. auto 10.
    + right. right. right. right. eauto.
  - destruct Hshape as [_ Hdata]. rewrite Hdata. cbn.
    destruct (truthy userAddress) eqn:Ha.
    + unfold handleIsOwner. destruct (readIsOwner w userAddress);
        (split; [| cbn; eauto]); right; cbn; repeat split; auto.
    + left. apply owner_without_address; [exact Htype |].
      now apply truthy_false_iff.
Qed.

Lemma validation_throws w taskId userAddress instruction message :
  ValidationFailure (parseInstruction instruction userAddress) userAddress message ->
  dispatch w taskId userAddress (parseInstruction instruction userAddress)
  = Throw message.
Proof.
  pose proof (parseInstruction_shape instruction userAddress) as Hshape.
  cbv zeta in Hshape. unfold dispatch.
  intros [data owners Htype Hdata Howners Hzero | Htype -> | Htype ->];
    rewrite Htype in *.
  - rewrite Hdata. now rewrite Howners, Hzero.
  - destruct Hshape as [_ ->]. reflexivity.
  - destruct Hshape as [_ ->]. reflexivity.
Qed.

Lemma encoderWorks_never_threw w message :
  encoderWorks w -> ~ encoderThrew w message.
Proof.
  intros (Hs & Hi & Hc & He)
    [(to & value & data & H) | [(owners & n & H) | [(i & H) | (i & H)]]].
  - destruct (Hs to value data). congruence.
  - destruct (Hi owners n). congruence.
  - destruct (Hc i). congruence.
  - destruct (He i). congruence.
Qed.

Lemma offlineWorld_encoderWorks : encoderWorks offlineWorld.
Proof. repeat split; intros; eexists; reflexivity. Qed.

(** A run of digits contains no keyword. *)
Lemma includes_digits t k keyword :
  isDigit k = false -> Wei.allDigits t = true ->
  includes t (String k keyword) = false.
Proof.
  intros Hk. induction t as [| c t IH]; [reflexivity |].
  cbn [Wei.allDigits]. intros [Hc Ht]%andb_true_iff.
  unfold includes; fold includes. rewrite (IH Ht), orb_false_r.
  cbn. destruct (ascii_dec k c) as [-> | _]; [congruence | reflexivity].
Qed.

Lemma takeRun_digits t :
  Wei.allDigits t = true -> takeRun isDigit t = (t, EmptyString).
Proof.
  induction t as [| c t IH]; [reflexivity |].
  cbn. intros [Hc Ht]%andb_true_iff. now rewrite Hc, (IH Ht).
Qed.

Lemma plus_digits t :
  Wei.allDigits t = true -> truthy t = true ->
  plus isDigit t = Some (t, EmptyString).
Proof.
  intros Hall Ht. unfold plus. now rewrite (takeRun_digits _ Hall), Ht.
Qed.

(** A match of the swap pattern is a match of "swap". *)
Lemma search_swapPattern_includes s :
  includes s "swap" = false -> search swapPattern s = None.
Proof.
  intros Hno. destruct (search swapPattern s) as [g |] eqn:Hs; [| reflexivity].
  apply search_lit_includes in Hs. congruence.
Qed.

Lemma search_lit_none {A : Type} text (next : string -> option A) s :
  includes s text = false -> search (lit text next) s = None.
Proof.
  intros Hno. destruct (search (lit text next) s) as [a |] eqn:Hs; [| reflexivity].
  apply search_lit_includes in Hs. congruence.
Qed.

Lemma append_cons c p s : String c p +:+ s = String c (p +:+ s).
Proof. reflexivity. Qed.

Lemma includes_step c s sub :
  String.prefix sub (String c s) = false ->
  includes (String c s) sub = includes s sub.
Proof. intros H. unfold includes at 1; fold includes. now rewrite H. Qed.

Lemma stripPrefix_append p s : stripPrefix p (p +:+ s) = Some s.
Proof.
  induction p as [| c p IH]; [reflexivity |].
  rewrite append_cons. cbn [stripPrefix]. now rewrite Ascii.eqb_refl.
Qed.

Lemma lit_append {A : Type} text (next : string -> option A) s :
  lit text next (text +:+ s) = next s.
Proof. unfold lit. now rewrite stripPrefix_append. Qed.

Lemma alt_second {A : Type} a b (next : string -> option A) s :
  lit a next s = None -> alt a b next s = lit b next s.
Proof. intros H. unfold alt. now rewrite H. Qed.

Lemma search_here {A : Type} (pattern : string -> option A) s a :
  pattern s = Some a -> search pattern s = Some a.
Proof. intros H. destruct s; cbn [search]; now rewrite H. Qed.

Lemma lazyThen_here {A : Type} (next : string -> option A) s a :
  next s = Some a -> lazyThen next s = Some a.
Proof. intros H. destruct s; cbn [lazyThen]; now rewrite H. Qed.

Lemma lazyThen_skip {A : Type} (next : string -> option A) c s :
  next (String c s) = None -> isLineTerminator c = false ->
  lazyThen next (String c s) = lazyThen next s.
Proof. intros H Hc. cbn [lazyThen]. now rewrite H, Hc. Qed.

Lemma isDigit_not_isSpace c : isDigit c = true -> isSpace c = false.
Proof. destruct c as [[] [] [] [] [] [] [] []]; vm_compute; congruence. Qed.

Lemma takeRun_space_digits t :
  Wei.allDigits t = true -> takeRun isSpace t = (EmptyString, t).
Proof.
  destruct t as [| c t]; [reflexivity |]. cbn [Wei.allDigits takeRun].
  intros [Hc _]%andb_true_iff. now rewrite (isDigit_not_isSpace _ Hc).
Qed.

Lemma plus_space_digits t :
  Wei.allDigits t = true -> plus isSpace (String " "%char t) = Some (" ", t).
Proof.
  intros Hall. unfold plus. cbn [takeRun].
  change (isSpace " "%char) with true. cbv iota.
  now rewrite (takeRun_space_digits _ Hall).
Qed.

(** [\s+(\d+)] on a space and a run of digits. *)
Lemma space_then_digits t :
  Wei.allDigits t = true -> truthy t = true ->
  (plus isSpace (" " +:+ t)
   ≫= λ '(_, s0), plus isDigit s0 ≫= λ '(digits, _), Some digits) = Some t.
Proof.
  intros Hall Ht. change (" " +:+ t) with (String " "%char t).
  rewrite (plus_space_digits _ Hall). cbn.
  now rewrite (plus_digits _ Hall Ht).
Qed.

(** A literal followed by digits contains a keyword only if the literal
    does. *)
Ltac no_keyword t :=
  rewrite !append_cons; change (EmptyString +:+ t) with t;
  rewrite !includes_step by reflexivity; now apply includes_digits.

(** The two instructions with a transaction number, as the parser reads
    them. *)
Lemma parseInstruction_confirm_number t userAddress :
  Wei.allDigits t = true -> truthy t = true ->
  parseInstruction ("confirm transaction " +:+ t) userAddress
  = {| type := confirmTransaction;
       swapData := None;
       multisigData := Some
         {| owners := None; numConfirmationsRequired := None;
            txIndex := Some (parseInt t);
            md_to := None; md_value := None; md_data := None;
            checkAddress := None |} |}.
Proof.
  intros Hall Ht. unfold parseInstruction.
  rewrite CounterParserFacts.toLowerCase_append,
    (CounterNumberFacts.toLowerCase_allDigits _ Hall).
  change (toLowerCase "confirm transaction ") with "confirm transaction ".
  assert (includes ("confirm transaction " +:+ t) "swap" = false) as Hswap
    by no_keyword t.
  assert (includes ("confirm transaction " +:+ t) "initialize" = false)
    as Hinit by no_keyword t.
  assert (includes ("confirm transaction " +:+ t) "submit" = false)
    as Hsubmit by no_keyword t.
  assert (search (indexPattern "confirm") ("confirm transaction " +:+ t)
          = Some t) as Hmatch.
  { apply search_here. unfold indexPattern.
    change ("confirm transaction " +:+ t)
      with ("confirm" +:+ String " "%char ("transaction" +:+ (" " +:+ t))).
    rewrite lit_append, lazyThen_skip by reflexivity.
    apply lazyThen_here. unfold alt. rewrite lit_append.
    now rewrite space_then_digits. }
  cbv zeta.
  replace (search swapPattern _) with (@None (string * string * string))
    by (symmetry; apply search_lit_none; exact Hswap).
  rewrite Hswap.
  replace (search initPattern _) with (@None string)
    by (symmetry; apply search_lit_none; exact Hinit).
  rewrite Hinit.
  replace (search submitPattern _) with (@None unit)
    by (symmetry; apply search_lit_none; exact Hsubmit).
  rewrite Hsubmit.
  rewrite Hmatch. cbn. now rewrite Ht.
Qed.

Lemma parseInstruction_execute_number t userAddress :
  Wei.allDigits t = true -> truthy t = true ->
  parseInstruction ("Execute tx " +:+ t) userAddress
  = {| type := executeTransaction;
       swapData := None;
       multisigData := Some
         {| owners := None; numConfirmationsRequired := None;
            txIndex := Some (parseInt t);
            md_to := None; md_value := None; md_data := None;
            checkAddress := None |} |}.
Proof.
  intros Hall Ht. unfold parseInstruction.
  rewrite CounterParserFacts.toLowerCase_append,
    (CounterNumberFacts.toLowerCase_allDigits _ Hall).
  change (toLowerCase "Execute tx ") with "execute tx ".
  assert (includes ("execute tx " +:+ t) "swap" = false) as Hswap
    by no_keyword t.
  assert (includes ("execute tx " +:+ t) "initialize" = false) as Hinit
    by no_keyword t.
  assert (includes ("execute tx " +:+ t) "submit" = false) as Hsubmit
    by no_keyword t.
  assert (includes ("execute tx " +:+ t) "confirm" = false) as Hconfirm
    by no_keyword t.
  assert (search (indexPattern "execute") ("execute tx " +:+ t) = Some t)
    as Hmatch.
  { apply search_here. unfold indexPattern.
    change ("execute tx " +:+ t)
      with ("execute" +:+ String " "%char ("tx" +:+ (" " +:+ t))).
    rewrite lit_append, lazyThen_skip by reflexivity.
    apply lazyThen_here. rewrite alt_second by reflexivity.
    rewrite lit_append. now rewrite space_then_digits. }
  cbv zeta.
  replace (search swapPattern _) with (@None (string * string * string))
    by (symmetry; apply search_lit_none; exact Hswap).
  rewrite Hswap.
  replace (search initPattern _) with (@None string)
    by (symmetry; apply search_lit_none; exact Hinit).
  rewrite Hinit.
  replace (search submitPattern _) with (@None unit)
    by (symmetry; apply search_lit_none; exact Hsubmit).
  rewrite Hsubmit.
  replace (search (indexPattern "confirm") _) with (@None string)
    by (symmetry; apply search_lit_none; exact Hconfirm).
  rewrite Hconfirm.
  rewrite Hmatch. cbn. now rewrite Ht.
Qed.

Lemma multisig_task_kind w instruction userAddress task :
  processUserInput w instruction userAddress = Ok task ->
  signingTask w task \/ plainTask task.
Proof.
  unfold processUserInput, tryProcess.
  set (taskId := "multisig-trade-" +:+ nowAtStart w +:+ "-" +:+ randomSuffix w).
  pose proof (dispatch_result w taskId userAddress instruction) as Hd.
  destruct (dispatch w taskId userAddress
              (parseInstruction instruction userAddress)) as [t | thrown].
  - intros [= <-]. tauto.
  - intros [= <-]. right. unfold plainTask. cbn. auto.
Qed.

End MultisigTaskFacts.

Module MultisigAgentTheorems.
Import TransactionUtils JsString JsRegex MultisigTradeAgent MultisigParserFacts
  MultisigTaskFacts.

(** X16.  The multisig agent's parser chooses the operation by the first
    keyword found, in the order swap, initialize, submit, confirm,
    execute, owner, and swap when there is none: the regular expressions
    never change the choice, they only supply numbers and tokens.  Swap is
    the one operation with swap data and without multisig data, and every
    address the parser records (the owner list, the recipient, the address
    to check) is the caller's, whatever the instruction names. *)
Theorem multisig_operation_is_first_keyword instruction userAddress :
  let operation := parseInstruction instruction userAddress in
  type operation = operationFor (toLowerCase instruction)
  /\ (multisigData operation = None <-> type operation = swap)
  /\ (swapData operation = None <-> type operation <> swap)
  /\ (forall data, multisigData operation = Some data ->
        (forall owners, MultisigTradeAgent.owners data = Some owners ->
                        owners = [userAddress])
        /\ (forall to, md_to data = Some to -> to = userAddress)
        /\ (forall address, checkAddress data = Some address ->
                            address = userAddress)).
Proof.
  pose proof (parseInstruction_shape instruction userAddress) as Hshape.
  cbv zeta in *. split; [apply parseInstruction_type |].
  destruct (type (parseInstruction instruction userAddress));
    destruct Hshape as [Hswap Hdata];
    repeat match goal with
      | H : exists _, _ |- _ => destruct H as [? H]
      end;
    rewrite Hswap, Hdata;
    (split; [split; congruence | split; [split; congruence |]]);
    intros data [= <-]; cbn; repeat split; congruence.
Qed.

(** X17.  With an encoder that answers every call, [processUserInput]
    returns an error task exactly when one of its three checks fails:
    initialization with zero confirmations, or a submission or an owner
    check for an empty caller address; the task's [metadata.error] is that
    check's message. *)
Theorem multisig_error_task_iff_validation_fails w instruction userAddress :
  encoderWorks w ->
  exists task,
    processUserInput w instruction userAddress = Ok task
    /\ forall message,
        t_metadata task = errorMetadata message
        <-> ValidationFailure (parseInstruction instruction userAddress)
              userAddress message.
Proof.
  intros Hworks. unfold processUserInput, tryProcess.
  set (taskId := "multisig-trade-" +:+ nowAtStart w +:+ "-" +:+ randomSuffix w).
  pose proof (dispatch_result w taskId userAddress instruction) as Hd.
  destruct (dispatch w taskId userAddress
              (parseInstruction instruction userAddress))
    as [task | thrown] eqn:Hdispatch.
  - exists task. split; [reflexivity |]. intros message.
    destruct Hd as [_ [m Hm]]. split.
    + rewrite Hm. discriminate.
    + intros Hv. apply (validation_throws w taskId) in Hv. congruence.
  - eexists. split; [reflexivity |]. intros message. cbn. split.
    + intros [= <-]. destruct Hd as [Hv | Hthrew]; [exact Hv |].
      exfalso. exact (encoderWorks_never_threw w thrown Hworks Hthrew).
    + intros Hv. apply (validation_throws w taskId) in Hv. congruence.
Qed.

Lemma multisig_error_task_witness :
  exists task,
    processUserInput offlineWorld "initialize with 0 confirmations" "0xabc"
    = Ok task
    /\ forall message,
        t_metadata task = errorMetadata message
        <-> ValidationFailure
              (parseInstruction "initialize with 0 confirmations" "0xabc")
              "0xabc" message.
Proof.
  exact (multisig_error_task_iff_validation_fails offlineWorld
           "initialize with 0 confirmations" "0xabc" offlineWorld_encoderWorks).
Defined.

(** X18.  Whatever the instruction and whatever the outside world does,
    the multisig agent returns a task, and the task either asks for one
    signature (a single call of the multisig contract that sends no ETH,
    on Arbitrum Sepolia, status pending, the same call under
    [metadata.txData]) or asks for none (no transaction, no [txData],
    status completed or failed).  An error task names its cause: one of
    the three checks, or the message the encoder threw. *)
Theorem multisig_task_asks_for_one_call_or_none w instruction userAddress :
  exists task,
    processUserInput w instruction userAddress = Ok task
    /\ (signingTask w task \/ plainTask task)
    /\ (forall message,
          t_metadata task = errorMetadata message ->
          t_description task = "MultisigTradeAgent error: " +:+ message
          /\ (ValidationFailure (parseInstruction instruction userAddress)
                userAddress message
              \/ encoderThrew w message)).
Proof.
  unfold processUserInput, tryProcess.
  set (taskId := "multisig-trade-" +:+ nowAtStart w +:+ "-" +:+ randomSuffix w).
  pose proof (dispatch_result w taskId userAddress instruction) as Hd.
  destruct (dispatch w taskId userAddress
              (parseInstruction instruction userAddress))
    as [task | thrown].
  - exists task. destruct Hd as [Hkind [m Hm]].
    split; [reflexivity | split; [exact Hkind |]].
    intros message. rewrite Hm. discriminate.
  - eexists. split; [reflexivity | split].
    + right. unfold plainTask. cbn. auto.
    + cbn. intros message [= <-]. auto.
Qed.

(** X19.  A transaction number survives the trip through an instruction.
    For every [n] in the safe-integer range, "confirm transaction n" is
    parsed as a confirmation of transaction [n] and "Execute tx n" as an
    execution of transaction [n]; and when the encoder answers, the task
    for the confirmation carries the encoding of exactly that index as its
    one transaction, under the title "Confirm Transaction #n". *)
Theorem transaction_index_round_trip w n userAddress :
  (n <= 9007199254740991)%N ->
  (exists data,
      multisigData (parseInstruction ("confirm transaction " +:+ toString n)
                      userAddress) = Some data
      /\ txIndex data = Some n)
  /\ type (parseInstruction ("Execute tx " +:+ toString n) userAddress)
     = executeTransaction
  /\ (exists data,
        multisigData (parseInstruction ("Execute tx " +:+ toString n)
                        userAddress) = Some data
        /\ txIndex data = Some n)
  /\ (forall encoded,
        encodeConfirm w n = Ok encoded ->
        exists task,
          processUserInput w ("confirm transaction " +:+ toString n) userAddress
          = Ok task
          /\ t_transactions task = [ contractCall w encoded ]
          /\ t_title task = "Confirm Transaction #" +:+ toString n).
Proof.
  intros _.
  pose proof (parseInstruction_confirm_number (toString n) userAddress
                (CounterNumberFacts.toString_allDigits n)
                (CounterNumberFacts.toString_truthy n)) as Hconfirm.
  pose proof (parseInstruction_execute_number (toString n) userAddress
                (CounterNumberFacts.toString_allDigits n)
                (CounterNumberFacts.toString_truthy n)) as Hexecute.
  rewrite CounterNumberFacts.parseInt_toString in Hconfirm, Hexecute.
  rewrite Hconfirm, Hexecute. cbn [multisigData type].
  split; [eexists; split; reflexivity |].
  split; [reflexivity |].
  split; [eexists; split; reflexivity |].
  intros encoded Hencoded.
  unfold processUserInput, tryProcess. rewrite Hconfirm.
  unfold dispatch. cbn [type multisigData txIndex].
  unfold handleConfirmTransaction. rewrite Hencoded.
  eexists. repeat split.
Qed.

Lemma transaction_index_round_trip_witness :
  exists task,
    processUserInput offlineWorld ("confirm transaction " +:+ toString 7%N)
      "0xabc" = Ok task
    /\ t_transactions task = [ contractCall offlineWorld "0xconfirm:7" ]
    /\ t_title task = "Confirm Transaction #" +:+ toString 7%N.
Proof.
  destruct (transaction_index_round_trip offlineWorld 7%N "0xabc"
              ltac:(vm_compute; discriminate)) as (_ & _ & _ & Htask).
  exact (Htask "0xconfirm:7" eq_refl).
Defined.

(** X20.  A swap never waits for the swap agent.  When the instruction is
    a swap (by keyword or by default) and the swap agent gives no
    transaction (it is not connected, its call fails, or its answer has no
    [txData]), the agent wraps a placeholder transaction instead: the task
    submits the placeholder to the multisig, and records it as
    [originalSwapTx].  If the encoder refuses the placeholder the result
    is an error task with the encoder's message.  Without the word "swap"
    in the instruction the swap is the default one, 100 USDC for ETH. *)
Theorem swap_without_agent_wraps_placeholder w instruction userAddress :
  operationFor (toLowerCase instruction) = swap ->
  swapAgentSilent w ->
  exists task,
    processUserInput w instruction userAddress = Ok task
    /\ match encodeSubmit w (td_to placeholderSwapTx)
               (td_value placeholderSwapTx) (td_data placeholderSwapTx) with
       | Ok encoded =>
           t_transactions task = [ contractCall w encoded ]
           /\ exists m details,
               t_metadata task = operationMetadata m
               /\ om_operation m = "swap"
               /\ om_originalSwapTx m = Some placeholderSwapTx
               /\ om_swapDetails m = Some details
               /\ (includes (toLowerCase instruction) "swap" = false ->
                   details = defaultSwap)
       | Throw message => t_metadata task = errorMetadata message
       end.
Proof.
  intros Hswap Hsilent.
  pose proof (parseInstruction_type instruction userAddress) as Htype.
  rewrite Hswap in Htype.
  pose proof (parseInstruction_shape instruction userAddress) as Hshape.
  cbv zeta in Hshape. rewrite Htype in Hshape.
  destruct Hshape as [[details Hdetails] _].
  assert (includes (toLowerCase instruction) "swap" = false ->
          details = defaultSwap) as Hdefault.
  { intros Hno. revert Hdetails. unfold parseInstruction. cbv zeta.
    replace (search swapPattern (toLowerCase instruction))
      with (@None (string * string * string))
      by (symmetry; apply search_lit_none; exact Hno).
    rewrite Hno. cbn [isSome orb].
    repeat match goal with
      | |- context [if ?c then _ else _] =>
          lazymatch c with
          | (_ || _)%bool => destruct c
          end
      end; cbn; congruence. }
  unfold processUserInput, tryProcess, dispatch.
  rewrite Htype, Hdetails. unfold handleSwapTransaction.
  match goal with
  | |- context [if mcpConnected w then ?asked else None] =>
      assert ((if mcpConnected w then asked else None) = None) as ->
  end.
  { destruct Hsilent as [-> | Hnever]; [reflexivity |].
    destruct (mcpConnected w); [| reflexivity].
    match goal with
    | |- context [askSwapAgent w ?q] =>
        pose proof (Hnever q) as Hq; destruct (askSwapAgent w q) as [[tx |] |]
    end; [now destruct (Hq tx) | reflexivity | reflexivity]. }
  destruct (encodeSubmit w (td_to placeholderSwapTx)
              (td_value placeholderSwapTx) (td_data placeholderSwapTx))
    as [encoded | message].
  - eexists. split; [reflexivity |]. split; [reflexivity |].
    eexists. exists details. repeat split. exact Hdefault.
  - eexists. split; reflexivity.
Qed.

Lemma swap_without_agent_witness :
  exists task,
    processUserInput offlineWorld "hello there" "0xabc" = Ok task
    /\ t_transactions task
       = [ contractCall offlineWorld
             "0xsubmit:0x1111000000000000000000000000000000001111" ]
    /\ exists m details,
        t_metadata task = operationMetadata m
        /\ om_operation m = "swap"
        /\ om_originalSwapTx m = Some placeholderSwapTx
        /\ om_swapDetails m = Some details
        /\ (includes (toLowerCase "hello there") "swap" = false ->
            details = defaultSwap).
Proof.
  exact (swap_without_agent_wraps_placeholder offlineWorld "hello there"
           "0xabc" eq_refl (or_introl eq_refl)).
Defined.

(** X21.  What the agent asks to be signed is what the web client offers
    to sign.  For any task of [processUserInput], the plan that
    [extractMultisigTransactionData] builds from the task's metadata is
    the task's own list of transactions: the same single step, with the
    chain id the client writes equal to the agent's, or no plan when the
    task has no transaction.  A preview is always extracted. *)
Theorem multisig_task_plan_survives_extraction w instruction userAddress
  task m response :
  processUserInput w instruction userAddress = Ok task ->
  t_metadata task = operationMetadata m ->
  MultisigUtils.metadata response = Some (clientMetadata m) ->
  MultisigUtils.txPlan (MultisigUtils.extractMultisigTransactionData response)
  = planOf (t_transactions task)
  /\ MultisigUtils.txPreview
       (MultisigUtils.extractMultisigTransactionData response) <> None.
Proof.
  intros Hrun Hm Hresponse.
  destruct (multisig_task_kind w instruction userAddress task Hrun)
    as [(encoded & m' & Htxs & _ & Hm' & HtxData & Hop) | (Htxs & _ & Hplain)].
  - assert (m' = m) as -> by congruence.
    unfold MultisigUtils.extractMultisigTransactionData.
    rewrite Hresponse, Htxs. cbn. rewrite HtxData.
    split; [| discriminate].
    cbn in Hop.
    repeat destruct Hop as [<- | Hop]; try reflexivity. destruct Hop.
  - rewrite Hm in Hplain. destruct Hplain as [HtxData _].
    unfold MultisigUtils.extractMultisigTransactionData.
    rewrite Hresponse, Htxs. cbn. rewrite HtxData.
    split; [reflexivity | discriminate].
Qed.

Lemma multisig_task_plan_witness :
  MultisigUtils.txPlan
    (MultisigUtils.extractMultisigTransactionData confirmResponse)
  = planOf (t_transactions confirmTask)
  /\ MultisigUtils.txPreview
       (MultisigUtils.extractMultisigTransactionData confirmResponse) <> None.
Proof.
  exact (multisig_task_plan_survives_extraction offlineWorld "confirm tx 3"
           "0xabc" confirmTask confirmMetadata confirmResponse
           eq_refl eq_refl eq_refl).
Defined.

End MultisigAgentTheorems.
